(** * MpdBuilder: a shallow embedding of packager/mpd/base/mpd_builder.cc

    The builder assembles the root <MPD> element of a DASH manifest from its
    base URLs and periods, adds the attributes that depend on the manifest
    type, and rewrites media paths relative to the manifest.  The embedding
    keeps the shape of the C++ code: the libxml tree is an inductive type
    updated by value, the builder's members are a record threaded through a
    small state monad together with the process log, and a failed DCHECK or
    an undefined C++ operation is an explicit outcome. *)

From Stdlib Require Import ZArith List String Ascii Bool Lia.
From Stdlib Require Import Floats.SpecFloat DecimalString.
Import ListNotations.
Local Open Scope string_scope.
Local Open Scope Z_scope.

(** ** Logging (packager/base/logging.h) *)

Module Logging.

Inductive Severity := INFO | WARNING | ERROR.

Record LogEntry := mkLog { severity : Severity; message : string }.

Definition is_error (e : LogEntry) : bool :=
  match severity e with ERROR => true | _ => false end.

Definition is_warning (e : LogEntry) : bool :=
  match severity e with WARNING => true | _ => false end.

End Logging.
Export Logging.

(** ** Outcomes of a call

    [Returns a] is a normal return.  [Fatal msg] is a process abort from a
    failed DCHECK or NOTREACHED in a build that compiles them in.
    [Undefined] marks an operation the C++ standard leaves undefined
    (front() of an empty vector, an out-of-range conversion). *)

Inductive outcome (A : Type) : Type :=
| Returns (a : A)
| Fatal (msg : string)
| Undefined.
Arguments Returns {A} a.
Arguments Fatal {A} msg.
Arguments Undefined {A}.

Definition returned {A} (o : outcome A) : bool :=
  match o with Returns _ => true | _ => false end.

(** ** The libxml2 tree, as far as the builder touches it *)

Module Xml.

#[warnings="-register-all"]
Inductive xmlNode : Type :=
| XmlElement (name : string) (properties : list (string * string))
             (children : list xmlNode)
| XmlText (content : string)
| XmlComment (content : string).

Record xmlDoc := mkDoc { version : string; doc_children : list xmlNode }.

(** [node->name]: libxml names text and comment nodes "text" and "comment". *)
Definition node_name (n : xmlNode) : string :=
  match n with
  | XmlElement name _ _ => name
  | XmlText _ => "text"
  | XmlComment _ => "comment"
  end.

Definition is_element (n : xmlNode) : bool :=
  match n with XmlElement _ _ _ => true | _ => false end.

(** [node->xmlChildrenNode] followed through [->next]. *)
Definition xmlChildrenNode (n : xmlNode) : list xmlNode :=
  match n with XmlElement _ _ cs => cs | _ => [] end.

Definition node_properties (n : xmlNode) : list (string * string) :=
  match n with XmlElement _ ps _ => ps | _ => [] end.

(** xmlFirstElementChild / xmlNextElementSibling walk the element children. *)
Definition element_children (n : xmlNode) : list xmlNode :=
  filter is_element (xmlChildrenNode n).

Fixpoint get_prop (ps : list (string * string)) (k : string) : option string :=
  match ps with
  | [] => None
  | (k', v) :: rest => if String.eqb k' k then Some v else get_prop rest k
  end.

(** xmlSetProp: overwrite the attribute in place, or append a new one. *)
Fixpoint set_prop (ps : list (string * string)) (k v : string)
  : list (string * string) :=
  match ps with
  | [] => [(k, v)]
  | (k', v') :: rest =>
      if String.eqb k' k then (k', v) :: rest else (k', v') :: set_prop rest k v
  end.

(** xmlUnsetProp: unlink the attribute that xmlGetProp would find. *)
Fixpoint unset_prop (ps : list (string * string)) (k : string)
  : list (string * string) :=
  match ps with
  | [] => []
  | (k', v') :: rest =>
      if String.eqb k' k then rest else (k', v') :: unset_prop rest k
  end.

Definition xmlGetProp (n : xmlNode) (k : string) : option string :=
  get_prop (node_properties n) k.

Definition xmlSetProp (n : xmlNode) (k v : string) : xmlNode :=
  match n with
  | XmlElement name ps cs => XmlElement name (set_prop ps k v) cs
  | _ => n
  end.

Definition xmlUnsetProp (n : xmlNode) (k : string) : xmlNode :=
  match n with
  | XmlElement name ps cs => XmlElement name (unset_prop ps k) cs
  | _ => n
  end.

(** [XmlNode(name)], [XmlNode::SetStringAttribute] and [XmlNode::SetContent]
    of xml_node.h, which wrap xmlNewNode, xmlSetProp and xmlNodeSetContent. *)
Definition XmlNode (name : string) : xmlNode := XmlElement name [] [].

Definition SetStringAttribute (n : xmlNode) (k v : string) : xmlNode :=
  xmlSetProp n k v.

Definition SetContent (n : xmlNode) (content : string) : xmlNode :=
  match n with
  | XmlElement name ps _ => XmlElement name ps [XmlText content]
  | _ => n
  end.

(** Attribute names of an element are pairwise distinct (XML well-formedness). *)
Definition distinct_props (n : xmlNode) : Prop :=
  NoDup (map fst (node_properties n)).

End Xml.
Export Xml.

(** ** Floating point: IEEE-754 values (Stdlib's [spec_float]) *)

Module Fp.

Definition double := spec_float.
Definition float := spec_float.

Definition zero : spec_float := S754_zero false.

(** The C++ comparison [a > b]; false as soon as one side is NaN. *)
Definition gt (a b : spec_float) : bool := SFltb b a.

(** The real value of a finite float is [num * 2^e]; [ceilZ] is the least
    integer that is not below it ([None] for NaN and the infinities). *)
Definition ceilZ (d : double) : option Z :=
  match d with
  | S754_zero _ => Some 0
  | S754_finite s m e =>
      let num := cond_Zopp s (Zpos m) in
      Some (if 0 <=? e then num * 2 ^ e else - ((- num) / 2 ^ (- e)))
  | S754_infinity _ | S754_nan => None
  end.

Definition in_int32 (n : Z) : bool := (- 2 ^ 31 <=? n) && (n <? 2 ^ 31).

(** std::ceil on a double: a value with a non-negative exponent is already
    integral; otherwise the ceiling of [num / 2^(-e)] is rounded to a double
    (exactly, for the values a double can hold), keeping the sign for a
    zero result. *)
Definition std_ceil (d : double) : double :=
  match d with
  | S754_finite s m e =>
      if 0 <=? e then d
      else binary_normalize 53 1024
             (- ((- cond_Zopp s (Zpos m)) / 2 ^ (- e))) 0 s
  | _ => d
  end.

(** The implicit conversion from double to int32_t truncates toward zero;
    it is undefined ([None]) for NaN, the infinities and every value whose
    truncation does not fit. *)
Definition double_to_int32 (d : double) : option Z :=
  match d with
  | S754_zero _ => Some 0
  | S754_finite s m e =>
      let magnitude := if 0 <=? e then Zpos m * 2 ^ e else Zpos m / 2 ^ (- e) in
      let n := cond_Zopp s magnitude in
      if in_int32 n then Some n else None
  | S754_infinity _ | S754_nan => None
  end.

(** [-std::ceil(d)] passed where an int32_t is expected. *)
Definition neg_ceil_to_int32 (d : double) : option Z :=
  double_to_int32 (SFopp (std_ceil d)).

(** The implicit conversion from float to double keeps the value; the
    mantissa is realigned to the 53 bits of a double. *)
Definition double_of_float (f : float) : double :=
  match f with
  | S754_finite s m e =>
      let shift := Z.max 0 (53 - Zpos (digits2_pos m)) in
      S754_finite s (Pos.shiftl m (Z.to_N shift)) (e - shift)
  | _ => f
  end.

(** The double nearest to 5.4: 0x401599999999999A. *)
Definition d5_4 : double := S754_finite false 6079859496950170 (-50).

End Fp.
Export Fp.

(** ** Time (packager/base/time)

    A [Time] is an instant in microseconds relative to the Unix epoch, a
    [TimeDelta] a signed number of microseconds.  Both are integers without
    a bound here; the 64-bit range of base::Time is not modelled. *)

Module BaseTime.

Definition Time := Z.
Definition TimeDelta := Z.

Definition kMicrosecondsPerSecond : Z := 1000000.

Definition FromSeconds (secs : Z) : TimeDelta := secs * kMicrosecondsPerSecond.

Definition time_add (t : Time) (d : TimeDelta) : Time := t + d.

Record Exploded := mkExploded {
  year : Z;            (* four-digit year, e.g. 2016 *)
  month : Z;           (* 1 = January *)
  day_of_week : Z;     (* 0 = Sunday *)
  day_of_month : Z;    (* 1 to 31 *)
  hour : Z;            (* 0 to 23 *)
  minute : Z;          (* 0 to 59 *)
  second : Z;          (* 0 to 59 *)
  millisecond : Z      (* 0 to 999 *)
}.

(** Modelled from the spec: base::Time::UTCExplode lives in
    packager/base/time, outside the translated file.  The spec asks for the
    UTC calendar fields of the instant; this is the proleptic Gregorian
    breakdown of the day count (eras of 400 years starting on 1 March). *)
Definition civil_from_days (days : Z) : Z * Z * Z :=
  let z := days + 719468 in
  let era := z / 146097 in
  let doe := z - era * 146097 in
  let yoe := (doe - doe / 1460 + doe / 36524 - doe / 146096) / 365 in
  let doy := doe - (365 * yoe + yoe / 4 - yoe / 100) in
  let mp := (5 * doy + 2) / 153 in
  let d := doy - (153 * mp + 2) / 5 + 1 in
  let m := if mp <? 10 then mp + 3 else mp - 9 in
  (yoe + era * 400 + (if m <=? 2 then 1 else 0), m, d).

Definition UTCExplode (t : Time) : Exploded :=
  let secs := t / kMicrosecondsPerSecond in
  let days := secs / 86400 in
  let sod := secs mod 86400 in
  let '(y, m, d) := civil_from_days days in
  {| year := y; month := m; day_of_week := (days + 4) mod 7;
     day_of_month := d;
     hour := sod / 3600; minute := (sod mod 3600) / 60; second := sod mod 60;
     millisecond := (t mod kMicrosecondsPerSecond) / 1000 |}.

(** base::Clock: an interface with the single virtual method Now().  A
    clock has a state of its own, which a read may advance. *)
Class Clock (C : Type) := { Now : C -> Time * C }.

(** A clock frozen at one instant (the mock clock of the unit tests). *)
Record FixedClock := mkFixed { fixed_now : Time }.
#[export] Instance FixedClock_Clock : Clock FixedClock :=
  {| Now c := (fixed_now c, c) |}.

(** A clock that moves forward by [tick] microseconds at every read. *)
Record TickingClock := mkTicking { ticking_now : Time; tick : Z }.
#[export] Instance TickingClock_Clock : Clock TickingClock :=
  {| Now c := (ticking_now c, mkTicking (ticking_now c + tick c) (tick c)) |}.

End BaseTime.
Export BaseTime.

(** ** base::StringPrintf, for the integer conversions the builder uses *)

Module Printf.

Definition decimal (n : Z) : string := NilZero.string_of_int (Z.to_int n).

Fixpoint replicate (n : nat) (c : ascii) : string :=
  match n with O => "" | S n' => String c (replicate n' c) end.

(** "%<width>d": right-justified, padded with spaces. *)
Definition pad_d (width : nat) (n : Z) : string :=
  let s := decimal n in
  replicate (width - String.length s) " "%char ++ s.

(** "%0<width>d": zeros go between the sign and the digits. *)
Definition pad_0d (width : nat) (n : Z) : string :=
  if n <? 0 then
    let s := decimal (- n) in
    "-" ++ replicate (width - 1 - String.length s) "0"%char ++ s
  else
    let s := decimal n in
    replicate (width - String.length s) "0"%char ++ s.

End Printf.
Export Printf.

(** StringPrintf("%4d-%02d-%02dT%02d:%02d:%02dZ", ...) of
    XmlDateTimeNowWithOffset. *)
Definition FormatXmlDateTime (e : Exploded) : string :=
  pad_d 4 (year e) ++ "-" ++ pad_0d 2 (month e) ++ "-" ++
  pad_0d 2 (day_of_month e) ++ "T" ++ pad_0d 2 (hour e) ++ ":" ++
  pad_0d 2 (minute e) ++ ":" ++ pad_0d 2 (second e) ++ "Z".

(** The date-time string of an instant moved by [offset_seconds]. *)
Definition XmlDateTime (now : Time) (offset_seconds : Z) : string :=
  FormatXmlDateTime (UTCExplode (time_add now (FromSeconds offset_seconds))).

(** Return current time in XML DateTime format; the clock is read once. *)
Definition XmlDateTimeNowWithOffset {C} `{Clock C} (offset_seconds : Z) (clock : C)
  : string * C :=
  let (time, clock') := Now clock in
  (XmlDateTime time offset_seconds, clock').

(** ** Options, periods and the builder's members *)

(** mpd_options.h declares the two enumerations; the builder names two
    enumerators of each and sends every other value to a [default:] branch.
    The last constructor stands for such a value and carries the integer the
    diagnostic prints. *)
Inductive DashProfile := kOnDemand | kLive | DashProfileOther (value : Z).
Inductive MpdType := kStatic | kDynamic | MpdTypeOther (value : Z).

Record MpdParams := mkMpdParams {
  min_buffer_time : double;
  minimum_update_period : double;
  time_shift_buffer_depth : double;
  suggested_presentation_delay : double
}.

Record MpdOptions := mkMpdOptions {
  dash_profile : DashProfile;
  mpd_type : MpdType;
  mpd_params : MpdParams
}.

(** A Period is consumed through two calls only: GetXml(), which renders its
    subtree or returns null, and GetEarliestTimestamp(), which reports a
    time in seconds or returns false.  The record holds what the two calls
    answer at present. *)
Record Period := mkPeriod {
  Period_GetXml : option xmlNode;
  Period_GetEarliestTimestamp : option double
}.

Record MpdBuilder (C : Type) := mkMpdBuilder {
  mpd_options_ : MpdOptions;
  periods_ : list Period;
  base_urls_ : list string;
  availability_start_time_ : string;
  clock_ : C
}.
Arguments mkMpdBuilder {C}.
Arguments mpd_options_ {C}.
Arguments periods_ {C}.
Arguments base_urls_ {C}.
Arguments availability_start_time_ {C}.
Arguments clock_ {C}.

Definition string_empty (s : string) : bool :=
  match s with EmptyString => true | _ => false end.

Definition MpdType_eqb (a b : MpdType) : bool :=
  match a, b with
  | kStatic, kStatic | kDynamic, kDynamic => true
  | MpdTypeOther x, MpdTypeOther y => x =? y
  | _, _ => false
  end.

(** ** Helpers of the anonymous namespace *)

Definition AddMpdNameSpaceInfo (mpd : xmlNode) : xmlNode :=
  let kXmlNamespace := "urn:mpeg:dash:schema:mpd:2011" in
  let kXmlNamespaceXsi := "http://www.w3.org/2001/XMLSchema-instance" in
  let kXmlNamespaceXlink := "http://www.w3.org/1999/xlink" in
  let kDashSchemaMpd2011 := "urn:mpeg:dash:schema:mpd:2011 DASH-MPD.xsd" in
  let kCencNamespace := "urn:mpeg:cenc:2013" in
  let mpd := SetStringAttribute mpd "xmlns" kXmlNamespace in
  let mpd := SetStringAttribute mpd "xmlns:xsi" kXmlNamespaceXsi in
  let mpd := SetStringAttribute mpd "xmlns:xlink" kXmlNamespaceXlink in
  let mpd := SetStringAttribute mpd "xsi:schemaLocation" kDashSchemaMpd2011 in
  SetStringAttribute mpd "xmlns:cenc" kCencNamespace.

Definition kOnDemandProfile := "urn:mpeg:dash:profile:isoff-on-demand:2011".
Definition kLiveProfile := "urn:mpeg:dash:profile:isoff-live:2011".

Definition IsPeriodNode (node : xmlNode) : bool :=
  String.eqb (node_name node) "Period".

(** Find the first <Period> among the direct children; the result is the
    position of that child, or [None] for the null pointer. *)
Fixpoint find_period (nodes : list xmlNode) (pos : nat) : option nat :=
  match nodes with
  | [] => None
  | node :: next => if IsPeriodNode node then Some pos else find_period next (S pos)
  end.

Definition FindPeriodNode (xml_node : xmlNode) : option nat :=
  find_period (xmlChildrenNode xml_node) 0.

Definition Positive (d : double) : bool := gt d zero.

(** Writing through a node pointer: child [pos] of [parent] becomes [child]. *)
Fixpoint replace_nth (nodes : list xmlNode) (pos : nat) (child : xmlNode)
  : list xmlNode :=
  match nodes, pos with
  | [], _ => []
  | _ :: rest, O => child :: rest
  | n :: rest, S pos' => n :: replace_nth rest pos' child
  end.

Definition set_children (n : xmlNode) (cs : list xmlNode) : xmlNode :=
  match n with
  | XmlElement name ps _ => XmlElement name ps cs
  | _ => n
  end.

(** ** Paths relative to the manifest *)

(** media_info.proto: the three optional path fields the builder rewrites.
    [None] is a field that is not set ([has_x()] is false). *)
Record MediaInfo := mkMediaInfo {
  media_file_name : option string;
  init_segment_name : option string;
  segment_template : option string
}.

(** base::FilePath wraps the path string. *)
Record FilePath := mkFilePath { path_ : string }.

Definition FromUTF8Unsafe (utf8 : string) : FilePath := mkFilePath utf8.
Definition AsUTF8Unsafe (p : FilePath) : string := path_ p.
Definition FilePath_empty (p : FilePath) : bool := string_empty (path_ p).

(** The FilePath operations the builder calls.  They are implemented in
    packager/base/files/file_path.cc and depend on the host's separator
    convention, so the builder is read against this interface. *)
Class FilePathOps := {
  DirName : FilePath -> FilePath;
  AsEndingWithSeparator : FilePath -> FilePath;
  (** [parent.AppendRelativePath(child, &path)]: [Some path] when it
      returns true. *)
  AppendRelativePath : FilePath -> FilePath -> option FilePath;
  NormalizePathSeparatorsTo : FilePath -> ascii -> FilePath
}.

Section PathRewriter.

Context `{FilePathOps}.

Definition MakePathRelative (media_path : string) (parent_path : FilePath)
  : string :=
  let child_path := FromUTF8Unsafe media_path in
  let relative_path :=
    match AppendRelativePath parent_path child_path with
    | Some relative_path => relative_path      (* is_child *)
    | None => child_path
    end in
  AsUTF8Unsafe (NormalizePathSeparatorsTo relative_path "/"%char).

Definition kFileProtocol := "file://".

(** [mpd_path.find(kFileProtocol) == 0 ? mpd_path.substr(size) : mpd_path] *)
Definition strip_file_protocol (mpd_path : string) : string :=
  match String.index 0 kFileProtocol mpd_path with
  | Some O =>
      substring (String.length kFileProtocol)
        (String.length mpd_path - String.length kFileProtocol) mpd_path
  | _ => mpd_path
  end.

Definition MakePathsRelativeToMpd (mpd_path : string) (media_info : MediaInfo)
  : MediaInfo :=
  let mpd_file_path := strip_file_protocol mpd_path in
  if negb (string_empty mpd_file_path) then
    let mpd_dir :=
      AsEndingWithSeparator (DirName (FromUTF8Unsafe mpd_file_path)) in
    if negb (FilePath_empty mpd_dir) then
      let media_info :=
        match media_file_name media_info with
        | Some name =>
            mkMediaInfo (Some (MakePathRelative name mpd_dir))
              (init_segment_name media_info) (segment_template media_info)
        | None => media_info
        end in
      let media_info :=
        match init_segment_name media_info with
        | Some name =>
            mkMediaInfo (media_file_name media_info)
              (Some (MakePathRelative name mpd_dir))
              (segment_template media_info)
        | None => media_info
        end in
      match segment_template media_info with
      | Some name =>
          mkMediaInfo (media_file_name media_info)
            (init_segment_name media_info)
            (Some (MakePathRelative name mpd_dir))
      | None => media_info
      end
    else media_info
  else media_info.

End PathRewriter.

(** *** The FilePath of a host

    Modelled from the spec: the FilePath member functions are implemented
    in packager/base/files/file_path.cc, outside the translated file.  The
    spec speaks of the manifest's containing directory, of a media path
    being a descendant of it, and of separators normalized to '/'; the
    definitions below give these words the meaning they have for
    base::FilePath.  A path is cut into components by taking BaseName and
    DirName in turn, a child is a descendant when the parent's components
    are a proper prefix of its own, and the relative path is built by
    appending the remaining components.  The host is POSIX (the separator
    is '/') or Windows (the separators are '\' and '/', and a path may
    start with a drive letter).  Paths hold no NUL character. *)

Module HostPath.

Section Host.

(** Windows defines FILE_PATH_USES_DRIVE_LETTERS and
    FILE_PATH_USES_WIN_SEPARATORS; POSIX neither. *)
Variable win : bool.

Definition kSeparators : list ascii :=
  if win then ["\"%char; "/"%char] else ["/"%char].

Definition IsSeparator (c : ascii) : bool :=
  existsb (Ascii.eqb c) kSeparators.

(** kSeparators[0] *)
Definition preferred : ascii := hd "/"%char kSeparators.

Definition kCurrentDirectory : list ascii := ["."%char].

Definition is_letter (c : ascii) : bool :=
  let n := nat_of_ascii c in
  ((65 <=? n) && (n <=? 90) || (97 <=? n) && (n <=? 122))%nat.

(** [FindDriveLetter(path) + 1]: 2 when the path starts with a drive
    letter and a colon; 0 otherwise, where FindDriveLetter returns npos and
    the unsigned sum wraps around. *)
Definition after_drive (path : list ascii) : nat :=
  match path with
  | a :: colon :: _ =>
      if win && Ascii.eqb colon ":" && is_letter a then 2%nat else 0%nat
  | _ => 0%nat
  end.

(** The loop of StripTrailingSeparatorsInternal, [pos] running down from
    the length of the path. *)
Fixpoint strip_loop (pos : nat) (path : list ascii) (start : nat)
         (last_stripped : option nat) : list ascii :=
  match pos with
  | O => path
  | S pos' =>
      if (start <? pos)%nat && IsSeparator (nth pos' path Ascii.zero) then
        if negb (pos =? start + 1)%nat
           || match last_stripped with
              | Some l => (l =? start + 2)%nat
              | None => false
              end
           || negb (IsSeparator (nth (start - 1) path Ascii.zero))
        then strip_loop pos' (firstn pos' path) start (Some pos)
        else strip_loop pos' path start last_stripped
      else path
  end.

Definition StripTrailingSeparatorsInternal (path : list ascii) : list ascii :=
  strip_loop (List.length path) path (after_drive path + 1) None.

(** [path.find_last_of(kSeparators)]; [None] is npos. *)
Fixpoint find_last_of (path : list ascii) (i : nat) (found : option nat)
  : option nat :=
  match path with
  | [] => found
  | c :: rest =>
      find_last_of rest (S i) (if IsSeparator c then Some i else found)
  end.

Definition dir_name (path : list ascii) : list ascii :=
  let new_path := StripTrailingSeparatorsInternal path in
  let letter1 := after_drive new_path in
  let new_path :=
    match find_last_of new_path 0 None with
    | None => firstn letter1 new_path          (* in the current directory *)
    | Some last_separator =>
        if (last_separator =? letter1)%nat
        then firstn (letter1 + 1) new_path      (* in the root directory *)
        else if (last_separator =? letter1 + 1)%nat
                && IsSeparator (nth letter1 new_path Ascii.zero)
        then firstn (letter1 + 2) new_path      (* in "//" *)
        else if negb (last_separator =? 0)%nat
        then firstn last_separator new_path     (* trim the basename *)
        else new_path
    end in
  let new_path := StripTrailingSeparatorsInternal new_path in
  if (List.length new_path =? 0)%nat then kCurrentDirectory else new_path.

Definition base_name (path : list ascii) : list ascii :=
  let new_path := StripTrailingSeparatorsInternal path in
  (* The drive letter, if any, is always stripped. *)
  let new_path := skipn (after_drive new_path) new_path in
  match find_last_of new_path 0 None with
  | Some last_separator =>
      if (last_separator <? List.length new_path - 1)%nat
      then skipn (last_separator + 1) new_path
      else new_path
  | None => new_path
  end.

Definition same_path (a b : list ascii) : bool :=
  String.eqb (string_of_list_ascii a) (string_of_list_ascii b).

Definition AreAllSeparators (input : list ascii) : bool :=
  forallb IsSeparator input.

(** The loop [while (current != current.DirName())] of GetComponents; the
    components come out first to last.  Every round shortens the path or
    ends the loop, so the length of the path bounds the rounds. *)
Fixpoint components_loop (rounds : nat) (current : list ascii)
         (ret_val : list (list ascii)) : list ascii * list (list ascii) :=
  match rounds with
  | O => (current, ret_val)
  | S rounds' =>
      if same_path current (dir_name current) then (current, ret_val)
      else
        let base := base_name current in
        components_loop rounds' (dir_name current)
          (if AreAllSeparators base then ret_val else base :: ret_val)
  end.

Definition get_components (path : list ascii) : list (list ascii) :=
  match path with
  | [] => []
  | _ =>
      let (current, ret_val) :=
        components_loop (S (List.length path)) path [] in
      (* Capture root, if any. *)
      let base := base_name current in
      let ret_val :=
        if negb (List.length base =? 0)%nat
           && negb (same_path base kCurrentDirectory)
        then base :: ret_val else ret_val in
      (* Capture drive letter, if any. *)
      let dir := dir_name current in
      if (after_drive dir =? 0)%nat then ret_val
      else firstn (after_drive dir) dir :: ret_val
  end.

Definition to_lower (c : ascii) : ascii :=
  let n := nat_of_ascii c in
  if ((65 <=? n) && (n <=? 90))%nat then ascii_of_nat (n + 32) else c.

(** FilePath::Append *)
Definition append (path component : list ascii) : list ascii :=
  if same_path path kCurrentDirectory && negb (List.length component =? 0)%nat
  then component
  else
    let new_path := StripTrailingSeparatorsInternal path in
    let new_path :=
      if negb (List.length component =? 0)%nat
         && negb (List.length new_path =? 0)%nat
         && negb (IsSeparator (last new_path Ascii.zero))
         (* Don't append a separator if the path is just a drive letter. *)
         && negb (after_drive new_path =? List.length new_path)%nat
      then (new_path ++ [preferred])%list
      else new_path in
    (new_path ++ component)%list.

(** The comparison loop of AppendRelativePath: the child's components
    after the parent's, when the parent's all match. *)
Fixpoint remaining_components (parent child : list (list ascii))
  : option (list (list ascii)) :=
  match parent, child with
  | [], _ => Some child
  | p :: parent', c :: child' =>
      if same_path p c then remaining_components parent' child' else None
  | _ :: _, [] => None
  end.

Definition append_relative_path (parent child : list ascii)
  : option (list ascii) :=
  let parent_components := get_components parent in
  let child_components := get_components child in
  if (List.length parent_components =? 0)%nat
     || (List.length child_components <=? List.length parent_components)%nat
  then None
  else
    let compared :=
      match parent_components, child_components with
      | p :: parent', c :: child' =>
          (* Drive letters are never case sensitive. *)
          if negb (after_drive p =? 0)%nat && negb (after_drive c =? 0)%nat
          then
            if same_path (map to_lower p) (map to_lower c)
            then remaining_components parent' child'
            else None
          else remaining_components parent_components child_components
      | _, _ => remaining_components parent_components child_components
      end in
    match compared with
    | Some rest => Some (fold_left append rest [])
    | None => None
    end.

Definition as_ending_with_separator (path : list ascii) : list ascii :=
  match path with
  | [] => path
  | _ => if IsSeparator (last path Ascii.zero) then path
         else (path ++ [preferred])%list
  end.

Definition normalize_path_separators_to (path : list ascii) (separator : ascii)
  : list ascii :=
  map (fun c => if IsSeparator c then separator else c) path.

Definition of_list (l : list ascii) : FilePath :=
  mkFilePath (string_of_list_ascii l).

Definition to_list (p : FilePath) : list ascii :=
  list_ascii_of_string (path_ p).

Definition ops : FilePathOps :=
  {| DirName p := of_list (dir_name (to_list p));
     AsEndingWithSeparator p := of_list (as_ending_with_separator (to_list p));
     AppendRelativePath parent child :=
       option_map of_list (append_relative_path (to_list parent) (to_list child));
     NormalizePathSeparatorsTo p separator :=
       of_list (normalize_path_separators_to (to_list p) separator) |}.

End Host.

Definition posix : FilePathOps := ops false.
Definition windows : FilePathOps := ops true.

End HostPath.

(** ** The builder *)

Section Builder.

Context {C : Type} `{Clock C}.

(** Whether DCHECK and NOTREACHED are compiled in (a debug build). *)
Variable dcheck_is_on : bool.

(** Collaborators declared outside mpd_builder.cc: whether libxml's
    xmlAddChild accepts a child under a parent, the ISO-8601 duration
    formatter and the duration-hint reader of mpd_utils.h, the version
    strings of version.h, libxml's document printer, and the Period
    constructor. *)
Variable xmlAddChild_ok : xmlNode -> xmlNode -> bool.
Variable SecondsToXmlDuration : double -> string.
Variable GetDurationAttribute : xmlNode -> option float.
Variable GetPackagerVersion : string.
Variable GetPackagerProjectUrl : string.
Variable xmlDocDumpFormatMemoryEnc : xmlDoc -> string.
Variable NewPeriod : MpdOptions -> Period.

(** *** The monad: the builder object, the log, and the outcome *)

Record Env := mkEnv { this : MpdBuilder C; log : list LogEntry }.

Definition M (A : Type) : Type := Env -> outcome (A * Env).

Definition ret {A} (a : A) : M A := fun s => Returns (a, s).

Definition bind {A B} (m : M A) (k : A -> M B) : M B :=
  fun s =>
    match m s with
    | Returns (a, s') => k a s'
    | Fatal msg => Fatal msg
    | Undefined => Undefined
    end.

Notation "x <- m ;; k" := (bind m (fun x => k))
  (at level 61, m at next level, right associativity).
Notation "m ;;; k" := (bind m (fun _ => k))
  (at level 61, right associativity).

Definition undefined {A} : M A := fun _ => Undefined.

Definition LOG (sev : Severity) (msg : string) : M unit :=
  fun s => Returns (tt, mkEnv (this s) (log s ++ [mkLog sev msg])).

Definition DCHECK (cond : bool) (msg : string) : M unit :=
  if cond then ret tt
  else if dcheck_is_on then (fun _ => Fatal msg) else ret tt.

Definition NOTREACHED (msg : string) : M unit := DCHECK false msg.

Definition get_this : M (MpdBuilder C) := fun s => Returns (this s, s).

Definition put_this (b : MpdBuilder C) : M unit :=
  fun s => Returns (tt, mkEnv b (log s)).

Definition set_availability_start_time_ (v : string) : M unit :=
  b <- get_this ;;
  put_this (mkMpdBuilder (mpd_options_ b) (periods_ b) (base_urls_ b) v (clock_ b)).

(** [XmlDateTimeNowWithOffset(offset, clock_.get())]: the read may move the
    clock the builder owns. *)
Definition NowWithOffset (offset_seconds : Z) : M string :=
  b <- get_this ;;
  let (str, clock') := XmlDateTimeNowWithOffset offset_seconds (clock_ b) in
  put_this (mkMpdBuilder (mpd_options_ b) (periods_ b) (base_urls_ b)
              (availability_start_time_ b) clock') ;;;
  ret str.

(** *** XmlNode::AddChild *)

Definition AddChild (parent child : xmlNode) : option xmlNode :=
  if xmlAddChild_ok parent child
  then Some (set_children parent (xmlChildrenNode parent ++ [child]))
  else None.

Definition SetIfPositive (attr_name : string) (value : double) (mpd : xmlNode)
  : xmlNode :=
  if Positive value
  then SetStringAttribute mpd attr_name (SecondsToXmlDuration value)
  else mpd.

(** *** MpdBuilder::AddBaseUrl, MpdBuilder::AddPeriod *)

Definition AddBaseUrl (base_url : string) : M unit :=
  b <- get_this ;;
  put_this (mkMpdBuilder (mpd_options_ b) (periods_ b)
              (base_urls_ b ++ [base_url]) (availability_start_time_ b)
              (clock_ b)).

(** The returned pointer is the position of the new period. *)
Definition AddPeriod : M nat :=
  b <- get_this ;;
  put_this (mkMpdBuilder (mpd_options_ b)
              (periods_ b ++ [NewPeriod (mpd_options_ b)])
              (base_urls_ b) (availability_start_time_ b) (clock_ b)) ;;;
  ret (List.length (periods_ b)).

(** *** MpdBuilder::AddCommonMpdInfo *)

Definition AddCommonMpdInfo (mpd_node : xmlNode) : M xmlNode :=
  b <- get_this ;;
  if Positive (min_buffer_time (mpd_params (mpd_options_ b)))
  then ret (SetStringAttribute mpd_node "minBufferTime"
              (SecondsToXmlDuration
                 (min_buffer_time (mpd_params (mpd_options_ b)))))
  else LOG ERROR "minBufferTime value not specified." ;;; ret mpd_node.

(** *** MpdBuilder::GetStaticMpdDuration *)

(** The inner loop over the element children of one adaptation set. *)
Fixpoint visit_representations (nodes : list xmlNode) (max_duration : float)
  : list xmlNode * float :=
  match nodes with
  | [] => ([], max_duration)
  | representation :: next =>
      if is_element representation then
        match GetDurationAttribute representation with
        | Some duration =>
            let max_duration :=
              if gt max_duration duration then max_duration else duration in
            let (next', m) := visit_representations next max_duration in
            (xmlUnsetProp representation "duration" :: next', m)
        | None =>
            let (next', m) := visit_representations next max_duration in
            (representation :: next', m)
        end
      else
        let (next', m) := visit_representations next max_duration in
        (representation :: next', m)
  end.

(** The outer loop over the element children of the period. *)
Fixpoint visit_adaptation_sets (nodes : list xmlNode) (max_duration : float)
  : list xmlNode * float :=
  match nodes with
  | [] => ([], max_duration)
  | adaptation_set :: next =>
      if is_element adaptation_set then
        let (reps, max_duration) :=
          visit_representations (xmlChildrenNode adaptation_set) max_duration in
        let (next', m) := visit_adaptation_sets next max_duration in
        (set_children adaptation_set reps :: next', m)
      else
        let (next', m) := visit_adaptation_sets next max_duration in
        (adaptation_set :: next', m)
  end.

Definition GetStaticMpdDuration (mpd_node : xmlNode) : M (xmlNode * float) :=
  b <- get_this ;;
  DCHECK (MpdType_eqb kStatic (mpd_type (mpd_options_ b)))
         "Check failed: MpdType::kStatic == mpd_options_.mpd_type" ;;;
  let max_duration := zero in
  match FindPeriodNode mpd_node with
  | None =>
      LOG WARNING "No Period node found. Set MPD duration to 0." ;;;
      ret (mpd_node, zero)
  | Some pos =>
      let period_node := nth pos (xmlChildrenNode mpd_node) (XmlText "") in
      DCHECK (IsPeriodNode period_node) "Check failed: IsPeriodNode(period_node)" ;;;
      let (sets, max_duration) :=
        visit_adaptation_sets (xmlChildrenNode period_node) max_duration in
      ret (set_children mpd_node
             (replace_nth (xmlChildrenNode mpd_node) pos
                (set_children period_node sets)),
           max_duration)
  end.

(** *** MpdBuilder::AddStaticMpdInfo *)

Definition AddStaticMpdInfo (mpd_node : xmlNode) : M xmlNode :=
  b <- get_this ;;
  DCHECK (MpdType_eqb kStatic (mpd_type (mpd_options_ b)))
         "Check failed: MpdType::kStatic == mpd_options_.mpd_type" ;;;
  let mpd_node := SetStringAttribute mpd_node "type" "static" in
  r <- GetStaticMpdDuration mpd_node ;;
  let (mpd_node, duration) := r in
  ret (SetStringAttribute mpd_node "mediaPresentationDuration"
         (SecondsToXmlDuration (double_of_float duration))).

(** *** MpdBuilder::GetEarliestTimestamp *)

Definition GetEarliestTimestamp : M (option double) :=
  b <- get_this ;;
  DCHECK (negb (match periods_ b with [] => true | _ => false end))
         "Check failed: !periods_.empty()" ;;;
  match periods_ b with
  | [] => undefined                       (* front() of an empty list *)
  | front :: _ => ret (Period_GetEarliestTimestamp front)
  end.

(** *** MpdBuilder::AddDynamicMpdInfo *)

Definition AddDynamicMpdInfo (mpd_node : xmlNode) : M xmlNode :=
  b <- get_this ;;
  DCHECK (MpdType_eqb kDynamic (mpd_type (mpd_options_ b)))
         "Check failed: MpdType::kDynamic == mpd_options_.mpd_type" ;;;
  let mpd_node := SetStringAttribute mpd_node "type" "dynamic" in
  (* No offset from NOW. *)
  publish_time <- NowWithOffset 0 ;;
  let mpd_node := SetStringAttribute mpd_node "publishTime" publish_time in
  (* 'availabilityStartTime' is required for dynamic profile. Calculate if
     not already calculated. *)
  (if string_empty (availability_start_time_ b) then
     earliest <- GetEarliestTimestamp ;;
     match earliest with
     | Some earliest_presentation_time =>
         match neg_ceil_to_int32 earliest_presentation_time with
         | Some offset_seconds =>
             str <- NowWithOffset offset_seconds ;;
             set_availability_start_time_ str
         | None => undefined
         end
     | None =>
         LOG ERROR ("Could not determine the earliest segment presentation " ++
                    "time for availabilityStartTime calculation.")
     end
   else ret tt) ;;;
  b <- get_this ;;
  let mpd_node :=
    if negb (string_empty (availability_start_time_ b))
    then SetStringAttribute mpd_node "availabilityStartTime"
           (availability_start_time_ b)
    else mpd_node in
  mpd_node <-
    (if Positive (minimum_update_period (mpd_params (mpd_options_ b)))
     then ret (SetStringAttribute mpd_node "minimumUpdatePeriod"
                 (SecondsToXmlDuration
                    (minimum_update_period (mpd_params (mpd_options_ b)))))
     else LOG WARNING ("The profile is dynamic but no minimumUpdatePeriod " ++
                       "specified.") ;;;
          ret mpd_node) ;;
  let mpd_node :=
    SetIfPositive "timeShiftBufferDepth"
      (time_shift_buffer_depth (mpd_params (mpd_options_ b))) mpd_node in
  ret (SetIfPositive "suggestedPresentationDelay"
         (suggested_presentation_delay (mpd_params (mpd_options_ b))) mpd_node).

(** *** MpdBuilder::GenerateMpd *)

(** Add baseurls to MPD; [None] is the early [return nullptr]. *)
Fixpoint add_base_urls (mpd : xmlNode) (base_urls : list string)
  : option xmlNode :=
  match base_urls with
  | [] => Some mpd
  | base_url :: rest =>
      let xml_base_url := SetContent (XmlNode "BaseURL") base_url in
      match AddChild mpd xml_base_url with
      | None => None
      | Some mpd' => add_base_urls mpd' rest
      end
  end.

Fixpoint add_periods (mpd : xmlNode) (periods : list Period) : option xmlNode :=
  match periods with
  | [] => Some mpd
  | period :: rest =>
      match Period_GetXml period with
      | None => None
      | Some period_node =>
          match AddChild mpd period_node with
          | None => None
          | Some mpd' => add_periods mpd' rest
          end
      end
  end.

Definition kXmlVersion := "1.0".

Definition GenerateMpd : M (option xmlDoc) :=
  b <- get_this ;;
  let mpd := XmlNode "MPD" in
  match add_base_urls mpd (base_urls_ b) with
  | None => ret None
  | Some mpd =>
  match add_periods mpd (periods_ b) with
  | None => ret None
  | Some mpd =>
      let mpd := AddMpdNameSpaceInfo mpd in
      mpd <-
        match dash_profile (mpd_options_ b) with
        | kOnDemand => ret (SetStringAttribute mpd "profiles" kOnDemandProfile)
        | kLive => ret (SetStringAttribute mpd "profiles" kLiveProfile)
        | DashProfileOther v =>
            NOTREACHED ("Unknown DASH profile: " ++ decimal v) ;;; ret mpd
        end ;;
      mpd <- AddCommonMpdInfo mpd ;;
      mpd <-
        match mpd_type (mpd_options_ b) with
        | kStatic => AddStaticMpdInfo mpd
        | kDynamic => AddDynamicMpdInfo mpd
        | MpdTypeOther v =>
            NOTREACHED ("Unknown MPD type: " ++ decimal v) ;;; ret mpd
        end ;;
      let version := GetPackagerVersion in
      if negb (string_empty version) then
        let version_string :=
          "Generated with " ++ GetPackagerProjectUrl ++ " version " ++ version in
        ret (Some (mkDoc kXmlVersion [XmlComment version_string; mpd]))
      else
        ret (Some (mkDoc kXmlVersion [mpd]))
  end
  end.

(** *** MpdBuilder::ToString

    The result pairs the returned flag with the contents of [*output]
    after the call. *)
Definition ToString (output : string) : M (bool * string) :=
  doc <- GenerateMpd ;;
  match doc with
  | None => ret (false, output)
  | Some doc => ret (true, xmlDocDumpFormatMemoryEnc doc)
  end.

(** The <MPD> element of a generated document: the root, after the
    version comment when there is one. *)
Definition mpd_root (doc : xmlDoc) : option xmlNode :=
  match doc_children doc with
  | [mpd] => Some mpd
  | [_; mpd] => Some mpd
  | _ => None
  end.



(** * Properties *)

(** ** Attribute lists *)

Lemma get_prop_set_prop (ps : list (string * string)) (k v k' : string) :
  get_prop (set_prop ps k v) k' =
  if String.eqb k k' then Some v else get_prop ps k'.
Proof.
  induction ps as [|[k0 v0] ps IH]; simpl.
  - reflexivity.
  - destruct (String.eqb k0 k) eqn:E0; simpl.
    + apply String.eqb_eq in E0; subst k0.
      destruct (String.eqb k k'); reflexivity.
    + destruct (String.eqb k0 k') eqn:E1.
      * apply String.eqb_eq in E1; subst k0. rewrite String.eqb_sym, E0. reflexivity.
      * exact IH.
Qed.

Lemma get_prop_not_in (ps : list (string * string)) (k : string) :
  ~ In k (map fst ps) -> get_prop ps k = None.
Proof.
  induction ps as [|[k0 v0] ps IH]; simpl; intros Hn.
  - reflexivity.
  - destruct (String.eqb k0 k) eqn:E.
    + apply String.eqb_eq in E. tauto.
    + apply IH. tauto.
Qed.

Lemma unset_prop_keys (ps : list (string * string)) (k x : string) :
  In x (map fst (unset_prop ps k)) -> In x (map fst ps).
Proof.
  induction ps as [|[k0 v0] ps IH]; simpl; intros Hin.
  - exact Hin.
  - destruct (String.eqb k0 k); simpl in *; tauto.
Qed.

Lemma get_prop_unset_prop (ps : list (string * string)) (k : string) :
  NoDup (map fst ps) -> get_prop (unset_prop ps k) k = None.
Proof.
  induction ps as [|[k0 v0] ps IH]; simpl; intros Hnd.
  - reflexivity.
  - inversion Hnd as [|? ? Hnotin Hnd']; subst.
    destruct (String.eqb k0 k) eqn:E.
    + apply String.eqb_eq in E; subst k0. now apply get_prop_not_in.
    + simpl. rewrite E. now apply IH.
Qed.

Lemma get_prop_unset_prop_other (ps : list (string * string)) (k k' : string) :
  k <> k' -> get_prop (unset_prop ps k) k' = get_prop ps k'.
Proof.
  intros Hne. induction ps as [|[k0 v0] ps IH]; simpl.
  - reflexivity.
  - destruct (String.eqb k0 k) eqn:E; simpl.
    + apply String.eqb_eq in E; subst k0.
      destruct (String.eqb k k') eqn:E'; [apply String.eqb_eq in E'; tauto | reflexivity].
    + now rewrite IH.
Qed.

Lemma set_prop_app_fresh (base rest : list (string * string)) (k v : string) :
  ~ In k (map fst base) -> set_prop (base ++ rest) k v = (base ++ set_prop rest k v)%list.
Proof.
  induction base as [|[k0 v0] base IH]; simpl; intros Hn.
  - reflexivity.
  - destruct (String.eqb k0 k) eqn:E.
    + apply String.eqb_eq in E. tauto.
    + rewrite IH by tauto. reflexivity.
Qed.

Lemma set_prop_keys (ps : list (string * string)) (k v x : string) :
  In x (map fst (set_prop ps k v)) -> x = k \/ In x (map fst ps).
Proof.
  induction ps as [|[k0 v0] ps IH]; simpl.
  - intros [<-|[]]. now left.
  - destruct (String.eqb k0 k) eqn:E; simpl; intros [<-|Hin]; auto.
    destruct (IH Hin); auto.
Qed.

(** ** Nodes *)

Lemma xmlGetProp_SetStringAttribute (n : xmlNode) (k v k' : string) :
  is_element n = true ->
  xmlGetProp (SetStringAttribute n k v) k' =
  if String.eqb k k' then Some v else xmlGetProp n k'.
Proof.
  destruct n; simpl; try discriminate. intros _. apply get_prop_set_prop.
Qed.

Lemma is_element_SetStringAttribute (n : xmlNode) (k v : string) :
  is_element (SetStringAttribute n k v) = is_element n.
Proof. destruct n; reflexivity. Qed.

Lemma is_element_set_children (n : xmlNode) (cs : list xmlNode) :
  is_element (set_children n cs) = is_element n.
Proof. destruct n; reflexivity. Qed.

Lemma node_properties_set_children (n : xmlNode) (cs : list xmlNode) :
  node_properties (set_children n cs) = node_properties n.
Proof. destruct n; reflexivity. Qed.

Lemma xmlGetProp_set_children (n : xmlNode) (cs : list xmlNode) (k : string) :
  xmlGetProp (set_children n cs) k = xmlGetProp n k.
Proof. unfold xmlGetProp. now rewrite node_properties_set_children. Qed.

Lemma xmlChildrenNode_SetStringAttribute (n : xmlNode) (k v : string) :
  xmlChildrenNode (SetStringAttribute n k v) = xmlChildrenNode n.
Proof. destruct n; reflexivity. Qed.

Lemma xmlChildrenNode_set_children (n : xmlNode) (cs : list xmlNode) :
  is_element n = true -> xmlChildrenNode (set_children n cs) = cs.
Proof. destruct n; simpl; try discriminate; reflexivity. Qed.

Lemma node_name_SetStringAttribute (n : xmlNode) (k v : string) :
  node_name (SetStringAttribute n k v) = node_name n.
Proof. destruct n; reflexivity. Qed.

Lemma node_name_set_children (n : xmlNode) (cs : list xmlNode) :
  node_name (set_children n cs) = node_name n.
Proof. destruct n; reflexivity. Qed.

Lemma xmlGetProp_xmlUnsetProp (n : xmlNode) (k : string) :
  distinct_props n -> xmlGetProp (xmlUnsetProp n k) k = None.
Proof.
  destruct n; simpl; intros Hd; try reflexivity.
  now apply get_prop_unset_prop.
Qed.

Lemma IsPeriodNode_is_element (n : xmlNode) :
  IsPeriodNode n = true -> is_element n = true.
Proof. destruct n; simpl; [reflexivity | discriminate | discriminate]. Qed.

Create Rewrite HintDb xml.
#[local] Hint Rewrite is_element_SetStringAttribute is_element_set_children
  node_properties_set_children xmlGetProp_set_children
  xmlChildrenNode_SetStringAttribute node_name_SetStringAttribute
  node_name_set_children : xml.

(** ** Running the monad *)

(** The two [switch] statements of GenerateMpd, named so that the steps of a
    run can be stated one by one. *)
Definition profile_switch (mpd : xmlNode) : M xmlNode :=
  b <- get_this ;;
  match dash_profile (mpd_options_ b) with
  | kOnDemand => ret (SetStringAttribute mpd "profiles" kOnDemandProfile)
  | kLive => ret (SetStringAttribute mpd "profiles" kLiveProfile)
  | DashProfileOther v =>
      NOTREACHED ("Unknown DASH profile: " ++ decimal v) ;;; ret mpd
  end.

Definition type_switch (mpd : xmlNode) : M xmlNode :=
  b <- get_this ;;
  match mpd_type (mpd_options_ b) with
  | kStatic => AddStaticMpdInfo mpd
  | kDynamic => AddDynamicMpdInfo mpd
  | MpdTypeOther v =>
      NOTREACHED ("Unknown MPD type: " ++ decimal v) ;;; ret mpd
  end.

(** The document GenerateMpd hands out for a finished root. *)
Definition wrap_doc (mpd : xmlNode) : xmlDoc :=
  if negb (string_empty GetPackagerVersion) then
    mkDoc kXmlVersion
      [XmlComment ("Generated with " ++ GetPackagerProjectUrl ++ " version " ++
                   GetPackagerVersion); mpd]
  else mkDoc kXmlVersion [mpd].

Lemma mpd_root_wrap_doc (mpd : xmlNode) : mpd_root (wrap_doc mpd) = Some mpd.
Proof. unfold wrap_doc. destruct (negb _); reflexivity. Qed.

(** The attribute steps that follow the two child loops. *)
Definition finish_root (mpd : xmlNode) : M (option xmlDoc) :=
  mpd <- profile_switch (AddMpdNameSpaceInfo mpd) ;;
  mpd <- AddCommonMpdInfo mpd ;;
  mpd <- type_switch mpd ;;
  ret (Some (wrap_doc mpd)).

Lemma profile_switch_run (mpd : xmlNode) (b : MpdBuilder C) (l : list LogEntry) :
  profile_switch mpd (mkEnv b l) =
  match dash_profile (mpd_options_ b) with
  | kOnDemand => Returns (SetStringAttribute mpd "profiles" kOnDemandProfile, mkEnv b l)
  | kLive => Returns (SetStringAttribute mpd "profiles" kLiveProfile, mkEnv b l)
  | DashProfileOther v =>
      if dcheck_is_on then Fatal ("Unknown DASH profile: " ++ decimal v)
      else Returns (mpd, mkEnv b l)
  end.
Proof.
  unfold profile_switch, bind, get_this, ret, NOTREACHED, DCHECK. simpl.
  destruct (dash_profile _); try reflexivity.
  destruct dcheck_is_on; reflexivity.
Qed.

Definition kMinBufferTimeMissing : LogEntry :=
  mkLog ERROR "minBufferTime value not specified.".

Lemma AddCommonMpdInfo_run (mpd : xmlNode) (b : MpdBuilder C) (l : list LogEntry) :
  AddCommonMpdInfo mpd (mkEnv b l) =
  Returns (SetIfPositive "minBufferTime"
             (min_buffer_time (mpd_params (mpd_options_ b))) mpd,
           mkEnv b (if Positive (min_buffer_time (mpd_params (mpd_options_ b)))
                    then l else l ++ [kMinBufferTimeMissing])).
Proof.
  unfold AddCommonMpdInfo, SetIfPositive, bind, get_this, ret, LOG. simpl.
  destruct (Positive _); reflexivity.
Qed.

Lemma GenerateMpd_steps (e : Env) :
  GenerateMpd e =
  match add_base_urls (XmlNode "MPD") (base_urls_ (this e)) with
  | None => Returns (None, e)
  | Some m1 =>
      match add_periods m1 (periods_ (this e)) with
      | None => Returns (None, e)
      | Some m2 => finish_root m2 e
      end
  end.
Proof.
  destruct e as [b l].
  unfold GenerateMpd, finish_root, type_switch.
  unfold bind at 1. unfold get_this at 1. cbn [this].
  destruct (add_base_urls _ _) as [m1|]; [|reflexivity].
  destruct (add_periods _ _) as [m2|]; [|reflexivity].
  unfold bind. rewrite profile_switch_run.
  unfold NOTREACHED, DCHECK, ret, wrap_doc, get_this.
  destruct (dash_profile (mpd_options_ b)); try destruct dcheck_is_on;
    try reflexivity.
  all: rewrite !AddCommonMpdInfo_run; cbn [this].
  all: destruct (mpd_type (mpd_options_ b)); try reflexivity.
  all: try match goal with
       | |- context [match ?x with Returns _ => _ | Fatal _ => _ | Undefined => _ end] =>
           destruct x as [[? ?]| |]; try reflexivity
       end.
  all: destruct (negb _); reflexivity.
Qed.

(** ** The static walk as a function of the root *)

Definition static_walk (mpd_node : xmlNode) : xmlNode * float :=
  match FindPeriodNode mpd_node with
  | None => (mpd_node, zero)
  | Some pos =>
      let period_node := nth pos (xmlChildrenNode mpd_node) (XmlText "") in
      let (sets, max_duration) :=
        visit_adaptation_sets (xmlChildrenNode period_node) zero in
      (set_children mpd_node
         (replace_nth (xmlChildrenNode mpd_node) pos
            (set_children period_node sets)),
       max_duration)
  end.

Definition kNoPeriodFound : LogEntry :=
  mkLog WARNING "No Period node found. Set MPD duration to 0.".

Lemma find_period_spec (nodes : list xmlNode) (start pos : nat) :
  find_period nodes start = Some pos ->
  exists before period after,
    nodes = (before ++ period :: after)%list /\
    pos = (start + List.length before)%nat /\
    IsPeriodNode period = true /\
    Forall (fun n => IsPeriodNode n = false) before.
Proof.
  revert start. induction nodes as [|n nodes IH]; simpl; intros start Hf.
  - discriminate.
  - destruct (IsPeriodNode n) eqn:En.
    + inversion Hf; subst. exists [], n, nodes. simpl.
      split; [reflexivity | split; [lia | split; [assumption | constructor]]].
    + destruct (IH _ Hf) as (before & period & after & -> & -> & Hp & Hb).
      exists (n :: before), period, after. simpl.
      split; [reflexivity | split; [lia | split; [assumption | now constructor]]].
Qed.

Lemma find_period_none (nodes : list xmlNode) (start : nat) :
  find_period nodes start = None <->
  Forall (fun n => IsPeriodNode n = false) nodes.
Proof.
  revert start. induction nodes as [|n nodes IH]; simpl; intros start.
  - split; auto.
  - destruct (IsPeriodNode n) eqn:En.
    + split; [discriminate|]. intros Hf. inversion Hf; congruence.
    + rewrite IH. split; intros Hf; [constructor; auto | now inversion Hf].
Qed.

Lemma nth_middle_node (before after : list xmlNode) (x d : xmlNode) :
  nth (List.length before) (before ++ x :: after) d = x.
Proof. induction before; simpl; auto. Qed.

Lemma replace_nth_middle (before after : list xmlNode) (x y : xmlNode) :
  replace_nth (before ++ x :: after) (List.length before) y
  = (before ++ y :: after)%list.
Proof. induction before; simpl; congruence. Qed.

Lemma GetStaticMpdDuration_run (mpd : xmlNode) (b : MpdBuilder C)
      (l : list LogEntry) :
  mpd_type (mpd_options_ b) = kStatic ->
  GetStaticMpdDuration mpd (mkEnv b l) =
  Returns (static_walk mpd,
           mkEnv b (match FindPeriodNode mpd with
                    | None => l ++ [kNoPeriodFound]
                    | Some _ => l
                    end)).
Proof.
  intros Hs.
  unfold GetStaticMpdDuration, static_walk, bind, get_this, DCHECK, ret, LOG.
  cbn [this log]. rewrite Hs. cbn [MpdType_eqb].
  destruct (FindPeriodNode mpd) as [pos|] eqn:Ef; [|reflexivity].
  unfold FindPeriodNode in Ef.
  destruct (find_period_spec _ _ _ Ef) as (before & period & after & Hc & -> & Hp & _).
  rewrite Hc. cbn [Nat.add]. rewrite nth_middle_node, Hp.
  destruct (visit_adaptation_sets _ _). reflexivity.
Qed.

Lemma AddStaticMpdInfo_run (mpd : xmlNode) (b : MpdBuilder C) (l : list LogEntry) :
  mpd_type (mpd_options_ b) = kStatic ->
  AddStaticMpdInfo mpd (mkEnv b l) =
  let walked := static_walk (SetStringAttribute mpd "type" "static") in
  Returns (SetStringAttribute (fst walked) "mediaPresentationDuration"
             (SecondsToXmlDuration (double_of_float (snd walked))),
           mkEnv b (match FindPeriodNode mpd with
                    | None => l ++ [kNoPeriodFound]
                    | Some _ => l
                    end)).
Proof.
  intros Hs. unfold AddStaticMpdInfo, bind at 1 2, get_this at 1, DCHECK.
  cbn [this]. rewrite Hs. cbn [MpdType_eqb]. unfold ret at 1, bind.
  rewrite GetStaticMpdDuration_run by exact Hs.
  unfold FindPeriodNode. rewrite xmlChildrenNode_SetStringAttribute.
  destruct (static_walk _). reflexivity.
Qed.

(** ** The dynamic attributes, case by case *)

Definition with_clock (b : MpdBuilder C) (c : C) : MpdBuilder C :=
  mkMpdBuilder (mpd_options_ b) (periods_ b) (base_urls_ b)
    (availability_start_time_ b) c.

Definition with_availability_start_time (b : MpdBuilder C) (v : string)
  : MpdBuilder C :=
  mkMpdBuilder (mpd_options_ b) (periods_ b) (base_urls_ b) v (clock_ b).

Definition kNoEarliestTimestamp : LogEntry :=
  mkLog ERROR ("Could not determine the earliest segment presentation " ++
               "time for availabilityStartTime calculation.").

Definition kNoMinimumUpdatePeriod : LogEntry :=
  mkLog WARNING ("The profile is dynamic but no minimumUpdatePeriod " ++
                 "specified.").

(** The three duration attributes at the end of AddDynamicMpdInfo. *)
Definition dynamic_tail (b : MpdBuilder C) (mpd_node : xmlNode) : xmlNode :=
  SetIfPositive "suggestedPresentationDelay"
    (suggested_presentation_delay (mpd_params (mpd_options_ b)))
    (SetIfPositive "timeShiftBufferDepth"
       (time_shift_buffer_depth (mpd_params (mpd_options_ b)))
       (SetIfPositive "minimumUpdatePeriod"
          (minimum_update_period (mpd_params (mpd_options_ b))) mpd_node)).

Definition update_period_log (b : MpdBuilder C) (l : list LogEntry)
  : list LogEntry :=
  if Positive (minimum_update_period (mpd_params (mpd_options_ b)))
  then l else l ++ [kNoMinimumUpdatePeriod].

(** The root after the type and publishTime attributes. *)
Definition dynamic_head (mpd_node : xmlNode) (now : Time) : xmlNode :=
  SetStringAttribute (SetStringAttribute mpd_node "type" "dynamic")
    "publishTime" (XmlDateTime now 0).

Lemma string_empty_append (a b : string) :
  string_empty (a ++ b) = string_empty a && string_empty b.
Proof. destruct a; reflexivity. Qed.

Lemma XmlDateTime_not_empty (now : Time) (offset_seconds : Z) :
  string_empty (XmlDateTime now offset_seconds) = false.
Proof.
  unfold XmlDateTime, FormatXmlDateTime.
  rewrite !string_empty_append. simpl. now rewrite !andb_false_r.
Qed.

Ltac run_dynamic :=
  unfold AddDynamicMpdInfo, NowWithOffset, GetEarliestTimestamp,
    set_availability_start_time_, XmlDateTimeNowWithOffset, dynamic_tail,
    dynamic_head, update_period_log, SetIfPositive, with_clock,
    with_availability_start_time, bind, get_this, put_this, DCHECK, ret, LOG,
    undefined;
  cbn [this log mpd_options_ periods_ base_urls_ availability_start_time_ clock_].

Ltac red_env :=
  cbn [MpdType_eqb negb this log mpd_options_ periods_ base_urls_
       availability_start_time_ clock_].

Lemma AddDynamicMpdInfo_cached (mpd : xmlNode) (b : MpdBuilder C)
      (l : list LogEntry) (now : Time) (c1 : C) :
  mpd_type (mpd_options_ b) = kDynamic ->
  string_empty (availability_start_time_ b) = false ->
  Now (clock_ b) = (now, c1) ->
  AddDynamicMpdInfo mpd (mkEnv b l) =
  Returns (dynamic_tail b
             (SetStringAttribute (dynamic_head mpd now) "availabilityStartTime"
                (availability_start_time_ b)),
           mkEnv (with_clock b c1) (update_period_log b l)).
Proof.
  intros Hd Hc Hn. run_dynamic. rewrite Hd. red_env. rewrite Hn. red_env.
  rewrite Hc. red_env. rewrite Hc. red_env.
  destruct (Positive (minimum_update_period _)); reflexivity.
Qed.

Lemma AddDynamicMpdInfo_no_period (mpd : xmlNode) (b : MpdBuilder C)
      (l : list LogEntry) :
  mpd_type (mpd_options_ b) = kDynamic ->
  string_empty (availability_start_time_ b) = true ->
  periods_ b = [] ->
  AddDynamicMpdInfo mpd (mkEnv b l) =
  if dcheck_is_on then Fatal "Check failed: !periods_.empty()" else Undefined.
Proof.
  intros Hd Hc Hp. run_dynamic. rewrite Hd. red_env.
  destruct (Now (clock_ b)) as [now c1]. red_env. rewrite Hc, Hp. red_env.
  destruct dcheck_is_on; reflexivity.
Qed.

Lemma AddDynamicMpdInfo_no_timestamp (mpd : xmlNode) (b : MpdBuilder C)
      (l : list LogEntry) (now : Time) (c1 : C) (front : Period)
      (rest : list Period) :
  mpd_type (mpd_options_ b) = kDynamic ->
  string_empty (availability_start_time_ b) = true ->
  Now (clock_ b) = (now, c1) ->
  periods_ b = front :: rest ->
  Period_GetEarliestTimestamp front = None ->
  AddDynamicMpdInfo mpd (mkEnv b l) =
  Returns (dynamic_tail b (dynamic_head mpd now),
           mkEnv (with_clock b c1)
                 (update_period_log b (l ++ [kNoEarliestTimestamp]))).
Proof.
  intros Hd Hc Hn Hp Ht. run_dynamic. rewrite Hd. red_env. rewrite Hn. red_env.
  rewrite Hc, Hp. red_env. rewrite Ht. red_env. rewrite Hc. red_env.
  destruct (Positive (minimum_update_period _)); reflexivity.
Qed.

Lemma AddDynamicMpdInfo_computes (mpd : xmlNode) (b : MpdBuilder C)
      (l : list LogEntry) (now1 now2 : Time) (c1 c2 : C) (front : Period)
      (rest : list Period) (t : double) (offset_seconds : Z) :
  mpd_type (mpd_options_ b) = kDynamic ->
  string_empty (availability_start_time_ b) = true ->
  Now (clock_ b) = (now1, c1) ->
  Now c1 = (now2, c2) ->
  periods_ b = front :: rest ->
  Period_GetEarliestTimestamp front = Some t ->
  neg_ceil_to_int32 t = Some offset_seconds ->
  AddDynamicMpdInfo mpd (mkEnv b l) =
  Returns (dynamic_tail b
             (SetStringAttribute (dynamic_head mpd now1) "availabilityStartTime"
                (XmlDateTime now2 offset_seconds)),
           mkEnv (with_clock
                    (with_availability_start_time b
                       (XmlDateTime now2 offset_seconds)) c2)
                 (update_period_log b l)).
Proof.
  intros Hd Hc Hn1 Hn2 Hp Ht Ho. run_dynamic. rewrite Hd. red_env.
  rewrite Hn1. red_env. rewrite Hc, Hp. red_env. rewrite Ht, Ho. red_env.
  rewrite Hn2. red_env. rewrite XmlDateTime_not_empty. red_env.
  destruct (Positive (minimum_update_period _)); reflexivity.
Qed.

Lemma AddDynamicMpdInfo_offset_undefined (mpd : xmlNode) (b : MpdBuilder C)
      (l : list LogEntry) (front : Period) (rest : list Period) (t : double) :
  mpd_type (mpd_options_ b) = kDynamic ->
  string_empty (availability_start_time_ b) = true ->
  periods_ b = front :: rest ->
  Period_GetEarliestTimestamp front = Some t ->
  neg_ceil_to_int32 t = None ->
  AddDynamicMpdInfo mpd (mkEnv b l) = Undefined.
Proof.
  intros Hd Hc Hp Ht Ho. run_dynamic. rewrite Hd. red_env.
  destruct (Now (clock_ b)) as [now c1]. red_env. rewrite Hc, Hp. red_env.
  rewrite Ht, Ho. reflexivity.
Qed.

(** ** The child loops keep the root's name and attributes *)

Lemma AddChild_Some (parent child parent' : xmlNode) :
  AddChild parent child = Some parent' ->
  xmlAddChild_ok parent child = true /\
  parent' = set_children parent (xmlChildrenNode parent ++ [child]).
Proof.
  unfold AddChild. destruct (xmlAddChild_ok parent child); [|discriminate].
  intros Heq; inversion Heq; auto.
Qed.

(** What the loops leave alone. *)
Definition same_shell (n n' : xmlNode) : Prop :=
  is_element n' = is_element n /\ node_name n' = node_name n /\
  node_properties n' = node_properties n.

Lemma same_shell_refl (n : xmlNode) : same_shell n n.
Proof. repeat split. Qed.

Lemma same_shell_trans (a b c : xmlNode) :
  same_shell a b -> same_shell b c -> same_shell a c.
Proof. unfold same_shell. intuition congruence. Qed.

Lemma same_shell_set_children (n : xmlNode) (cs : list xmlNode) :
  same_shell n (set_children n cs).
Proof. unfold same_shell. now autorewrite with xml. Qed.

Lemma AddChild_shell (parent child parent' : xmlNode) :
  AddChild parent child = Some parent' -> same_shell parent parent'.
Proof.
  intros Ha. apply AddChild_Some in Ha as [_ ->]. apply same_shell_set_children.
Qed.

Lemma add_base_urls_shell (urls : list string) (mpd mpd' : xmlNode) :
  add_base_urls mpd urls = Some mpd' -> same_shell mpd mpd'.
Proof.
  revert mpd. induction urls as [|u urls IH]; simpl; intros mpd Ha.
  - inversion Ha. apply same_shell_refl.
  - destruct (AddChild mpd _) as [m|] eqn:E; [|discriminate].
    eapply same_shell_trans; [eapply AddChild_shell; eauto | eauto].
Qed.

Lemma add_periods_shell (periods : list Period) (mpd mpd' : xmlNode) :
  add_periods mpd periods = Some mpd' -> same_shell mpd mpd'.
Proof.
  revert mpd. induction periods as [|p periods IH]; simpl; intros mpd Ha.
  - inversion Ha. apply same_shell_refl.
  - destruct (Period_GetXml p) as [node|]; [|discriminate].
    destruct (AddChild mpd node) as [m|] eqn:E; [|discriminate].
    eapply same_shell_trans; [eapply AddChild_shell; eauto | eauto].
Qed.

(** The root as the two loops leave it: an <MPD> element without
    attributes. *)
Definition bare_root (m : xmlNode) : Prop :=
  is_element m = true /\ node_name m = "MPD" /\ node_properties m = [].

Lemma loops_give_bare_root (b : MpdBuilder C) (m1 m2 : xmlNode) :
  add_base_urls (XmlNode "MPD") (base_urls_ b) = Some m1 ->
  add_periods m1 (periods_ b) = Some m2 ->
  bare_root m2.
Proof.
  intros H1 H2. apply add_base_urls_shell in H1. apply add_periods_shell in H2.
  destruct (same_shell_trans _ _ _ H1 H2) as (He & Hn & Hp).
  unfold bare_root. rewrite He, Hn, Hp. repeat split.
Qed.

(** ** The root after the profile and the common attributes *)

Definition profile_root (b : MpdBuilder C) (m : xmlNode) : xmlNode :=
  match dash_profile (mpd_options_ b) with
  | kOnDemand => SetStringAttribute (AddMpdNameSpaceInfo m) "profiles" kOnDemandProfile
  | kLive => SetStringAttribute (AddMpdNameSpaceInfo m) "profiles" kLiveProfile
  | DashProfileOther _ => AddMpdNameSpaceInfo m
  end.

Definition common_root (b : MpdBuilder C) (m : xmlNode) : xmlNode :=
  SetIfPositive "minBufferTime" (min_buffer_time (mpd_params (mpd_options_ b)))
    (profile_root b m).

Definition common_log (b : MpdBuilder C) (l : list LogEntry) : list LogEntry :=
  if Positive (min_buffer_time (mpd_params (mpd_options_ b)))
  then l else l ++ [kMinBufferTimeMissing].

(** The rest of GenerateMpd once the profile switch has been passed. *)
Definition after_profile (b : MpdBuilder C) (l : list LogEntry) (m : xmlNode)
  : outcome (option xmlDoc * Env) :=
  (mpd <- type_switch (common_root b m) ;; ret (Some (wrap_doc mpd)))
    (mkEnv b (common_log b l)).

Lemma finish_root_run (b : MpdBuilder C) (l : list LogEntry) (m : xmlNode) :
  finish_root m (mkEnv b l) =
  match dash_profile (mpd_options_ b) with
  | DashProfileOther v =>
      if dcheck_is_on then Fatal ("Unknown DASH profile: " ++ decimal v)
      else after_profile b l m
  | _ => after_profile b l m
  end.
Proof.
  unfold finish_root, after_profile, common_root, common_log, profile_root.
  unfold bind at 1. rewrite profile_switch_run.
  destruct (dash_profile _); try destruct dcheck_is_on; try reflexivity.
  all: unfold bind at 1; rewrite AddCommonMpdInfo_run; reflexivity.
Qed.

Lemma type_switch_run (mpd : xmlNode) (b : MpdBuilder C) (l : list LogEntry) :
  type_switch mpd (mkEnv b l) =
  match mpd_type (mpd_options_ b) with
  | kStatic => AddStaticMpdInfo mpd (mkEnv b l)
  | kDynamic => AddDynamicMpdInfo mpd (mkEnv b l)
  | MpdTypeOther v =>
      if dcheck_is_on then Fatal ("Unknown MPD type: " ++ decimal v)
      else Returns (mpd, mkEnv b l)
  end.
Proof.
  unfold type_switch, bind, get_this, NOTREACHED, DCHECK, ret. cbn [this].
  destruct (mpd_type _); try reflexivity.
  destruct dcheck_is_on; reflexivity.
Qed.

Lemma ToString_run (output : string) (e : Env) :
  ToString output e =
  match GenerateMpd e with
  | Returns (Some doc, e') => Returns ((true, xmlDocDumpFormatMemoryEnc doc), e')
  | Returns (None, e') => Returns ((false, output), e')
  | Fatal msg => Fatal msg
  | Undefined => Undefined
  end.
Proof.
  unfold ToString, bind, ret.
  destruct (GenerateMpd e) as [[[doc|] e']| |]; reflexivity.
Qed.

(** ** Structural failures *)

Lemma add_base_urls_app (before after : list string) (mpd : xmlNode) :
  add_base_urls mpd (before ++ after) =
  match add_base_urls mpd before with
  | Some mpd' => add_base_urls mpd' after
  | None => None
  end.
Proof.
  revert mpd. induction before as [|u before IH]; simpl; intros mpd.
  - reflexivity.
  - destruct (AddChild mpd _); [apply IH | reflexivity].
Qed.

Lemma add_periods_app (before after : list Period) (mpd : xmlNode) :
  add_periods mpd (before ++ after) =
  match add_periods mpd before with
  | Some mpd' => add_periods mpd' after
  | None => None
  end.
Proof.
  revert mpd. induction before as [|p before IH]; simpl; intros mpd.
  - reflexivity.
  - destruct (Period_GetXml p); [|reflexivity].
    destruct (AddChild mpd _); [apply IH | reflexivity].
Qed.

Lemma add_periods_unrendered (periods : list Period) (p : Period) (mpd : xmlNode) :
  In p periods -> Period_GetXml p = None -> add_periods mpd periods = None.
Proof.
  revert mpd. induction periods as [|q periods IH]; simpl; intros mpd Hin Hx.
  - contradiction.
  - destruct Hin as [->|Hin].
    + now rewrite Hx.
    + destruct (Period_GetXml q); [|reflexivity].
      destruct (AddChild mpd _); [now apply IH | reflexivity].
Qed.

(** The three ways the child loops of GenerateMpd can fail. *)
Inductive structural_failure (b : MpdBuilder C) : Prop :=
| base_url_rejected (before after : list string) (base_url : string)
    (mpd : xmlNode) :
    base_urls_ b = (before ++ base_url :: after)%list ->
    add_base_urls (XmlNode "MPD") before = Some mpd ->
    xmlAddChild_ok mpd (SetContent (XmlNode "BaseURL") base_url) = false ->
    structural_failure b
| period_not_rendered (period : Period) :
    In period (periods_ b) ->
    Period_GetXml period = None ->
    structural_failure b
| period_rejected (before after : list Period) (period : Period)
    (m1 mpd period_node : xmlNode) :
    add_base_urls (XmlNode "MPD") (base_urls_ b) = Some m1 ->
    periods_ b = (before ++ period :: after)%list ->
    add_periods m1 before = Some mpd ->
    Period_GetXml period = Some period_node ->
    xmlAddChild_ok mpd period_node = false ->
    structural_failure b.

Lemma structural_failure_loops (b : MpdBuilder C) :
  structural_failure b ->
  match add_base_urls (XmlNode "MPD") (base_urls_ b) with
  | Some m1 => add_periods m1 (periods_ b) = None
  | None => True
  end.
Proof.
  intros [before after u mpd Hb Hm Hok | p Hin Hx
         | before after p m1 mpd node Hm1 Hp Hm Hx Hok].
  - rewrite Hb, add_base_urls_app, Hm. cbn [add_base_urls]. unfold AddChild.
    now rewrite Hok.
  - destruct (add_base_urls _ _); [|exact I].
    eapply add_periods_unrendered; eauto.
  - rewrite Hm1, Hp, add_periods_app, Hm. cbn [add_periods]. rewrite Hx.
    unfold AddChild. now rewrite Hok.
Qed.

(** C5: when appending a base-URL element fails, or a period renders no
    subtree, or a period's subtree is rejected, ToString returns false, the
    caller's output string keeps its contents, and neither the builder nor
    the log has changed. *)
Theorem structural_failure_aborts_serialization (e : Env) (output : string) :
  structural_failure (this e) ->
  GenerateMpd e = Returns (None, e) /\
  ToString output e = Returns ((false, output), e).
Proof.
  intros Hf. apply structural_failure_loops in Hf.
  assert (Hg : GenerateMpd e = Returns (None, e)).
  { rewrite GenerateMpd_steps.
    destruct (add_base_urls _ _) as [m1|]; [now rewrite Hf | reflexivity]. }
  split; [exact Hg|]. now rewrite ToString_run, Hg.
Qed.

(** ** Debug assertions *)

Definition kPeriodsEmptyCheck : string := "Check failed: !periods_.empty()".

Lemma GetEarliestTimestamp_no_period (e : Env) :
  periods_ (this e) = [] ->
  GetEarliestTimestamp e =
  if dcheck_is_on then Fatal kPeriodsEmptyCheck else Undefined.
Proof.
  intros Hp. unfold GetEarliestTimestamp, bind, get_this, DCHECK, ret, undefined.
  rewrite Hp. cbn. destruct dcheck_is_on; reflexivity.
Qed.

(** The profile switch lets the run continue. *)
Definition profile_passes (b : MpdBuilder C) : bool :=
  match dash_profile (mpd_options_ b) with
  | DashProfileOther _ => negb dcheck_is_on
  | _ => true
  end.

Lemma finish_root_passes (b : MpdBuilder C) (l : list LogEntry) (m : xmlNode) :
  profile_passes b = true -> finish_root m (mkEnv b l) = after_profile b l m.
Proof.
  unfold profile_passes. rewrite finish_root_run.
  destruct (dash_profile _); try reflexivity.
  destruct dcheck_is_on; [discriminate | reflexivity].
Qed.

(** C7: GetEarliestTimestamp reads periods_.front() behind a DCHECK only.
    With no period it never returns: the DCHECK aborts a debug build and the
    read is undefined otherwise.  A dynamic serialization with an empty
    availability-start-time cache reaches that call as soon as the child
    loops and the profile switch are passed. *)
Theorem dynamic_serialization_needs_a_period (e : Env) (output : string)
        (m1 : xmlNode) :
  periods_ (this e) = [] ->
  GetEarliestTimestamp e =
    (if dcheck_is_on then Fatal kPeriodsEmptyCheck else Undefined) /\
  (mpd_type (mpd_options_ (this e)) = kDynamic ->
   string_empty (availability_start_time_ (this e)) = true ->
   add_base_urls (XmlNode "MPD") (base_urls_ (this e)) = Some m1 ->
   profile_passes (this e) = true ->
   ToString output e =
     (if dcheck_is_on then Fatal kPeriodsEmptyCheck else Undefined)).
Proof.
  intros Hp. split; [now apply GetEarliestTimestamp_no_period|].
  intros Hd Hc Hm Hpass. destruct e as [b l]. cbn [this] in *.
  rewrite ToString_run, GenerateMpd_steps. cbn [this].
  rewrite Hm, Hp. cbn [add_periods].
  rewrite finish_root_passes by exact Hpass.
  unfold after_profile, bind. rewrite type_switch_run, Hd.
  rewrite AddDynamicMpdInfo_no_period by assumption.
  destruct dcheck_is_on; reflexivity.
Qed.

(** ** Reading attributes of the root *)

Lemma is_element_SetIfPositive (k : string) (v : double) (n : xmlNode) :
  is_element (SetIfPositive k v n) = is_element n.
Proof. unfold SetIfPositive. destruct (Positive v); now autorewrite with xml. Qed.

Lemma xmlGetProp_SetIfPositive (k : string) (v : double) (n : xmlNode)
      (k' : string) :
  is_element n = true ->
  xmlGetProp (SetIfPositive k v n) k' =
  if Positive v && String.eqb k k' then Some (SecondsToXmlDuration v)
  else xmlGetProp n k'.
Proof.
  intros He. unfold SetIfPositive. destruct (Positive v); [|reflexivity].
  now rewrite xmlGetProp_SetStringAttribute.
Qed.

Lemma is_element_AddMpdNameSpaceInfo (m : xmlNode) :
  is_element (AddMpdNameSpaceInfo m) = is_element m.
Proof. unfold AddMpdNameSpaceInfo. now autorewrite with xml. Qed.

Lemma is_element_profile_root (b : MpdBuilder C) (m : xmlNode) :
  is_element (profile_root b m) = is_element m.
Proof.
  unfold profile_root. destruct (dash_profile _); autorewrite with xml;
    apply is_element_AddMpdNameSpaceInfo.
Qed.

Lemma is_element_common_root (b : MpdBuilder C) (m : xmlNode) :
  is_element (common_root b m) = is_element m.
Proof.
  unfold common_root. now rewrite is_element_SetIfPositive, is_element_profile_root.
Qed.

Lemma is_element_dynamic_head (n : xmlNode) (now : Time) :
  is_element (dynamic_head n now) = is_element n.
Proof. unfold dynamic_head. now autorewrite with xml. Qed.

Lemma is_element_dynamic_tail (b : MpdBuilder C) (n : xmlNode) :
  is_element (dynamic_tail b n) = is_element n.
Proof. unfold dynamic_tail. now rewrite !is_element_SetIfPositive. Qed.

Lemma static_walk_shell (n : xmlNode) : same_shell n (fst (static_walk n)).
Proof.
  unfold static_walk. destruct (FindPeriodNode n); [|apply same_shell_refl].
  destruct (visit_adaptation_sets _ _). apply same_shell_set_children.
Qed.

Lemma is_element_static_walk (n : xmlNode) :
  is_element (fst (static_walk n)) = is_element n.
Proof. apply static_walk_shell. Qed.

Lemma xmlGetProp_static_walk (n : xmlNode) (k : string) :
  xmlGetProp (fst (static_walk n)) k = xmlGetProp n k.
Proof.
  unfold xmlGetProp. destruct (static_walk_shell n) as (_ & _ & ->). reflexivity.
Qed.

#[local] Hint Rewrite is_element_SetIfPositive is_element_AddMpdNameSpaceInfo
  is_element_profile_root is_element_common_root is_element_dynamic_head
  is_element_dynamic_tail is_element_static_walk xmlGetProp_static_walk : xml.

Lemma xmlGetProp_bare_root (m : xmlNode) (k : string) :
  bare_root m -> xmlGetProp m k = None.
Proof. intros (_ & _ & Hp). unfold xmlGetProp. now rewrite Hp. Qed.

(** Evaluate an attribute lookup through the layers of attribute writes. *)
Ltac read_attr :=
  repeat first
    [ rewrite xmlGetProp_SetStringAttribute by (autorewrite with xml; assumption)
    | rewrite xmlGetProp_SetIfPositive by (autorewrite with xml; assumption)
    | rewrite xmlGetProp_static_walk ];
  cbn [String.eqb Ascii.eqb Bool.eqb andb].

Lemma xmlGetProp_AddMpdNameSpaceInfo_other (m : xmlNode) (k : string) :
  is_element m = true ->
  In k ["profiles"; "minBufferTime"; "type"; "mediaPresentationDuration";
        "publishTime"; "availabilityStartTime"; "minimumUpdatePeriod";
        "timeShiftBufferDepth"; "suggestedPresentationDelay"] ->
  xmlGetProp (AddMpdNameSpaceInfo m) k = xmlGetProp m k.
Proof.
  intros He Hin. unfold AddMpdNameSpaceInfo. cbn [In] in Hin.
  repeat destruct Hin as [<-|Hin]; try contradiction; read_attr; reflexivity.
Qed.

Lemma xmlGetProp_common_root_other (b : MpdBuilder C) (m : xmlNode) (k : string) :
  bare_root m ->
  In k ["type"; "mediaPresentationDuration"; "publishTime";
        "availabilityStartTime"; "minimumUpdatePeriod"; "timeShiftBufferDepth";
        "suggestedPresentationDelay"] ->
  xmlGetProp (common_root b m) k = None.
Proof.
  intros Hb Hin. pose proof Hb as (He & _ & _).
  assert (Hns : xmlGetProp (AddMpdNameSpaceInfo m) k = None).
  { rewrite xmlGetProp_AddMpdNameSpaceInfo_other;
      [now apply xmlGetProp_bare_root | exact He | cbn [In] in *; tauto]. }
  unfold common_root, profile_root. cbn [In] in Hin.
  repeat destruct Hin as [<-|Hin]; try contradiction;
    destruct (dash_profile _); read_attr; rewrite ?andb_false_r; exact Hns.
Qed.

Lemma xmlGetProp_minBufferTime (b : MpdBuilder C) (m : xmlNode) :
  bare_root m ->
  xmlGetProp (common_root b m) "minBufferTime" =
  if Positive (min_buffer_time (mpd_params (mpd_options_ b)))
  then Some (SecondsToXmlDuration (min_buffer_time (mpd_params (mpd_options_ b))))
  else None.
Proof.
  intros Hb. pose proof Hb as (He & _ & _).
  assert (Hns : xmlGetProp (AddMpdNameSpaceInfo m) "minBufferTime" = None).
  { rewrite xmlGetProp_AddMpdNameSpaceInfo_other;
      [now apply xmlGetProp_bare_root | exact He | cbn [In]; tauto]. }
  unfold common_root, profile_root.
  destruct (dash_profile _); read_attr; rewrite andb_true_r;
    destruct (Positive _); auto.
Qed.

(** ** Runs that get past the child loops and the profile switch *)

Lemma GenerateMpd_passes (b : MpdBuilder C) (l : list LogEntry) (m1 m2 : xmlNode) :
  add_base_urls (XmlNode "MPD") (base_urls_ b) = Some m1 ->
  add_periods m1 (periods_ b) = Some m2 ->
  profile_passes b = true ->
  GenerateMpd (mkEnv b l) = after_profile b l m2.
Proof.
  intros H1 H2 Hp. rewrite GenerateMpd_steps. cbn [this]. rewrite H1, H2.
  now apply finish_root_passes.
Qed.

(** C6: in a dynamic serialization whose first period reports no earliest
    timestamp, the root carries no availabilityStartTime attribute, an
    ERROR entry is logged, the cache stays empty, and ToString still
    returns true with the printed document. *)
Theorem missing_earliest_timestamp_degrades
        (b : MpdBuilder C) (l : list LogEntry) (output : string)
        (front : Period) (rest : list Period) (m1 m2 : xmlNode) :
  mpd_type (mpd_options_ b) = kDynamic ->
  string_empty (availability_start_time_ b) = true ->
  periods_ b = front :: rest ->
  Period_GetEarliestTimestamp front = None ->
  add_base_urls (XmlNode "MPD") (base_urls_ b) = Some m1 ->
  add_periods m1 (periods_ b) = Some m2 ->
  profile_passes b = true ->
  exists doc mpd e',
    ToString output (mkEnv b l) =
      Returns ((true, xmlDocDumpFormatMemoryEnc doc), e') /\
    mpd_root doc = Some mpd /\
    xmlGetProp mpd "availabilityStartTime" = None /\
    In kNoEarliestTimestamp (log e') /\
    is_error kNoEarliestTimestamp = true /\
    string_empty (availability_start_time_ (this e')) = true.
Proof.
  intros Hd Hc Hp Ht H1 H2 Hpass.
  destruct (Now (clock_ b)) as [now c1] eqn:Hn.
  pose proof (loops_give_bare_root _ _ _ H1 H2) as Hb.
  pose proof Hb as (He & _ & _).
  eexists _, _, _.
  rewrite ToString_run, (GenerateMpd_passes _ _ _ _ H1 H2 Hpass).
  unfold after_profile, bind. rewrite type_switch_run, Hd.
  rewrite (AddDynamicMpdInfo_no_timestamp _ _ _ _ _ _ _ Hd Hc Hn Hp Ht).
  unfold ret. split; [reflexivity|]. split; [apply mpd_root_wrap_doc|].
  split; [|split; [|split]].
  - unfold dynamic_tail, dynamic_head. read_attr. rewrite !andb_false_r.
    apply xmlGetProp_common_root_other; [exact Hb | cbn [In]; tauto].
  - cbn [log]. unfold update_period_log, common_log.
    destruct (Positive (minimum_update_period _));
      destruct (Positive (min_buffer_time _));
      rewrite ?in_app_iff; cbn [In]; tauto.
  - reflexivity.
  - exact Hc.
Qed.

(** ** Calendar fields *)

Lemma civil_from_days_range (days : Z) :
  let '(y, m, d) := civil_from_days days in
  1 <= m <= 12 /\ 1 <= d <= 31.
Proof.
  unfold civil_from_days.
  set (z := days + 719468).
  set (era := z / 146097).
  set (doe := z - era * 146097).
  assert (Hdoe : 0 <= doe <= 146096).
  { subst doe era. pose proof (Z.div_mod z 146097 ltac:(lia)).
    pose proof (Z.mod_pos_bound z 146097 ltac:(lia)). lia. }
  clearbody doe. clear z era.
  set (yoe := (doe - doe / 1460 + doe / 36524 - doe / 146096) / 365).
  set (doy := doe - (365 * yoe + yoe / 4 - yoe / 100)).
  assert (Hdoy : 0 <= doy <= 365).
  { subst doy yoe. Z.div_mod_to_equations. lia. }
  clearbody doy. clear yoe.
  set (mp := (5 * doy + 2) / 153).
  assert (Hmp : 0 <= mp <= 11) by (subst mp; Z.div_mod_to_equations; lia).
  assert (Hd : 1 <= doy - (153 * mp + 2) / 5 + 1 <= 31).
  { subst mp. Z.div_mod_to_equations. lia. }
  clearbody mp.
  destruct (mp <? 10) eqn:E; [apply Z.ltb_lt in E | apply Z.ltb_ge in E]; lia.
Qed.

Lemma civil_from_days_year (days : Z) :
  -354285 <= days <= 2932896 ->
  let '(y, m, d) := civil_from_days days in 1000 <= y <= 9999.
Proof.
  intros Hr. unfold civil_from_days.
  set (z := days + 719468).
  set (era := z / 146097).
  set (doe := z - era * 146097).
  assert (Hera : 2 <= era <= 24) by (subst era z; Z.div_mod_to_equations; lia).
  assert (Hdoe : 0 <= doe <= 146096).
  { subst doe era. pose proof (Z.div_mod z 146097 ltac:(lia)).
    pose proof (Z.mod_pos_bound z 146097 ltac:(lia)). lia. }
  assert (Hz : z = era * 146097 + doe) by (subst doe; lia).
  assert (Hzr : 365183 <= z <= 3652364) by (subst z; lia).
  clearbody doe era z.
  set (yoe := (doe - doe / 1460 + doe / 36524 - doe / 146096) / 365).
  assert (Hyoe : 0 <= yoe <= 399) by (subst yoe; Z.div_mod_to_equations; lia).
  set (doy := doe - (365 * yoe + yoe / 4 - yoe / 100)).
  assert (Hdoy : 0 <= doy <= 365).
  { subst doy yoe. Z.div_mod_to_equations. lia. }
  set (mp := (5 * doy + 2) / 153).
  assert (Hmp : 0 <= mp <= 11) by (subst mp; Z.div_mod_to_equations; lia).
  destruct ((if mp <? 10 then mp + 3 else mp - 9) <=? 2) eqn:E2.
  - destruct (mp <? 10) eqn:E; [apply Z.ltb_lt in E | apply Z.ltb_ge in E];
      apply Z.leb_le in E2; try lia.
    assert (mp >= 10) by lia.
    assert (doy >= 306) by (subst mp; Z.div_mod_to_equations; lia).
    subst doy yoe. Z.div_mod_to_equations. lia.
  - assert (mp <= 9).
    { destruct (mp <? 10) eqn:E; [apply Z.ltb_lt in E | apply Z.ltb_ge in E];
      apply Z.leb_gt in E2; lia. }
    assert (doy <= 305) by (subst mp; Z.div_mod_to_equations; lia).
    subst doy yoe. Z.div_mod_to_equations. lia.
Qed.

(** ** The shape YYYY-MM-DDTHH:MM:SSZ *)

Definition is_digit (c : ascii) : bool :=
  (48 <=? nat_of_ascii c)%nat && (nat_of_ascii c <=? 57)%nat.

Definition is_xml_date_time (s : string) : bool :=
  match list_ascii_of_string s with
  | [y1; y2; y3; y4; dash1; m1; m2; dash2; d1; d2; t; h1; h2; colon1; n1; n2;
     colon2; s1; s2; z] =>
      forallb is_digit [y1; y2; y3; y4; m1; m2; d1; d2; h1; h2; n1; n2; s1; s2]
      && Ascii.eqb dash1 "-" && Ascii.eqb dash2 "-" && Ascii.eqb t "T"
      && Ascii.eqb colon1 ":" && Ascii.eqb colon2 ":" && Ascii.eqb z "Z"
  | _ => false
  end.

Definition two_digits (s : string) : bool :=
  match s with
  | String a (String b EmptyString) => is_digit a && is_digit b
  | _ => false
  end.

Definition four_digits (s : string) : bool :=
  match s with
  | String a (String b (String c (String d EmptyString))) =>
      is_digit a && is_digit b && is_digit c && is_digit d
  | _ => false
  end.

(** A check of [count] consecutive integers from [start]. *)
Fixpoint all_from (start : Z) (count : nat) (p : Z -> bool) : bool :=
  match count with
  | O => true
  | S count' => p start && all_from (start + 1) count' p
  end.

Lemma all_from_spec (p : Z -> bool) (count : nat) (start z : Z) :
  all_from start count p = true ->
  start <= z < start + Z.of_nat count -> p z = true.
Proof.
  revert start. induction count as [|count IH]; intros start Ha Hr.
  - lia.
  - cbn [all_from] in Ha. apply andb_true_iff in Ha as [Hs Ha].
    destruct (Z.eq_dec z start) as [->|Hne]; [exact Hs|].
    apply (IH (start + 1)); [exact Ha | lia].
Qed.

Lemma pad_0d_two_digits (n : Z) : 0 <= n <= 99 -> two_digits (pad_0d 2 n) = true.
Proof.
  intros Hr.
  apply (all_from_spec (fun n => two_digits (pad_0d 2 n)) 100 0);
    [vm_compute; reflexivity | lia].
Qed.

Lemma pad_d_four_digits (n : Z) :
  1000 <= n <= 9999 -> four_digits (pad_d 4 n) = true.
Proof.
  intros Hr.
  apply (all_from_spec (fun n => four_digits (pad_d 4 n)) (Z.to_nat 9000) 1000);
    [vm_compute; reflexivity | lia].
Qed.

Definition kFirstFourDigitInstant : Time := -30610224000 * 1000000.
Definition kLastFourDigitInstant : Time := 253402300799 * 1000000 + 999999.

Lemma UTCExplode_ranges (t : Time) :
  kFirstFourDigitInstant <= t <= kLastFourDigitInstant ->
  let e := UTCExplode t in
  1000 <= year e <= 9999 /\ 1 <= month e <= 12 /\ 1 <= day_of_month e <= 31 /\
  0 <= hour e <= 23 /\ 0 <= minute e <= 59 /\ 0 <= second e <= 59.
Proof.
  unfold kFirstFourDigitInstant, kLastFourDigitInstant, UTCExplode,
    kMicrosecondsPerSecond.
  intros Hr.
  set (secs := t / 1000000).
  assert (Hs : -30610224000 <= secs <= 253402300799).
  { subst secs. Z.div_mod_to_equations. lia. }
  clearbody secs.
  set (days := secs / 86400).
  set (sod := secs mod 86400).
  assert (Hd : -354285 <= days <= 2932896).
  { subst days. Z.div_mod_to_equations. lia. }
  assert (Hsod : 0 <= sod <= 86399).
  { subst sod. pose proof (Z.mod_pos_bound secs 86400 ltac:(lia)). lia. }
  clearbody days sod.
  pose proof (civil_from_days_range days) as Hmd.
  pose proof (civil_from_days_year days Hd) as Hy.
  destruct (civil_from_days days) as [[y m] d].
  cbn [year month day_of_month hour minute second].
  repeat split; try lia; Z.div_mod_to_equations; lia.
Qed.

Lemma two_digits_inv (s : string) :
  two_digits s = true ->
  exists a b, s = String a (String b EmptyString) /\
              is_digit a = true /\ is_digit b = true.
Proof.
  destruct s as [|a [|b [|]]]; simpl; try discriminate.
  intros Hd. apply andb_true_iff in Hd as [? ?]. eauto.
Qed.

Lemma four_digits_inv (s : string) :
  four_digits s = true ->
  exists a b c d,
    s = String a (String b (String c (String d EmptyString))) /\
    is_digit a = true /\ is_digit b = true /\ is_digit c = true /\
    is_digit d = true.
Proof.
  destruct s as [|a [|b [|c [|d [|]]]]]; simpl; try discriminate.
  intros Hd. apply andb_true_iff in Hd as [Hd H4].
  apply andb_true_iff in Hd as [Hd H3]. apply andb_true_iff in Hd as [H1 H2].
  exists a, b, c, d. auto.
Qed.

(** ** Reading a date-time string back *)

(** The number a run of digits stands for; a padding space counts as a
    leading zero. *)
Definition digit_value (c : ascii) : Z :=
  if is_digit c then Z.of_nat (nat_of_ascii c) - 48 else 0.

Fixpoint number_of (s : string) (acc : Z) : Z :=
  match s with
  | EmptyString => acc
  | String c rest => number_of rest (acc * 10 + digit_value c)
  end.

Definition has_length (n : nat) (s : string) : bool :=
  (String.length s =? n)%nat.

Lemma pad_0d_reads_back (n : Z) :
  0 <= n <= 99 ->
  has_length 2 (pad_0d 2 n) = true /\ number_of (pad_0d 2 n) 0 = n.
Proof.
  intros Hr.
  pose proof (all_from_spec
                (fun n => has_length 2 (pad_0d 2 n) &&
                          (number_of (pad_0d 2 n) 0 =? n))
                100 0 n ltac:(vm_compute; reflexivity) ltac:(lia)) as Hp.
  cbv beta in Hp. apply andb_true_iff in Hp as [Hl Hv].
  split; [exact Hl | now apply Z.eqb_eq].
Qed.

Lemma pad_d_reads_back (n : Z) :
  0 <= n <= 9999 ->
  has_length 4 (pad_d 4 n) = true /\ number_of (pad_d 4 n) 0 = n.
Proof.
  intros Hr.
  pose proof (all_from_spec
                (fun n => has_length 4 (pad_d 4 n) &&
                          (number_of (pad_d 4 n) 0 =? n))
                (Z.to_nat 10000) 0 n ltac:(vm_compute; reflexivity) ltac:(lia))
    as Hp.
  cbv beta in Hp. apply andb_true_iff in Hp as [Hl Hv].
  split; [exact Hl | now apply Z.eqb_eq].
Qed.

Lemma has_length_2 (s : string) :
  has_length 2 s = true -> exists a b, s = String a (String b EmptyString).
Proof.
  destruct s as [|a [|b [|]]]; try discriminate. eauto.
Qed.

Lemma has_length_4 (s : string) :
  has_length 4 s = true ->
  exists a b c d, s = String a (String b (String c (String d EmptyString))).
Proof.
  destruct s as [|a [|b [|c [|d [|]]]]]; try discriminate. eauto 6.
Qed.

Lemma FormatXmlDateTime_shape (t : Time) :
  kFirstFourDigitInstant <= t <= kLastFourDigitInstant ->
  is_xml_date_time (FormatXmlDateTime (UTCExplode t)) = true.
Proof.
  intros Hr. destruct (UTCExplode_ranges t Hr) as (Hy & Hm & Hd & Hh & Hn & Hs).
  unfold FormatXmlDateTime.
  destruct (four_digits_inv _ (pad_d_four_digits _ Hy))
    as (y1 & y2 & y3 & y4 & -> & ? & ? & ? & ?).
  destruct (two_digits_inv _ (pad_0d_two_digits (month (UTCExplode t)) ltac:(lia)))
    as (m1 & m2 & -> & ? & ?).
  destruct (two_digits_inv _ (pad_0d_two_digits (day_of_month (UTCExplode t)) ltac:(lia)))
    as (d1 & d2 & -> & ? & ?).
  destruct (two_digits_inv _ (pad_0d_two_digits (hour (UTCExplode t)) ltac:(lia)))
    as (h1 & h2 & -> & ? & ?).
  destruct (two_digits_inv _ (pad_0d_two_digits (minute (UTCExplode t)) ltac:(lia)))
    as (n1 & n2 & -> & ? & ?).
  destruct (two_digits_inv _ (pad_0d_two_digits (second (UTCExplode t)) ltac:(lia)))
    as (s1 & s2 & -> & ? & ?).
  cbn [append list_ascii_of_string is_xml_date_time forallb].
  repeat match goal with H : is_digit _ = true |- _ => rewrite H; clear H end.
  reflexivity.
Qed.

(** ** The instant a date-time string denotes *)

(** The day count, from 1970-01-01, of a date of the proleptic Gregorian
    calendar. *)
Definition days_from_civil (y m d : Z) : Z :=
  let y := if m <=? 2 then y - 1 else y in
  let era := y / 400 in
  let yoe := y - era * 400 in
  let mp := if m <=? 2 then m + 9 else m - 3 in
  let doy := (153 * mp + 2) / 5 + d - 1 in
  let doe := yoe * 365 + yoe / 4 - yoe / 100 + doy in
  era * 146097 + doe - 719468.

(** The second a string of the shape YYYY-MM-DDTHH:MM:SSZ denotes, counted
    from the Unix epoch: the six numbers are read as decimal numbers, the
    date is turned into a day count and the time of day is added. *)
Definition ReadXmlDateTime (s : string) : option Z :=
  if is_xml_date_time s then
    let field (pos len : nat) := number_of (substring pos len s) 0 in
    Some (days_from_civil (field 0%nat 4%nat) (field 5%nat 2%nat)
                          (field 8%nat 2%nat) * 86400
          + field 11%nat 2%nat * 3600 + field 14%nat 2%nat * 60
          + field 17%nat 2%nat)
  else None.

Definition civil_round_trip (days : Z) : bool :=
  let '(y, m, d) := civil_from_days days in days_from_civil y m d =? days.

Lemma civil_round_trip_first_era (days : Z) :
  -719468 <= days < -719468 + 146097 -> civil_round_trip days = true.
Proof.
  intros Hr.
  apply (all_from_spec civil_round_trip (Z.to_nat 146097) (-719468));
    [vm_compute; reflexivity | lia].
Qed.

Lemma civil_from_days_shift (days k : Z) :
  civil_from_days (days + 146097 * k) =
  let '(y, m, d) := civil_from_days days in (y + 400 * k, m, d).
Proof.
  unfold civil_from_days. cbv zeta.
  replace (days + 146097 * k + 719468) with (days + 719468 + k * 146097) by ring.
  rewrite Z.div_add by discriminate.
  replace (days + 719468 + k * 146097 - ((days + 719468) / 146097 + k) * 146097)
    with (days + 719468 - (days + 719468) / 146097 * 146097) by ring.
  f_equal. f_equal. ring.
Qed.

Lemma days_from_civil_shift (y m d k : Z) :
  days_from_civil (y + 400 * k) m d = days_from_civil y m d + 146097 * k.
Proof.
  unfold days_from_civil. cbv zeta.
  replace (if m <=? 2 then y + 400 * k - 1 else y + 400 * k)
    with ((if m <=? 2 then y - 1 else y) + k * 400)
    by (destruct (m <=? 2); ring).
  rewrite Z.div_add by discriminate.
  set (y' := if m <=? 2 then y - 1 else y).
  replace (y' + k * 400 - (y' / 400 + k) * 400) with (y' - y' / 400 * 400) by ring.
  ring.
Qed.

(** The day count of the date a day count breaks down to is that day
    count. *)
Lemma days_from_civil_from_days (days y m d : Z) :
  civil_from_days days = (y, m, d) -> days_from_civil y m d = days.
Proof.
  intros Hc.
  set (k := (days + 719468) / 146097).
  set (base := days - 146097 * k).
  assert (Hb : -719468 <= base < -719468 + 146097)
    by (subst base k; Z.div_mod_to_equations; lia).
  pose proof (civil_round_trip_first_era base Hb) as Hrt.
  unfold civil_round_trip in Hrt.
  replace days with (base + 146097 * k) in Hc by (subst base; ring).
  rewrite civil_from_days_shift in Hc.
  destruct (civil_from_days base) as [[y0 m0] d0].
  assert (Hy : y = y0 + 400 * k) by congruence.
  assert (Hm : m = m0) by congruence.
  assert (Hd : d = d0) by congruence.
  clear Hc. subst y m d. apply Z.eqb_eq in Hrt.
  rewrite days_from_civil_shift, Hrt. subst base. ring.
Qed.

(** Read back, the date-time string of an instant is the second the
    instant falls in. *)
Lemma ReadXmlDateTime_FormatXmlDateTime (t : Time) :
  kFirstFourDigitInstant <= t <= kLastFourDigitInstant ->
  ReadXmlDateTime (FormatXmlDateTime (UTCExplode t)) =
  Some (t / kMicrosecondsPerSecond).
Proof.
  intros Hr. unfold ReadXmlDateTime.
  rewrite (FormatXmlDateTime_shape t Hr).
  destruct (UTCExplode_ranges t Hr) as (Hy & Hm & Hd & Hh & Hn & Hs).
  cbv zeta in Hy, Hm, Hd, Hh, Hn, Hs.
  destruct (pad_d_reads_back (year (UTCExplode t)) ltac:(lia)) as [Ly Vy].
  destruct (pad_0d_reads_back (month (UTCExplode t)) ltac:(lia)) as [Lm Vm].
  destruct (pad_0d_reads_back (day_of_month (UTCExplode t)) ltac:(lia)) as [Ld Vd].
  destruct (pad_0d_reads_back (hour (UTCExplode t)) ltac:(lia)) as [Lh Vh].
  destruct (pad_0d_reads_back (minute (UTCExplode t)) ltac:(lia)) as [Ln Vn].
  destruct (pad_0d_reads_back (second (UTCExplode t)) ltac:(lia)) as [Ls Vs].
  destruct (has_length_4 _ Ly) as (y1 & y2 & y3 & y4 & Ey).
  destruct (has_length_2 _ Lm) as (m1 & m2 & Em).
  destruct (has_length_2 _ Ld) as (d1 & d2 & Ed).
  destruct (has_length_2 _ Lh) as (h1 & h2 & Eh).
  destruct (has_length_2 _ Ln) as (n1 & n2 & En).
  destruct (has_length_2 _ Ls) as (s1 & s2 & Es).
  unfold FormatXmlDateTime. cbv zeta.
  rewrite Ey, Em, Ed, Eh, En, Es. cbn [append substring].
  rewrite <- Ey, <- Em, <- Ed, <- Eh, <- En, <- Es.
  rewrite Vy, Vm, Vd, Vh, Vn, Vs.
  f_equal. clear - Hr.
  unfold UTCExplode, kMicrosecondsPerSecond. cbv zeta.
  set (secs := t / 1000000).
  destruct (civil_from_days (secs / 86400)) as [[y m] d] eqn:Ec.
  cbn [year month day_of_month hour minute second].
  rewrite (days_from_civil_from_days _ _ _ _ Ec).
  Z.div_mod_to_equations. lia.
Qed.

(** ** Rounding an integer to a double *)

Lemma digits2_pos_iter_xO (m k : positive) :
  digits2_pos (Pos.iter xO m k) = (digits2_pos m + k)%positive.
Proof.
  induction k as [|k IH] using Pos.peano_ind.
  - cbn. now rewrite Pos.add_1_r.
  - rewrite Pos.iter_succ. cbn [digits2_pos]. rewrite IH. lia.
Qed.

Lemma Zpos_iter_xO (m k : positive) :
  Zpos (Pos.iter xO m k) = Zpos m * 2 ^ Zpos k.
Proof.
  induction k as [|k IH] using Pos.peano_ind.
  - cbn. lia.
  - rewrite Pos.iter_succ.
    change (Zpos (Pos.iter xO m k)~0) with (2 * Zpos (Pos.iter xO m k)).
    rewrite IH, Pos2Z.inj_succ, Z.pow_succ_r by lia. lia.
Qed.

Lemma digits2_pos_bounds (m : positive) :
  2 ^ (Zpos (digits2_pos m) - 1) <= Zpos m < 2 ^ Zpos (digits2_pos m).
Proof.
  induction m as [m IH|m IH|]; cbn [digits2_pos].
  - rewrite Pos2Z.inj_succ. change (Zpos m~1) with (2 * Zpos m + 1).
    replace (Z.succ (Zpos (digits2_pos m)) - 1)
      with (Z.succ (Zpos (digits2_pos m) - 1)) by lia.
    rewrite !Z.pow_succ_r by lia. lia.
  - rewrite Pos2Z.inj_succ. change (Zpos m~0) with (2 * Zpos m).
    replace (Z.succ (Zpos (digits2_pos m)) - 1)
      with (Z.succ (Zpos (digits2_pos m) - 1)) by lia.
    rewrite !Z.pow_succ_r by lia. lia.
  - cbn. lia.
Qed.

Lemma digits2_pos_le (c m : positive) :
  (c <= m)%positive -> (digits2_pos c <= digits2_pos m)%positive.
Proof.
  intros Hle.
  destruct (digits2_pos_bounds c) as [Hc _].
  destruct (digits2_pos_bounds m) as [_ Hm].
  assert (Hlt : 2 ^ (Zpos (digits2_pos c) - 1) < 2 ^ Zpos (digits2_pos m)) by lia.
  apply Z.pow_lt_mono_r_iff in Hlt; lia.
Qed.

Lemma binary_round_aux_exact (sx : bool) (mz : positive) (ez : Z) :
  Zpos (digits2_pos mz) = 53 -> -1074 <= ez <= 971 ->
  binary_round_aux 53 1024 sx (Zpos mz) ez loc_Exact = S754_finite sx mz ez.
Proof.
  intros Hd He. unfold binary_round_aux, shr_fexp, Zdigits2, fexp, emin.
  rewrite Hd.
  replace (Z.max (53 + ez - 53) (3 - 1024 - 53) - ez) with 0 by lia.
  cbn [shr shr_record_of_loc shr_m loc_of_shr_record round_nearest_even].
  rewrite Hd.
  replace (Z.max (53 + ez - 53) (3 - 1024 - 53) - ez) with 0 by lia.
  cbn [shr shr_record_of_loc shr_m].
  replace (ez <=? 1024 - 53) with true by (symmetry; apply Z.leb_le; lia).
  reflexivity.
Qed.

(** An integer of at most 53 bits is a double: rounding it changes nothing
    but the alignment of the mantissa. *)
Lemma binary_round_integer (sx : bool) (c : positive) :
  Zpos (digits2_pos c) <= 53 ->
  exists mz k,
    binary_round 53 1024 sx c 0 = S754_finite sx mz (- k) /\
    0 <= k <= 52 /\ Zpos mz = Zpos c * 2 ^ k.
Proof.
  intros Hd. unfold binary_round, shl_align, fexp, emin.
  replace (Z.max (Zpos (digits2_pos c) + 0 - 53) (3 - 1024 - 53))
    with (Zpos (digits2_pos c) - 53) by lia.
  destruct (Zpos (digits2_pos c) - 53 - 0) as [|p|p] eqn:Ek; try lia.
  - exists c, 0. rewrite binary_round_aux_exact by lia.
    split; [reflexivity|]. split; [lia|]. cbn. lia.
  - exists (Pos.iter xO c p), (Zpos p).
    assert (Hk : Zpos (digits2_pos c) - 53 = - Zpos p) by lia.
    rewrite Hk. rewrite binary_round_aux_exact.
    + split; [reflexivity|]. split; [lia|]. apply Zpos_iter_xO.
    + rewrite digits2_pos_iter_xO, Pos2Z.inj_add. lia.
    + lia.
Qed.

Lemma valid_double_digits (s : bool) (m : positive) (e : Z) :
  valid_binary 53 1024 (S754_finite s m e) = true ->
  Zpos (digits2_pos m) <= 53.
Proof.
  cbn [valid_binary]. unfold bounded, canonical_mantissa, fexp, emin.
  intros Hv. apply andb_true_iff in Hv as [Hc _]. apply Z.eqb_eq in Hc. lia.
Qed.

(** What [-std::ceil(d)] converts to, in integers: the negated ceiling when
    it fits int32_t. *)
Lemma neg_ceil_to_int32_spec (d : double) :
  valid_binary 53 1024 d = true ->
  neg_ceil_to_int32 d =
  match ceilZ d with
  | Some n => if in_int32 (- n) then Some (- n) else None
  | None => None
  end.
Proof.
  intros Hv. unfold neg_ceil_to_int32.
  destruct d as [s|s| |s m e]; try reflexivity.
  cbn [std_ceil ceilZ]. destruct (0 <=? e) eqn:Ee.
  - cbn [SFopp double_to_int32]. rewrite Ee.
    replace (cond_Zopp (negb s) (Zpos m * 2 ^ e))
      with (- (cond_Zopp s (Zpos m) * 2 ^ e))
      by (destruct s; cbn [cond_Zopp negb]; ring).
    reflexivity.
  - apply Z.leb_gt in Ee.
    pose proof (valid_double_digits _ _ _ Hv) as Hdm.
    assert (Hp : 2 <= 2 ^ (- e)).
    { change 2 with (2 ^ 1) at 1. apply Z.pow_le_mono_r; lia. }
    remember (- (- cond_Zopp s (Zpos m) / 2 ^ (- e))) as c eqn:Hcdef.
    assert (Hc : Z.abs c <= Zpos m).
    { subst c. destruct s; cbn [cond_Zopp].
      - rewrite Z.opp_involutive.
        pose proof (Z.div_le_upper_bound (Zpos m) (2 ^ (- e)) (Zpos m) ltac:(lia)
                      ltac:(nia)).
        pose proof (Z.div_pos (Zpos m) (2 ^ (- e)) ltac:(lia) ltac:(lia)). lia.
      - pose proof (Z.div_mod (- Zpos m) (2 ^ (- e)) ltac:(lia)).
        pose proof (Z.mod_pos_bound (- Zpos m) (2 ^ (- e)) ltac:(lia)). nia. }
    clear Hcdef. destruct c as [|p|p]; cbn [binary_normalize].
    + destruct s; reflexivity.
    + assert (Hdc : Zpos (digits2_pos p) <= 53).
      { pose proof (digits2_pos_le p m ltac:(lia)). lia. }
      destruct (binary_round_integer false p Hdc) as (mz & k & -> & Hk & Hmz).
      cbn [SFopp double_to_int32 negb cond_Zopp].
      assert (Hmag : (if 0 <=? - k then Zpos mz * 2 ^ (- k)
                      else Zpos mz / 2 ^ (- - k)) = Zpos p).
      { destruct (0 <=? - k) eqn:E0.
        - apply Z.leb_le in E0. replace k with 0 in * by lia. cbn in *. lia.
        - rewrite Z.opp_involutive, Hmz. apply Z.div_mul.
          apply Z.pow_nonzero; lia. }
      rewrite Hmag. reflexivity.
    + assert (Hdc : Zpos (digits2_pos p) <= 53).
      { pose proof (digits2_pos_le p m ltac:(lia)). lia. }
      destruct (binary_round_integer true p Hdc) as (mz & k & -> & Hk & Hmz).
      cbn [SFopp double_to_int32 negb cond_Zopp].
      assert (Hmag : (if 0 <=? - k then Zpos mz * 2 ^ (- k)
                      else Zpos mz / 2 ^ (- - k)) = Zpos p).
      { destruct (0 <=? - k) eqn:E0.
        - apply Z.leb_le in E0. replace k with 0 in * by lia. cbn in *. lia.
        - rewrite Z.opp_involutive, Hmz. apply Z.div_mul.
          apply Z.pow_nonzero; lia. }
      rewrite Hmag. reflexivity.
Qed.

(** ** The availability start time *)

(** [ceilZ] is the ceiling of the float's real value [num * 2^e]. *)
Lemma ceilZ_is_ceiling (s : bool) (m : positive) (e n : Z) :
  ceilZ (S754_finite s m e) = Some n ->
  let num := cond_Zopp s (Zpos m) in
  if 0 <=? e then n = num * 2 ^ e
  else (n - 1) * 2 ^ (- e) < num <= n * 2 ^ (- e).
Proof.
  intros Hc. cbv zeta. unfold ceilZ in Hc. cbv zeta in Hc.
  set (num := cond_Zopp s (Zpos m)) in *.
  inversion Hc as [Hn]. clear Hc.
  destruct (0 <=? e) eqn:E; [reflexivity|].
  apply Z.leb_gt in E.
  assert (Hp : 0 < 2 ^ (- e)) by (apply Z.pow_pos_nonneg; lia).
  pose proof (Z.div_mod (- num) (2 ^ (- e)) ltac:(lia)) as Hdm.
  pose proof (Z.mod_pos_bound (- num) (2 ^ (- e)) Hp) as Hmb.
  nia.
Qed.

Example ceil_5_4 : ceilZ d5_4 = Some 6.
Proof. vm_compute. reflexivity. Qed.

Example neg_ceil_5_4 : neg_ceil_to_int32 d5_4 = Some (-6).
Proof. vm_compute. reflexivity. Qed.

Lemma XmlDateTime_minus (now : Time) (n : Z) :
  XmlDateTime now (- n) =
  FormatXmlDateTime (UTCExplode (now - n * kMicrosecondsPerSecond)).
Proof.
  unfold XmlDateTime, time_add, FromSeconds. f_equal. f_equal. lia.
Qed.

(** C1: in a dynamic serialization with an empty cache whose first period
    reports the earliest timestamp [t], a double whose negated ceiling fits
    the int32_t offset, the availabilityStartTime attribute and the cache
    are the date-time string of the instant read from the clock for this
    computation, moved back by ceil(t) seconds.  For the double 5.4 that is
    six seconds back.  For instants in the years 1000 to 9999 the string
    has the shape YYYY-MM-DDTHH:MM:SSZ and, read back as a UTC date and
    time, denotes the second of the clock reading minus ceil(t). *)
Theorem availability_start_time_is_now_minus_ceil
        (b : MpdBuilder C) (l : list LogEntry) (output : string)
        (front : Period) (rest : list Period) (t : double) (n : Z)
        (now1 now2 : Time) (c1 c2 : C) (m1 m2 : xmlNode) :
  mpd_type (mpd_options_ b) = kDynamic ->
  string_empty (availability_start_time_ b) = true ->
  periods_ b = front :: rest ->
  Period_GetEarliestTimestamp front = Some t ->
  valid_binary 53 1024 t = true ->
  ceilZ t = Some n ->
  in_int32 (- n) = true ->
  Now (clock_ b) = (now1, c1) ->
  Now c1 = (now2, c2) ->
  add_base_urls (XmlNode "MPD") (base_urls_ b) = Some m1 ->
  add_periods m1 (periods_ b) = Some m2 ->
  profile_passes b = true ->
  let start := now2 - n * kMicrosecondsPerSecond in
  exists doc mpd e',
    ToString output (mkEnv b l) =
      Returns ((true, xmlDocDumpFormatMemoryEnc doc), e') /\
    mpd_root doc = Some mpd /\
    xmlGetProp mpd "availabilityStartTime" =
      Some (FormatXmlDateTime (UTCExplode start)) /\
    availability_start_time_ (this e') = FormatXmlDateTime (UTCExplode start) /\
    (t = d5_4 -> start = now2 - 6 * kMicrosecondsPerSecond) /\
    (kFirstFourDigitInstant <= start <= kLastFourDigitInstant ->
     is_xml_date_time (FormatXmlDateTime (UTCExplode start)) = true /\
     ReadXmlDateTime (FormatXmlDateTime (UTCExplode start)) =
       Some (now2 / kMicrosecondsPerSecond - n)).
Proof.
  intros Hd Hc Hp Ht Hv Hn Hr Hn1 Hn2 H1 H2 Hpass start.
  pose proof (loops_give_bare_root _ _ _ H1 H2) as Hb.
  pose proof Hb as (He & _ & _).
  assert (Ho : neg_ceil_to_int32 t = Some (- n)).
  { rewrite neg_ceil_to_int32_spec by exact Hv. now rewrite Hn, Hr. }
  eexists _, _, _.
  rewrite ToString_run, (GenerateMpd_passes _ _ _ _ H1 H2 Hpass).
  unfold after_profile, bind. rewrite type_switch_run, Hd.
  rewrite (AddDynamicMpdInfo_computes _ _ _ _ _ _ _ _ _ _ _ Hd Hc Hn1 Hn2 Hp Ht Ho).
  unfold ret. split; [reflexivity|]. split; [apply mpd_root_wrap_doc|].
  rewrite XmlDateTime_minus. fold start.
  split; [|split; [|split]].
  - unfold dynamic_tail, dynamic_head. read_attr. rewrite !andb_false_r.
    reflexivity.
  - reflexivity.
  - intros ->. rewrite ceil_5_4 in Hn. inversion Hn. subst start n. reflexivity.
  - intros Hrange. split; [now apply FormatXmlDateTime_shape|].
    rewrite ReadXmlDateTime_FormatXmlDateTime by exact Hrange.
    f_equal. subst start. unfold kMicrosecondsPerSecond.
    Z.div_mod_to_equations. lia.
Qed.

(** ** Every root a successful run can produce *)

Definition static_root (b : MpdBuilder C) (m : xmlNode) : xmlNode :=
  let walked := static_walk (SetStringAttribute (common_root b m) "type" "static") in
  SetStringAttribute (fst walked) "mediaPresentationDuration"
    (SecondsToXmlDuration (double_of_float (snd walked))).

(** [ast] is the availability start time attached, empty when none is. *)
Definition dynamic_root (b : MpdBuilder C) (m : xmlNode) (now : Time)
           (ast : string) : xmlNode :=
  dynamic_tail b
    (if string_empty ast then dynamic_head (common_root b m) now
     else SetStringAttribute (dynamic_head (common_root b m) now)
            "availabilityStartTime" ast).

Inductive final_root (b : MpdBuilder C) (m : xmlNode) : xmlNode -> Prop :=
| final_static :
    mpd_type (mpd_options_ b) = kStatic ->
    final_root b m (static_root b m)
| final_dynamic (now : Time) (ast : string) :
    mpd_type (mpd_options_ b) = kDynamic ->
    final_root b m (dynamic_root b m now ast)
| final_other (v : Z) :
    mpd_type (mpd_options_ b) = MpdTypeOther v ->
    dcheck_is_on = false ->
    final_root b m (common_root b m).

Lemma type_switch_success (b : MpdBuilder C) (l : list LogEntry)
      (m mpd : xmlNode) (e' : Env) :
  type_switch (common_root b m) (mkEnv b l) = Returns (mpd, e') ->
  final_root b m mpd.
Proof.
  rewrite type_switch_run.
  destruct (mpd_type (mpd_options_ b)) as [| |v] eqn:Ht.
  - rewrite AddStaticMpdInfo_run by exact Ht. cbv zeta.
    intros Hr. inversion Hr. now apply final_static.
  - destruct (Now (clock_ b)) as [now c1] eqn:Hn.
    destruct (string_empty (availability_start_time_ b)) eqn:Hc.
    + destruct (periods_ b) as [|front rest] eqn:Hp.
      * rewrite AddDynamicMpdInfo_no_period by assumption.
        destruct dcheck_is_on; discriminate.
      * destruct (Period_GetEarliestTimestamp front) as [t|] eqn:Hts.
        -- destruct (neg_ceil_to_int32 t) as [off|] eqn:Ho.
           ++ destruct (Now c1) as [now2 c2] eqn:Hn2.
              rewrite (AddDynamicMpdInfo_computes _ _ _ _ _ _ _ _ _ _ _
                         Ht Hc Hn Hn2 Hp Hts Ho).
              intros Hr. inversion Hr.
              replace (SetStringAttribute _ "availabilityStartTime" _)
                with (if string_empty (XmlDateTime now2 off)
                      then dynamic_head (common_root b m) now
                      else SetStringAttribute (dynamic_head (common_root b m) now)
                             "availabilityStartTime" (XmlDateTime now2 off))
                by now rewrite XmlDateTime_not_empty.
              now apply final_dynamic.
           ++ rewrite (AddDynamicMpdInfo_offset_undefined _ _ _ _ _ _ Ht Hc Hp Hts Ho).
              discriminate.
        -- rewrite (AddDynamicMpdInfo_no_timestamp _ _ _ _ _ _ _ Ht Hc Hn Hp Hts).
           intros Hr. inversion Hr.
           apply (final_dynamic b m now "" Ht).
    + rewrite (AddDynamicMpdInfo_cached _ _ _ _ _ Ht Hc Hn).
      intros Hr. inversion Hr.
      replace (SetStringAttribute _ "availabilityStartTime" _)
        with (if string_empty (availability_start_time_ b)
              then dynamic_head (common_root b m) now
              else SetStringAttribute (dynamic_head (common_root b m) now)
                     "availabilityStartTime" (availability_start_time_ b))
        by now rewrite Hc.
      now apply final_dynamic.
  - destruct dcheck_is_on eqn:Hdc; [discriminate|].
    intros Hr. inversion Hr. subst. eapply final_other; eauto.
Qed.

Lemma GenerateMpd_success (b : MpdBuilder C) (l : list LogEntry)
      (doc : xmlDoc) (e' : Env) :
  GenerateMpd (mkEnv b l) = Returns (Some doc, e') ->
  exists m1 m2 mpd,
    add_base_urls (XmlNode "MPD") (base_urls_ b) = Some m1 /\
    add_periods m1 (periods_ b) = Some m2 /\
    profile_passes b = true /\
    doc = wrap_doc mpd /\
    final_root b m2 mpd.
Proof.
  rewrite GenerateMpd_steps. cbn [this].
  destruct (add_base_urls _ _) as [m1|] eqn:H1; [|discriminate].
  destruct (add_periods _ _) as [m2|] eqn:H2; [|discriminate].
  intros Hf.
  assert (Hpass : profile_passes b = true).
  { unfold profile_passes. rewrite finish_root_run in Hf.
    destruct (dash_profile _); try reflexivity.
    destruct dcheck_is_on; [discriminate | reflexivity]. }
  rewrite finish_root_passes in Hf by exact Hpass.
  unfold after_profile, bind in Hf.
  destruct (type_switch _ _) as [[mpd e1]| |] eqn:Hts; try discriminate.
  unfold ret in Hf. inversion Hf; subst.
  exists m1, m2, mpd. repeat split; auto.
  eapply type_switch_success; eauto.
Qed.

Lemma ToString_success (output out : string) (e e' : Env) :
  ToString output e = Returns ((true, out), e') ->
  exists doc, GenerateMpd e = Returns (Some doc, e') /\
              out = xmlDocDumpFormatMemoryEnc doc.
Proof.
  rewrite ToString_run.
  destruct (GenerateMpd e) as [[[doc|] e1]| |]; try discriminate.
  intros Hr. inversion Hr. eauto.
Qed.

(** ** Duration attributes *)

(** What a SetIfPositive-style write leaves under the attribute's name. *)
Definition duration_attribute (value : double) : option string :=
  if Positive value then Some (SecondsToXmlDuration value) else None.

(** [d > 0.0] holds for the positive finite doubles and for +infinity, and
    for nothing else: not for the zeros, the negative values or NaN. *)
Lemma Positive_spec (d : double) :
  Positive d = true <->
  d = S754_infinity false \/ exists m e, d = S754_finite false m e.
Proof.
  unfold Positive, gt, zero, SFltb, SFcompare.
  destruct d as [s|s| |s m e]; try destruct s; split;
    try discriminate; try reflexivity; eauto;
    intros [Hd|(m' & e' & Hd)]; discriminate.
Qed.

Lemma final_root_minBufferTime (b : MpdBuilder C) (m mpd : xmlNode) :
  bare_root m -> final_root b m mpd ->
  xmlGetProp mpd "minBufferTime" =
  duration_attribute (min_buffer_time (mpd_params (mpd_options_ b))).
Proof.
  intros Hb Hf. pose proof Hb as (He & _ & _).
  unfold duration_attribute. rewrite <- (xmlGetProp_minBufferTime b m Hb).
  destruct Hf as [Hs | now ast Hd | v Ho Hdc].
  - unfold static_root. cbv zeta. now read_attr.
  - unfold dynamic_root, dynamic_tail, dynamic_head.
    destruct (string_empty ast); read_attr; now rewrite !andb_false_r.
  - reflexivity.
Qed.

Lemma dynamic_root_durations (b : MpdBuilder C) (m : xmlNode) (now : Time)
      (ast : string) :
  bare_root m ->
  let p := mpd_params (mpd_options_ b) in
  let mpd := dynamic_root b m now ast in
  xmlGetProp mpd "minimumUpdatePeriod" = duration_attribute (minimum_update_period p) /\
  xmlGetProp mpd "timeShiftBufferDepth" = duration_attribute (time_shift_buffer_depth p) /\
  xmlGetProp mpd "suggestedPresentationDelay" =
    duration_attribute (suggested_presentation_delay p).
Proof.
  intros Hb p mpd. pose proof Hb as (He & _ & _).
  subst mpd p. unfold dynamic_root, dynamic_tail, dynamic_head, duration_attribute.
  repeat split; destruct (string_empty ast); read_attr;
    rewrite ?andb_false_r, ?andb_true_r;
    match goal with |- context [Positive ?v] => destruct (Positive v) end;
    try reflexivity;
    apply xmlGetProp_common_root_other; try exact Hb; cbn [In]; tauto.
Qed.

(** C4: in every successful serialization the root carries minBufferTime
    with the formatted value exactly when the configured minimum buffer
    time is greater than 0.0, and in dynamic mode the same holds for
    minimumUpdatePeriod, timeShiftBufferDepth and
    suggestedPresentationDelay; otherwise the attribute is absent. *)
Theorem duration_attributes_iff_positive (e e' : Env) (output out : string) :
  ToString output e = Returns ((true, out), e') ->
  exists doc mpd,
    GenerateMpd e = Returns (Some doc, e') /\
    out = xmlDocDumpFormatMemoryEnc doc /\
    mpd_root doc = Some mpd /\
    let p := mpd_params (mpd_options_ (this e)) in
    xmlGetProp mpd "minBufferTime" = duration_attribute (min_buffer_time p) /\
    (mpd_type (mpd_options_ (this e)) = kDynamic ->
     xmlGetProp mpd "minimumUpdatePeriod" =
       duration_attribute (minimum_update_period p) /\
     xmlGetProp mpd "timeShiftBufferDepth" =
       duration_attribute (time_shift_buffer_depth p) /\
     xmlGetProp mpd "suggestedPresentationDelay" =
       duration_attribute (suggested_presentation_delay p)).
Proof.
  intros Hts. destruct (ToString_success _ _ _ _ Hts) as (doc & Hg & ->).
  destruct e as [b l].
  destruct (GenerateMpd_success _ _ _ _ Hg) as (m1 & m2 & mpd & H1 & H2 & _ & -> & Hf).
  pose proof (loops_give_bare_root _ _ _ H1 H2) as Hb.
  exists (wrap_doc mpd), mpd. cbn [this].
  split; [exact Hg|]. split; [reflexivity|]. split; [apply mpd_root_wrap_doc|].
  split; [now apply (final_root_minBufferTime b m2)|].
  intros Hd. destruct Hf as [Hs | now ast _ | v Ho _]; try congruence.
  now apply dynamic_root_durations.
Qed.

(** ** The attribute list of the root *)

Definition kNamespaceAttributes : list (string * string) :=
  [("xmlns", "urn:mpeg:dash:schema:mpd:2011");
   ("xmlns:xsi", "http://www.w3.org/2001/XMLSchema-instance");
   ("xmlns:xlink", "http://www.w3.org/1999/xlink");
   ("xsi:schemaLocation", "urn:mpeg:dash:schema:mpd:2011 DASH-MPD.xsd");
   ("xmlns:cenc", "urn:mpeg:cenc:2013")].

Definition profile_attribute (p : DashProfile) : list (string * string) :=
  match p with
  | kOnDemand => [("profiles", kOnDemandProfile)]
  | kLive => [("profiles", kLiveProfile)]
  | DashProfileOther _ => []
  end.

(** The names of the attributes written after the profile. *)
Definition kLaterAttributes : list string :=
  ["minBufferTime"; "type"; "mediaPresentationDuration"; "publishTime";
   "availabilityStartTime"; "minimumUpdatePeriod"; "timeShiftBufferDepth";
   "suggestedPresentationDelay"].

Definition attr_count (n : xmlNode) (k : string) : nat :=
  count_occ string_dec (map fst (node_properties n)) k.

(** The node's attributes are [base] followed by later attributes only. *)
Definition extends (base : list (string * string)) (n : xmlNode) : Prop :=
  is_element n = true /\
  exists rest, node_properties n = (base ++ rest)%list /\
               Forall (fun kv => In (fst kv) kLaterAttributes) rest.

Lemma set_prop_later (rest : list (string * string)) (k v : string) :
  In k kLaterAttributes ->
  Forall (fun kv => In (fst kv) kLaterAttributes) rest ->
  Forall (fun kv => In (fst kv) kLaterAttributes) (set_prop rest k v).
Proof.
  intros Hk. induction rest as [|[k0 v0] rest IH]; intros Hf; cbn [set_prop].
  - constructor; [exact Hk | constructor].
  - inversion Hf as [|? ? Hh Ht]; subst.
    destruct (String.eqb k0 k); constructor; auto.
Qed.

Lemma extends_SetStringAttribute (base : list (string * string)) (n : xmlNode)
      (k v : string) :
  In k kLaterAttributes -> ~ In k (map fst base) ->
  extends base n -> extends base (SetStringAttribute n k v).
Proof.
  intros Hk Hn (He & rest & Hp & Hf). split; [now autorewrite with xml|].
  destruct n as [name ps cs| |]; try discriminate. cbn in Hp |- *. subst ps.
  exists (set_prop rest k v). split.
  - now apply set_prop_app_fresh.
  - now apply set_prop_later.
Qed.

Lemma extends_SetIfPositive (base : list (string * string)) (n : xmlNode)
      (k : string) (v : double) :
  In k kLaterAttributes -> ~ In k (map fst base) ->
  extends base n -> extends base (SetIfPositive k v n).
Proof.
  intros Hk Hn Hx. unfold SetIfPositive. destruct (Positive v); [|exact Hx].
  now apply extends_SetStringAttribute.
Qed.

Lemma extends_shell (base : list (string * string)) (n n' : xmlNode) :
  same_shell n n' -> extends base n -> extends base n'.
Proof.
  intros (He & _ & Hp) (Hel & rest & Hr & Hf). split; [congruence|].
  exists rest. split; [congruence | exact Hf].
Qed.

Definition root_head (b : MpdBuilder C) : list (string * string) :=
  (kNamespaceAttributes ++ profile_attribute (dash_profile (mpd_options_ b)))%list.

Lemma later_not_in_head (b : MpdBuilder C) (k : string) :
  In k kLaterAttributes -> ~ In k (map fst (root_head b)).
Proof.
  unfold root_head, kLaterAttributes. intros Hk.
  destruct (dash_profile _); cbn [In] in Hk;
    repeat destruct Hk as [<-|Hk]; try contradiction;
    cbn; intuition discriminate.
Qed.

Lemma profile_root_properties (b : MpdBuilder C) (m : xmlNode) :
  bare_root m -> node_properties (profile_root b m) = root_head b.
Proof.
  intros (He & _ & Hp). destruct m as [name ps cs| |]; try discriminate.
  cbn in Hp. subst ps. unfold profile_root, root_head.
  destruct (dash_profile _); reflexivity.
Qed.

Lemma extends_common_root (b : MpdBuilder C) (m : xmlNode) :
  bare_root m -> extends (root_head b) (common_root b m).
Proof.
  intros Hb. unfold common_root.
  apply extends_SetIfPositive;
    [cbn; tauto | apply later_not_in_head; cbn; tauto |].
  split; [rewrite is_element_profile_root; apply Hb|].
  exists []. rewrite app_nil_r. split; [now apply profile_root_properties | constructor].
Qed.

Ltac later_attr :=
  first [ apply extends_SetStringAttribute | apply extends_SetIfPositive ];
  [cbn; tauto | apply later_not_in_head; cbn; tauto |].

Lemma extends_final_root (b : MpdBuilder C) (m mpd : xmlNode) :
  bare_root m -> final_root b m mpd -> extends (root_head b) mpd.
Proof.
  intros Hb Hf. pose proof (extends_common_root b m Hb) as Hc.
  destruct Hf as [Hs | now ast Hd | v Ho Hdc].
  - unfold static_root. cbv zeta. later_attr.
    eapply extends_shell; [apply static_walk_shell|]. later_attr. exact Hc.
  - unfold dynamic_root, dynamic_tail, dynamic_head.
    destruct (string_empty ast); repeat first [exact Hc | later_attr].
  - exact Hc.
Qed.

Lemma count_occ_later (rest : list (string * string)) (k : string) :
  Forall (fun kv => In (fst kv) kLaterAttributes) rest ->
  ~ In k kLaterAttributes ->
  count_occ string_dec (map fst rest) k = O.
Proof.
  intros Hf Hn. apply count_occ_not_In. intros Hin.
  apply in_map_iff in Hin as ([k0 v0] & <- & Hin).
  rewrite Forall_forall in Hf. apply Hn. exact (Hf _ Hin).
Qed.

Lemma get_prop_app (a b : list (string * string)) (k : string) :
  get_prop (a ++ b) k =
  match get_prop a k with Some v => Some v | None => get_prop b k end.
Proof.
  induction a as [|[k0 v0] a IH]; cbn [get_prop app]; [reflexivity|].
  destruct (String.eqb k0 k); [reflexivity | exact IH].
Qed.

Lemma get_prop_later (rest : list (string * string)) (k : string) :
  Forall (fun kv => In (fst kv) kLaterAttributes) rest ->
  ~ In k kLaterAttributes -> get_prop rest k = None.
Proof.
  intros Hf Hn. apply get_prop_not_in. intros Hin.
  apply in_map_iff in Hin as ([k0 v0] & <- & Hin).
  rewrite Forall_forall in Hf. apply Hn. exact (Hf _ Hin).
Qed.

(** C9: the root of every successfully serialized document starts with the
    five namespace and schema attributes with their fixed values.  For the
    on-demand and the live profile one profiles attribute with that
    profile's URI follows; for a profile outside the switch (a build
    without assertions) there is none.  Every attribute after these has
    one of the later names, so each namespace name occurs exactly once, and
    profiles occurs once for the two named profiles and not at all
    otherwise. *)
Theorem root_namespace_and_profile_attributes (e e' : Env) (output out : string) :
  ToString output e = Returns ((true, out), e') ->
  exists doc mpd rest,
    GenerateMpd e = Returns (Some doc, e') /\
    out = xmlDocDumpFormatMemoryEnc doc /\
    mpd_root doc = Some mpd /\
    node_properties mpd =
      ([("xmlns", "urn:mpeg:dash:schema:mpd:2011");
        ("xmlns:xsi", "http://www.w3.org/2001/XMLSchema-instance");
        ("xmlns:xlink", "http://www.w3.org/1999/xlink");
        ("xsi:schemaLocation", "urn:mpeg:dash:schema:mpd:2011 DASH-MPD.xsd");
        ("xmlns:cenc", "urn:mpeg:cenc:2013")] ++
       match dash_profile (mpd_options_ (this e)) with
       | kOnDemand =>
           [("profiles", "urn:mpeg:dash:profile:isoff-on-demand:2011")]
       | kLive => [("profiles", "urn:mpeg:dash:profile:isoff-live:2011")]
       | DashProfileOther _ => []
       end ++ rest)%list /\
    Forall (fun kv =>
              In (fst kv)
                 ["minBufferTime"; "type"; "mediaPresentationDuration";
                  "publishTime"; "availabilityStartTime";
                  "minimumUpdatePeriod"; "timeShiftBufferDepth";
                  "suggestedPresentationDelay"]) rest /\
    xmlGetProp mpd "xmlns" = Some "urn:mpeg:dash:schema:mpd:2011" /\
    xmlGetProp mpd "xmlns:xsi" =
      Some "http://www.w3.org/2001/XMLSchema-instance" /\
    xmlGetProp mpd "xmlns:xlink" = Some "http://www.w3.org/1999/xlink" /\
    xmlGetProp mpd "xsi:schemaLocation" =
      Some "urn:mpeg:dash:schema:mpd:2011 DASH-MPD.xsd" /\
    xmlGetProp mpd "xmlns:cenc" = Some "urn:mpeg:cenc:2013" /\
    (forall k,
       In k ["xmlns"; "xmlns:xsi"; "xmlns:xlink"; "xsi:schemaLocation";
             "xmlns:cenc"] ->
       attr_count mpd k = 1%nat) /\
    xmlGetProp mpd "profiles" =
      match dash_profile (mpd_options_ (this e)) with
      | kOnDemand => Some "urn:mpeg:dash:profile:isoff-on-demand:2011"
      | kLive => Some "urn:mpeg:dash:profile:isoff-live:2011"
      | DashProfileOther _ => None
      end /\
    attr_count mpd "profiles" =
      match dash_profile (mpd_options_ (this e)) with
      | kOnDemand | kLive => 1%nat
      | DashProfileOther _ => O
      end.
Proof.
  intros Hts. destruct (ToString_success _ _ _ _ Hts) as (doc & Hg & ->).
  destruct e as [b l].
  destruct (GenerateMpd_success _ _ _ _ Hg) as (m1 & m2 & mpd & H1 & H2 & _ & -> & Hf).
  pose proof (loops_give_bare_root _ _ _ H1 H2) as Hb.
  destruct (extends_final_root b m2 mpd Hb Hf) as (He & rest & Hp & Hr).
  exists (wrap_doc mpd), mpd, rest. cbn [this].
  split; [exact Hg|]. split; [reflexivity|]. split; [apply mpd_root_wrap_doc|].
  unfold root_head in Hp. rewrite <- app_assoc in Hp.
  assert (Hcount : forall k, ~ In k kLaterAttributes ->
                             count_occ string_dec (map fst rest) k = O)
    by (intros k; now apply count_occ_later).
  assert (Hget : forall k, ~ In k kLaterAttributes -> get_prop rest k = None)
    by (intros k; now apply get_prop_later).
  split; [rewrite Hp; destruct (dash_profile _); reflexivity|].
  split; [exact Hr|].
  unfold xmlGetProp, attr_count. rewrite Hp.
  repeat split.
  - intros k Hin. cbn [In] in Hin.
    rewrite !map_app, !count_occ_app, Hcount.
    + repeat destruct Hin as [Hin|Hin]; try contradiction; subst;
        destruct (dash_profile _); reflexivity.
    + repeat destruct Hin as [Hin|Hin]; try contradiction; subst;
        cbn; intuition discriminate.
  - rewrite !get_prop_app.
    destruct (dash_profile _); cbn; try reflexivity.
    apply Hget. cbn; intuition discriminate.
  - rewrite !map_app, !count_occ_app, Hcount by (cbn; intuition discriminate).
    destruct (dash_profile _); reflexivity.
Qed.

(** ** Enumerators outside the switch statements *)

(** C10, as the code has it: NOTREACHED is a debug assertion.  With
    assertions compiled in, a profile or manifest type outside the switch
    aborts the serialization with the diagnostic.  With assertions compiled
    out the switch falls through: for such a profile no profiles attribute
    is written, for such a type the document is returned without any
    type-specific attribute. *)
Theorem unknown_enumerator_hits_notreached
        (b : MpdBuilder C) (l : list LogEntry) (output : string)
        (m1 m2 : xmlNode) (v : Z) :
  add_base_urls (XmlNode "MPD") (base_urls_ b) = Some m1 ->
  add_periods m1 (periods_ b) = Some m2 ->
  (dash_profile (mpd_options_ b) = DashProfileOther v ->
   if dcheck_is_on
   then ToString output (mkEnv b l) = Fatal ("Unknown DASH profile: " ++ decimal v)
   else
     (forall mpd, profile_switch mpd (mkEnv b l) = Returns (mpd, mkEnv b l)) /\
     (forall out e', ToString output (mkEnv b l) = Returns ((true, out), e') ->
        exists doc mpd, out = xmlDocDumpFormatMemoryEnc doc /\
                        mpd_root doc = Some mpd /\
                        xmlGetProp mpd "profiles" = None)) /\
  (mpd_type (mpd_options_ b) = MpdTypeOther v ->
   profile_passes b = true ->
   if dcheck_is_on
   then ToString output (mkEnv b l) = Fatal ("Unknown MPD type: " ++ decimal v)
   else
     ToString output (mkEnv b l) =
       Returns ((true, xmlDocDumpFormatMemoryEnc (wrap_doc (common_root b m2))),
                mkEnv b (common_log b l)) /\
     xmlGetProp (common_root b m2) "type" = None /\
     xmlGetProp (common_root b m2) "mediaPresentationDuration" = None /\
     xmlGetProp (common_root b m2) "publishTime" = None /\
     xmlGetProp (common_root b m2) "availabilityStartTime" = None).
Proof.
  intros H1 H2. pose proof (loops_give_bare_root _ _ _ H1 H2) as Hb. split.
  - intros Hp. destruct dcheck_is_on eqn:Hdc.
    + rewrite ToString_run, GenerateMpd_steps. cbn [this].
      rewrite H1, H2, finish_root_run, Hp, Hdc. reflexivity.
    + split.
      * intros mpd. now rewrite profile_switch_run, Hp, Hdc.
      * intros out e' Hts.
        destruct (ToString_success _ _ _ _ Hts) as (doc & Hg & ->).
        destruct (GenerateMpd_success _ _ _ _ Hg)
          as (m1' & m2' & mpd & H1' & H2' & _ & -> & Hf).
        pose proof (loops_give_bare_root _ _ _ H1' H2') as Hb'.
        destruct (extends_final_root b m2' mpd Hb' Hf) as (He & rest & Hr & Hl).
        exists (wrap_doc mpd), mpd.
        split; [reflexivity|]. split; [apply mpd_root_wrap_doc|].
        unfold xmlGetProp. rewrite Hr. unfold root_head. rewrite Hp.
        cbn [profile_attribute]. rewrite app_nil_r, get_prop_app.
        cbn [kNamespaceAttributes get_prop String.eqb Ascii.eqb Bool.eqb].
        apply get_prop_later; [exact Hl | cbn; intuition discriminate].
  - intros Ht Hpass. destruct dcheck_is_on eqn:Hdc.
    + rewrite ToString_run, (GenerateMpd_passes _ _ _ _ H1 H2 Hpass).
      unfold after_profile, bind. now rewrite type_switch_run, Ht, Hdc.
    + split.
      * rewrite ToString_run, (GenerateMpd_passes _ _ _ _ H1 H2 Hpass).
        unfold after_profile, bind. now rewrite type_switch_run, Ht, Hdc.
      * repeat split; apply xmlGetProp_common_root_other;
          try exact Hb; cbn [In]; tauto.
Qed.

(** ** The life of a builder *)

(** What can happen to a builder between its construction and its
    destruction: the three public calls, a change made to a period through
    the pointer AddPeriod returned, and the clock moving on (or being
    replaced by a test). *)
Inductive Call :=
| CallAddBaseUrl (base_url : string)
| CallAddPeriod
| CallToString (output : string)
| PeriodUpdated (pos : nat) (period : Period)
| ClockMoved (clock : C).

Fixpoint update_period (periods : list Period) (pos : nat) (period : Period)
  : list Period :=
  match periods, pos with
  | [], _ => []
  | _ :: rest, O => period :: rest
  | p :: rest, S pos' => p :: update_period rest pos' period
  end.

Definition discard {A} (o : outcome (A * Env)) : outcome Env :=
  match o with
  | Returns (_, e) => Returns e
  | Fatal msg => Fatal msg
  | Undefined => Undefined
  end.

Definition step (e : Env) (c : Call) : outcome Env :=
  match c with
  | CallAddBaseUrl base_url => discard (AddBaseUrl base_url e)
  | CallAddPeriod => discard (AddPeriod e)
  | CallToString output => discard (ToString output e)
  | PeriodUpdated pos period =>
      let b := this e in
      Returns (mkEnv (mkMpdBuilder (mpd_options_ b)
                        (update_period (periods_ b) pos period) (base_urls_ b)
                        (availability_start_time_ b) (clock_ b))
                     (log e))
  | ClockMoved clock => Returns (mkEnv (with_clock (this e) clock) (log e))
  end.

Fixpoint run_calls (e : Env) (calls : list Call) : outcome Env :=
  match calls with
  | [] => Returns e
  | c :: rest =>
      match step e c with
      | Returns e' => run_calls e' rest
      | Fatal msg => Fatal msg
      | Undefined => Undefined
      end
  end.

(** What stays fixed: the options and the cached string. *)
Definition same_cache (e e' : Env) : Prop :=
  mpd_options_ (this e') = mpd_options_ (this e) /\
  availability_start_time_ (this e') = availability_start_time_ (this e).

Lemma GenerateMpd_cached (b : MpdBuilder C) (l : list LogEntry)
      (r : option xmlDoc) (e' : Env) :
  mpd_type (mpd_options_ b) = kDynamic ->
  string_empty (availability_start_time_ b) = false ->
  GenerateMpd (mkEnv b l) = Returns (r, e') ->
  same_cache (mkEnv b l) e' /\
  (forall doc, r = Some doc ->
     clock_ (this e') = snd (Now (clock_ b)) /\
     exists mpd, mpd_root doc = Some mpd /\
       xmlGetProp mpd "availabilityStartTime" = Some (availability_start_time_ b)).
Proof.
  intros Hd Hc. rewrite GenerateMpd_steps. cbn [this].
  destruct (add_base_urls _ _) as [m1|] eqn:H1.
  2:{ intros Hr; inversion Hr; subst. split; [split; reflexivity | discriminate]. }
  destruct (add_periods _ _) as [m2|] eqn:H2.
  2:{ intros Hr; inversion Hr; subst. split; [split; reflexivity | discriminate]. }
  pose proof (loops_give_bare_root _ _ _ H1 H2) as Hb.
  pose proof Hb as (He & _ & _).
  intros Hf.
  assert (Ha : after_profile b l m2 = Returns (r, e')).
  { rewrite finish_root_run in Hf.
    destruct (dash_profile _); try exact Hf.
    destruct dcheck_is_on; [discriminate | exact Hf]. }
  clear Hf. unfold after_profile, bind in Ha.
  rewrite type_switch_run, Hd in Ha.
  destruct (Now (clock_ b)) as [now c1] eqn:Hn.
  rewrite (AddDynamicMpdInfo_cached _ _ _ _ _ Hd Hc Hn) in Ha.
  unfold ret in Ha. inversion Ha; subst. cbn [this snd].
  split; [split; reflexivity|].
  intros doc Hdoc. inversion Hdoc; subst. split; [reflexivity|].
  eexists. split; [apply mpd_root_wrap_doc|].
  unfold dynamic_tail, dynamic_head. read_attr. now rewrite !andb_false_r.
Qed.

Lemma step_same_cache (e e' : Env) (c : Call) :
  mpd_type (mpd_options_ (this e)) = kDynamic ->
  string_empty (availability_start_time_ (this e)) = false ->
  step e c = Returns e' -> same_cache e e'.
Proof.
  intros Hd Hc. destruct e as [b l]. cbn [this] in *.
  destruct c as [u| |output|pos p|clk]; cbn [step discard].
  - unfold AddBaseUrl, bind, get_this, put_this. cbn.
    intros Hr; inversion Hr. split; reflexivity.
  - unfold AddPeriod, bind, get_this, put_this, ret. cbn.
    intros Hr; inversion Hr. split; reflexivity.
  - rewrite ToString_run.
    destruct (GenerateMpd _) as [[r e1]| |] eqn:Hg; try discriminate.
    destruct (GenerateMpd_cached _ _ _ _ Hd Hc Hg) as [Hs _].
    destruct r; cbn; intros Hr; inversion Hr; subst; exact Hs.
  - intros Hr; inversion Hr. split; reflexivity.
  - intros Hr; inversion Hr. split; reflexivity.
Qed.

Lemma run_calls_same_cache (calls : list Call) (e e' : Env) :
  mpd_type (mpd_options_ (this e)) = kDynamic ->
  string_empty (availability_start_time_ (this e)) = false ->
  run_calls e calls = Returns e' -> same_cache e e'.
Proof.
  revert e. induction calls as [|c calls IH]; cbn [run_calls]; intros e Hd Hc Hr.
  - inversion Hr. split; reflexivity.
  - destruct (step e c) as [e1| |] eqn:Hs; try discriminate.
    destruct (step_same_cache _ _ _ Hd Hc Hs) as [Ho Ha].
    destruct (IH e1) as [Ho' Ha']; [congruence | congruence | exact Hr |].
    split; congruence.
Qed.

(** C2: once a dynamic builder holds a non-empty availability start time,
    no sequence of calls, period updates and clock movements changes it,
    and every later successful serialization attaches exactly that string,
    reading the clock once (for publishTime) and leaving the cache as it
    was. *)
Theorem availability_start_time_is_stable
        (e e1 : Env) (calls : list Call) :
  mpd_type (mpd_options_ (this e)) = kDynamic ->
  string_empty (availability_start_time_ (this e)) = false ->
  run_calls e calls = Returns e1 ->
  availability_start_time_ (this e1) = availability_start_time_ (this e) /\
  forall output out e2,
    ToString output e1 = Returns ((true, out), e2) ->
    exists doc mpd,
      out = xmlDocDumpFormatMemoryEnc doc /\
      mpd_root doc = Some mpd /\
      xmlGetProp mpd "availabilityStartTime" =
        Some (availability_start_time_ (this e)) /\
      availability_start_time_ (this e2) = availability_start_time_ (this e) /\
      clock_ (this e2) = snd (Now (clock_ (this e1))).
Proof.
  intros Hd Hc Hr.
  destruct (run_calls_same_cache _ _ _ Hd Hc Hr) as [Ho Ha].
  split; [exact Ha|].
  intros output out e2 Hts.
  destruct (ToString_success _ _ _ _ Hts) as (doc & Hg & ->).
  destruct e1 as [b1 l1]. cbn [this] in *.
  assert (Hd1 : mpd_type (mpd_options_ b1) = kDynamic) by congruence.
  assert (Hc1 : string_empty (availability_start_time_ b1) = false) by congruence.
  destruct (GenerateMpd_cached _ _ _ _ Hd1 Hc1 Hg) as [[_ Ha2] Hdoc].
  destruct (Hdoc doc eq_refl) as (Hclk & mpd & Hroot & Hattr).
  exists doc, mpd. cbn [this] in Ha2. repeat split; congruence.
Qed.

(** ** The order of floats that are numbers *)

Definition is_nan (f : spec_float) : bool :=
  match f with S754_nan => true | _ => false end.

(** A position in the lexicographic order of triples that agrees with the
    comparison of two floats in canonical form. *)
Definition order_key (f : spec_float) : Z * Z * Z :=
  match f with
  | S754_infinity true => (-2, 0, 0)
  | S754_finite true m e => (-1, - e, - Zpos m)
  | S754_zero _ | S754_nan => (0, 0, 0)
  | S754_finite false m e => (1, e, Zpos m)
  | S754_infinity false => (2, 0, 0)
  end.

Definition key_lt (a b : Z * Z * Z) : Prop :=
  let '(a1, a2, a3) := a in
  let '(b1, b2, b3) := b in
  a1 < b1 \/ (a1 = b1 /\ (a2 < b2 \/ (a2 = b2 /\ a3 < b3))).

Lemma gt_key (a b : spec_float) :
  is_nan a = false -> is_nan b = false ->
  (gt a b = true <-> key_lt (order_key b) (order_key a)).
Proof.
  unfold gt, SFltb, SFcompare, key_lt.
  destruct a as [sa|sa| |sa ma ea], b as [sb|sb| |sb mb eb];
    try discriminate; intros _ _;
    try destruct sa; try destruct sb; cbn [order_key];
    try (split; [discriminate | lia]);
    try (split; [lia | reflexivity]).
  - rewrite Pos.compare_cont_spec. cbn [Pos.switch_Eq].
    destruct (Z.compare_spec eb ea) as [->| |];
      [| split; [discriminate | lia] | split; [lia | reflexivity]].
    destruct (Pos.compare_spec mb ma) as [->| |]; cbn;
      split; try discriminate; try reflexivity; lia.
  - rewrite Pos.compare_cont_spec. cbn [Pos.switch_Eq].
    destruct (Z.compare_spec eb ea) as [->| |];
      [| split; [lia | reflexivity] | split; [discriminate | lia]].
    destruct (Pos.compare_spec mb ma) as [->| |]; cbn;
      split; try discriminate; try reflexivity; lia.
Qed.

Lemma gt_irrefl (a : spec_float) : gt a a = false.
Proof.
  destruct (is_nan a) eqn:Ha.
  - destruct a; try discriminate. reflexivity.
  - destruct (gt a a) eqn:E; [|reflexivity].
    apply gt_key in E; try exact Ha. unfold key_lt in E.
    destruct (order_key a) as [[? ?] ?]. lia.
Qed.

Lemma gt_asym (a b : spec_float) :
  is_nan a = false -> is_nan b = false -> gt a b = true -> gt b a = false.
Proof.
  intros Ha Hb Hab. destruct (gt b a) eqn:E; [|reflexivity].
  apply gt_key in Hab; try assumption. apply gt_key in E; try assumption.
  unfold key_lt in *.
  destruct (order_key a) as [[? ?] ?], (order_key b) as [[? ?] ?]. lia.
Qed.

(** "Not greater" is transitive on numbers. *)
Lemma not_gt_trans (a b c : spec_float) :
  is_nan a = false -> is_nan b = false -> is_nan c = false ->
  gt a b = false -> gt b c = false -> gt a c = false.
Proof.
  intros Ha Hb Hc Hab Hbc. destruct (gt a c) eqn:E; [|reflexivity].
  apply gt_key in E; try assumption.
  assert (Nab : ~ key_lt (order_key b) (order_key a))
    by (intros K; apply gt_key in K; congruence).
  assert (Nbc : ~ key_lt (order_key c) (order_key b))
    by (intros K; apply gt_key in K; congruence).
  unfold key_lt in *.
  destruct (order_key a) as [[? ?] ?], (order_key b) as [[? ?] ?],
    (order_key c) as [[? ?] ?]. lia.
Qed.

(** ** The static duration *)

(** The first <Period> child of the root. *)
Definition first_period (mpd : xmlNode) : option xmlNode :=
  find IsPeriodNode (xmlChildrenNode mpd).

(** The representation leaves: the element children of the element
    children of the period. *)
Definition visited_leaves (period : xmlNode) : list xmlNode :=
  flat_map element_children (element_children period).

(** The duration hints read from a list of leaves, in document order. *)
Definition duration_hints (leaves : list xmlNode) : list float :=
  flat_map (fun leaf => match GetDurationAttribute leaf with
                        | Some d => [d]
                        | None => []
                        end) leaves.

(** The running maximum [max_duration > duration ? max_duration : duration]. *)
Definition running_max (hints : list float) (start : float) : float :=
  fold_left (fun m d => if gt m d then m else d) hints start.

(** A leaf after the walk: the hint is removed where one was read. *)
Definition strip_hint (leaf : xmlNode) : xmlNode :=
  match GetDurationAttribute leaf with
  | Some _ => xmlUnsetProp leaf "duration"
  | None => leaf
  end.

Definition clean_leaf (n : xmlNode) : xmlNode :=
  if is_element n then strip_hint n else n.

Definition clean_set (n : xmlNode) : xmlNode :=
  if is_element n then set_children n (map clean_leaf (xmlChildrenNode n)) else n.

Definition clean_period (period : xmlNode) : xmlNode :=
  set_children period (map clean_set (xmlChildrenNode period)).

(** A duration: a float that is a number and is not negative. *)
Definition is_duration (f : float) : bool := SFleb zero f.

Lemma running_max_app (a b : list float) (start : float) :
  running_max (a ++ b) start = running_max b (running_max a start).
Proof. unfold running_max. apply fold_left_app. Qed.

Lemma duration_hints_app (a b : list xmlNode) :
  duration_hints (a ++ b) = (duration_hints a ++ duration_hints b)%list.
Proof. unfold duration_hints. apply flat_map_app. Qed.

Lemma visit_representations_spec (nodes : list xmlNode) (start : float) :
  visit_representations nodes start =
  (map clean_leaf nodes,
   running_max (duration_hints (filter is_element nodes)) start).
Proof.
  revert start. induction nodes as [|r nodes IH]; intros start;
    cbn [visit_representations map filter].
  - reflexivity.
  - unfold clean_leaf at 1, strip_hint.
    destruct (is_element r) eqn:Er.
    + cbn [duration_hints flat_map]. fold (duration_hints (filter is_element nodes)).
      destruct (GetDurationAttribute r) as [d|]; rewrite IH; reflexivity.
    + rewrite IH. reflexivity.
Qed.

Lemma visit_adaptation_sets_spec (nodes : list xmlNode) (start : float) :
  visit_adaptation_sets nodes start =
  (map clean_set nodes,
   running_max
     (duration_hints (flat_map element_children (filter is_element nodes)))
     start).
Proof.
  revert start. induction nodes as [|a nodes IH]; intros start;
    cbn [visit_adaptation_sets map filter].
  - reflexivity.
  - unfold clean_set at 1. destruct (is_element a) eqn:Ea.
    + rewrite visit_representations_spec, IH. cbn [flat_map].
      rewrite duration_hints_app, running_max_app. reflexivity.
    + rewrite IH. reflexivity.
Qed.

Lemma find_period_first (nodes : list xmlNode) (start : nat) :
  find IsPeriodNode nodes =
  match find_period nodes start with
  | Some pos => Some (nth (pos - start) nodes (XmlText ""))
  | None => None
  end.
Proof.
  revert start. induction nodes as [|n nodes IH]; intros start;
    cbn [find find_period]; [reflexivity|].
  destruct (IsPeriodNode n).
  - now rewrite Nat.sub_diag.
  - rewrite (IH (S start)). destruct (find_period nodes (S start)) as [pos|] eqn:E;
      [|reflexivity].
    apply find_period_spec in E as (before & p & after & _ & -> & _).
    replace (S start + List.length before - start)%nat
      with (S (S start + List.length before - S start)) by lia.
    reflexivity.
Qed.

Lemma static_walk_spec (mpd : xmlNode) :
  is_element mpd = true ->
  match first_period mpd with
  | None => static_walk mpd = (mpd, zero)
  | Some period =>
      exists before after,
        xmlChildrenNode mpd = (before ++ period :: after)%list /\
        Forall (fun n => IsPeriodNode n = false) before /\
        IsPeriodNode period = true /\
        xmlChildrenNode (fst (static_walk mpd)) =
          (before ++ clean_period period :: after)%list /\
        snd (static_walk mpd) =
          running_max (duration_hints (visited_leaves period)) zero
  end.
Proof.
  intros He. unfold first_period, static_walk, FindPeriodNode.
  rewrite (find_period_first _ 0).
  destruct (find_period (xmlChildrenNode mpd) 0) as [pos|] eqn:Ef; [|reflexivity].
  destruct (find_period_spec _ _ _ Ef) as (before & period & after & Hc & -> & Hp & Hb).
  rewrite Hc. cbn [Nat.add]. rewrite Nat.sub_0_r, nth_middle_node.
  rewrite visit_adaptation_sets_spec. cbn [fst snd].
  exists before, after. rewrite replace_nth_middle.
  rewrite xmlChildrenNode_set_children by exact He.
  repeat split; auto.
Qed.

Lemma is_element_clean_leaf (n : xmlNode) : is_element (clean_leaf n) = is_element n.
Proof.
  unfold clean_leaf, strip_hint. destruct n; cbn; try reflexivity.
  destruct (GetDurationAttribute _); reflexivity.
Qed.

Lemma element_children_clean_set (a : xmlNode) :
  is_element a = true ->
  element_children (clean_set a) = map strip_hint (element_children a).
Proof.
  intros Ea. unfold clean_set, element_children. rewrite Ea.
  rewrite xmlChildrenNode_set_children by exact Ea.
  induction (xmlChildrenNode a) as [|r rs IH]; cbn [map filter]; [reflexivity|].
  rewrite is_element_clean_leaf. unfold clean_leaf at 1.
  destruct (is_element r); cbn [map]; now rewrite IH.
Qed.

Lemma visited_leaves_clean_period (period : xmlNode) :
  is_element period = true ->
  visited_leaves (clean_period period) = map strip_hint (visited_leaves period).
Proof.
  intros Ep. unfold visited_leaves, clean_period, element_children at 2 4.
  rewrite xmlChildrenNode_set_children by exact Ep.
  induction (xmlChildrenNode period) as [|a rest IH]; cbn [map filter flat_map];
    [reflexivity|].
  assert (Hel : is_element (clean_set a) = is_element a).
  { unfold clean_set. destruct (is_element a) eqn:E; [|exact E].
    now rewrite is_element_set_children. }
  rewrite Hel. destruct (is_element a) eqn:Ea; [|exact IH].
  cbn [flat_map]. rewrite map_app, IH, element_children_clean_set by exact Ea.
  reflexivity.
Qed.

Lemma strip_hint_removes (leaf : xmlNode) (d : float) :
  GetDurationAttribute leaf = Some d -> distinct_props leaf ->
  xmlGetProp (strip_hint leaf) "duration" = None.
Proof.
  intros Hg Hd. unfold strip_hint. rewrite Hg. now apply xmlGetProp_xmlUnsetProp.
Qed.

Lemma is_duration_number (f : float) :
  is_duration f = true -> is_nan f = false /\ gt zero f = false.
Proof.
  unfold is_duration, gt, zero, SFleb, SFltb, SFcompare.
  destruct f as [s|s| |s m e]; try destruct s; try discriminate; auto.
Qed.

Lemma running_max_spec (hints : list float) (start : float) :
  is_nan start = false ->
  Forall (fun h => is_nan h = false) hints ->
  let r := running_max hints start in
  is_nan r = false /\ In r (start :: hints) /\
  forall h, In h (start :: hints) -> gt h r = false.
Proof.
  revert start. induction hints as [|d hints IH]; intros start Hs Hf r.
  - subst r. cbn. split; [exact Hs|]. split; [now left|].
    intros h [<-|[]]. apply gt_irrefl.
  - inversion Hf as [|? ? Hd Hf']; subst.
    subst r.
    change (running_max (d :: hints) start)
      with (running_max hints (if gt start d then start else d)).
    set (m := if gt start d then start else d).
    assert (Hm : is_nan m = false) by (subst m; destruct (gt start d); assumption).
    destruct (IH m Hm Hf') as (Hr & Hin & Hub).
    assert (Hsm : gt start m = false).
    { subst m. destruct (gt start d) eqn:E; [apply gt_irrefl | exact E]. }
    assert (Hdm : gt d m = false).
    { subst m. destruct (gt start d) eqn:E; [now apply gt_asym | apply gt_irrefl]. }
    split; [exact Hr|]. split.
    + destruct Hin as [Heq|Hin]; [|right; now right].
      rewrite <- Heq. subst m. destruct (gt start d); [now left | right; now left].
    + intros h [<-|[<-|Hh]].
      * apply (not_gt_trans _ m); auto. apply Hub. now left.
      * apply (not_gt_trans _ m); auto. apply Hub. now left.
      * apply Hub. now right.
Qed.

(** With durations for hints, the running maximum from zero is the largest
    hint, and zero when there is none. *)
Lemma running_max_of_durations (hints : list float) :
  Forall (fun h => is_duration h = true) hints ->
  let r := running_max hints zero in
  (hints = [] -> r = zero) /\
  (hints <> [] -> In r hints) /\
  (forall h, In h hints -> gt h r = false).
Proof.
  intros Hf r.
  assert (Hn : Forall (fun h => is_nan h = false) hints).
  { eapply Forall_impl; [|exact Hf]. intros h Hh. now apply is_duration_number. }
  split; [intros ->; reflexivity|]. split.
  - destruct hints as [|d hints]; [congruence|]. intros _.
    inversion Hf as [|? ? Hd Hf']; subst. inversion Hn as [|? ? Hnd Hn']; subst.
    subst r.
    change (running_max (d :: hints) zero)
      with (running_max hints (if gt zero d then zero else d)).
    destruct (is_duration_number _ Hd) as [_ Hz]. rewrite Hz.
    destruct (running_max_spec hints d Hnd Hn') as (_ & Hin & _). exact Hin.
  - intros h Hh. destruct (running_max_spec hints zero eq_refl Hn) as (_ & _ & Hub).
    apply Hub. now right.
Qed.

Lemma first_period_root (n : xmlNode) (cs : list xmlNode) :
  is_element n = true -> first_period (set_children n cs) = find IsPeriodNode cs.
Proof. intros He. unfold first_period. now rewrite xmlChildrenNode_set_children. Qed.

Lemma attribute_writes_keep_children (b : MpdBuilder C) (m : xmlNode) :
  xmlChildrenNode (SetStringAttribute (common_root b m) "type" "static")
  = xmlChildrenNode m.
Proof.
  unfold common_root, SetIfPositive, profile_root, AddMpdNameSpaceInfo.
  destruct (Positive _), (dash_profile _);
    now rewrite !xmlChildrenNode_SetStringAttribute.
Qed.

(** C3: a static serialization always writes mediaPresentationDuration.
    Without a <Period> among the root's children the value is the formatted
    zero and a WARNING entry is logged.  Otherwise the value is the
    formatted running maximum, from zero, of the duration hints that
    GetDurationAttribute reads from the element children of the element
    children of the first <Period>; that period is replaced by its cleaned
    copy, in which every visited leaf whose hint was read has lost its
    "duration" attribute and every visited leaf whose hint could not be
    read is as it was.  For hints that are numbers the running maximum is
    not below zero, is zero or one of the hints, and no hint exceeds it;
    when no hint is negative it is the largest of them. *)
Theorem static_duration_is_max_hint
        (b : MpdBuilder C) (l : list LogEntry) (output : string)
        (m1 m2 : xmlNode) :
  mpd_type (mpd_options_ b) = kStatic ->
  add_base_urls (XmlNode "MPD") (base_urls_ b) = Some m1 ->
  add_periods m1 (periods_ b) = Some m2 ->
  profile_passes b = true ->
  exists doc mpd e',
    ToString output (mkEnv b l) =
      Returns ((true, xmlDocDumpFormatMemoryEnc doc), e') /\
    mpd_root doc = Some mpd /\
    match first_period m2 with
    | None =>
        xmlGetProp mpd "mediaPresentationDuration" =
          Some (SecondsToXmlDuration zero) /\
        In kNoPeriodFound (log e') /\
        is_warning kNoPeriodFound = true /\
        xmlChildrenNode mpd = xmlChildrenNode m2
    | Some period =>
        let hints := duration_hints (visited_leaves period) in
        let max_duration := running_max hints zero in
        xmlGetProp mpd "mediaPresentationDuration" =
          Some (SecondsToXmlDuration (double_of_float max_duration)) /\
        (exists before after,
           xmlChildrenNode m2 = (before ++ period :: after)%list /\
           Forall (fun n => IsPeriodNode n = false) before /\
           xmlChildrenNode mpd = (before ++ clean_period period :: after)%list) /\
        visited_leaves (clean_period period) =
          map strip_hint (visited_leaves period) /\
        (forall leaf d,
           In leaf (visited_leaves period) ->
           GetDurationAttribute leaf = Some d ->
           distinct_props leaf ->
           xmlGetProp (strip_hint leaf) "duration" = None) /\
        (forall leaf,
           In leaf (visited_leaves period) ->
           GetDurationAttribute leaf = None ->
           strip_hint leaf = leaf) /\
        (Forall (fun h => is_nan h = false) hints ->
         (max_duration = zero \/ In max_duration hints) /\
         gt zero max_duration = false /\
         (forall h, In h hints -> gt h max_duration = false)) /\
        (Forall (fun h => is_duration h = true) hints ->
         (hints = [] -> max_duration = zero) /\
         (hints <> [] -> In max_duration hints) /\
         (forall h, In h hints -> gt h max_duration = false))
    end.
Proof.
  intros Hs H1 H2 Hpass.
  pose proof (loops_give_bare_root _ _ _ H1 H2) as Hb.
  pose proof Hb as (He & _ & _).
  set (typed := SetStringAttribute (common_root b m2) "type" "static").
  assert (Het : is_element typed = true) by (subst typed; now autorewrite with xml).
  assert (Hct : xmlChildrenNode typed = xmlChildrenNode m2)
    by apply attribute_writes_keep_children.
  assert (Hfp : first_period typed = first_period m2)
    by (unfold first_period; now rewrite Hct).
  pose proof (static_walk_spec typed Het) as Hw. rewrite Hfp in Hw.
  eexists _, _, _.
  rewrite ToString_run, (GenerateMpd_passes _ _ _ _ H1 H2 Hpass).
  unfold after_profile, bind. rewrite type_switch_run, Hs.
  rewrite AddStaticMpdInfo_run by exact Hs. cbv zeta. fold typed. unfold ret.
  split; [reflexivity|]. split; [apply mpd_root_wrap_doc|].
  destruct (first_period m2) as [period|] eqn:Hp.
  - destruct Hw as (before & after & Hc & Hbefore & Hper & Hc' & Hmax).
    cbv zeta.
    split; [read_attr; now rewrite Hmax|].
    split.
    { exists before, after. rewrite xmlChildrenNode_SetStringAttribute.
      rewrite <- Hct. auto. }
    split; [apply visited_leaves_clean_period; now apply IsPeriodNode_is_element|].
    split; [intros leaf d _ Hg Hd; eapply strip_hint_removes; eauto|].
    split; [intros leaf _ Hg; unfold strip_hint; now rewrite Hg|].
    split; [|apply running_max_of_durations].
    intros Hnum.
    destruct (running_max_spec _ zero eq_refl Hnum) as (_ & Hin & Hub).
    cbv zeta in Hin, Hub. split; [|split].
    + destruct Hin as [Hz|Hin]; [left; now symmetry | now right].
    + apply Hub. now left.
    + intros h Hh. apply Hub. now right.
  - rewrite Hw. cbn [fst snd].
    split; [now read_attr|].
    split.
    { cbn [log].
      destruct (FindPeriodNode (common_root b m2)) as [pos|] eqn:Ef.
      - exfalso. unfold FindPeriodNode in Ef.
        pose proof (find_period_first
                      (xmlChildrenNode (common_root b m2)) 0) as Hff.
        rewrite Ef in Hff.
        unfold first_period in Hp. rewrite <- Hct in Hp. subst typed.
        rewrite xmlChildrenNode_SetStringAttribute in Hp. congruence.
      - apply in_or_app. right. now left. }
    split; [reflexivity|].
    now rewrite xmlChildrenNode_SetStringAttribute.
Qed.

(** * Further properties of the builder *)

(** ** One equation for a whole run *)

(** AddDynamicMpdInfo as a function of the builder, the log and the root. *)
Definition dynamic_run (b : MpdBuilder C) (l : list LogEntry) (mpd : xmlNode)
  : outcome (xmlNode * Env) :=
  let (now1, c1) := Now (clock_ b) in
  if string_empty (availability_start_time_ b) then
    match periods_ b with
    | [] => if dcheck_is_on then Fatal kPeriodsEmptyCheck else Undefined
    | front :: _ =>
        match Period_GetEarliestTimestamp front with
        | None =>
            Returns (dynamic_tail b (dynamic_head mpd now1),
                     mkEnv (with_clock b c1)
                           (update_period_log b (l ++ [kNoEarliestTimestamp])))
        | Some t =>
            match neg_ceil_to_int32 t with
            | None => Undefined
            | Some offset_seconds =>
                let (now2, c2) := Now c1 in
                let ast := XmlDateTime now2 offset_seconds in
                Returns (dynamic_tail b
                           (SetStringAttribute (dynamic_head mpd now1)
                              "availabilityStartTime" ast),
                         mkEnv (with_clock (with_availability_start_time b ast) c2)
                               (update_period_log b l))
            end
        end
    end
  else
    Returns (dynamic_tail b
               (SetStringAttribute (dynamic_head mpd now1)
                  "availabilityStartTime" (availability_start_time_ b)),
             mkEnv (with_clock b c1) (update_period_log b l)).

Lemma AddDynamicMpdInfo_run (mpd : xmlNode) (b : MpdBuilder C) (l : list LogEntry) :
  mpd_type (mpd_options_ b) = kDynamic ->
  AddDynamicMpdInfo mpd (mkEnv b l) = dynamic_run b l mpd.
Proof.
  intros Hd. unfold dynamic_run.
  destruct (Now (clock_ b)) as [now1 c1] eqn:Hn.
  destruct (string_empty (availability_start_time_ b)) eqn:Hc.
  - destruct (periods_ b) as [|front rest] eqn:Hp.
    + now apply AddDynamicMpdInfo_no_period.
    + destruct (Period_GetEarliestTimestamp front) as [t|] eqn:Ht.
      * destruct (neg_ceil_to_int32 t) as [off|] eqn:Ho.
        -- destruct (Now c1) as [now2 c2] eqn:Hn2.
           eapply AddDynamicMpdInfo_computes; eauto.
        -- eapply AddDynamicMpdInfo_offset_undefined; eauto.
      * eapply AddDynamicMpdInfo_no_timestamp; eauto.
  - now apply AddDynamicMpdInfo_cached.
Qed.

Definition static_log (b : MpdBuilder C) (m : xmlNode) (l : list LogEntry)
  : list LogEntry :=
  match FindPeriodNode m with
  | None => l ++ [kNoPeriodFound]
  | Some _ => l
  end.

(** The type switch and the wrapping of the root, after the common
    attributes. *)
Definition typed_run (b : MpdBuilder C) (l : list LogEntry) (m : xmlNode)
  : outcome (xmlNode * Env) :=
  match mpd_type (mpd_options_ b) with
  | kStatic =>
      Returns (static_root b m, mkEnv b (static_log b m (common_log b l)))
  | kDynamic => dynamic_run b (common_log b l) (common_root b m)
  | MpdTypeOther v =>
      if dcheck_is_on then Fatal ("Unknown MPD type: " ++ decimal v)
      else Returns (common_root b m, mkEnv b (common_log b l))
  end.

Lemma common_root_FindPeriodNode (b : MpdBuilder C) (m : xmlNode) :
  FindPeriodNode (common_root b m) = FindPeriodNode m.
Proof.
  unfold FindPeriodNode.
  rewrite <- (attribute_writes_keep_children b m).
  now rewrite xmlChildrenNode_SetStringAttribute.
Qed.

Lemma after_profile_run (b : MpdBuilder C) (l : list LogEntry) (m : xmlNode) :
  after_profile b l m =
  match typed_run b l m with
  | Returns (mpd, e') => Returns (Some (wrap_doc mpd), e')
  | Fatal msg => Fatal msg
  | Undefined => Undefined
  end.
Proof.
  unfold after_profile, typed_run, bind. rewrite type_switch_run.
  destruct (mpd_type (mpd_options_ b)) as [| |v] eqn:Ht.
  - rewrite AddStaticMpdInfo_run by exact Ht. cbv zeta.
    unfold static_root, static_log. now rewrite common_root_FindPeriodNode.
  - rewrite AddDynamicMpdInfo_run by exact Ht.
    destruct (dynamic_run _ _ _) as [[mpd e']| |]; reflexivity.
  - destruct dcheck_is_on; reflexivity.
Qed.

(** The outcome of ToString for a builder whose children were attached. *)
Lemma ToString_attached (b : MpdBuilder C) (l : list LogEntry) (output : string)
      (m1 m2 : xmlNode) :
  add_base_urls (XmlNode "MPD") (base_urls_ b) = Some m1 ->
  add_periods m1 (periods_ b) = Some m2 ->
  ToString output (mkEnv b l) =
  match dash_profile (mpd_options_ b), dcheck_is_on with
  | DashProfileOther v, true => Fatal ("Unknown DASH profile: " ++ decimal v)
  | _, _ =>
      match typed_run b l m2 with
      | Returns (mpd, e') =>
          Returns ((true, xmlDocDumpFormatMemoryEnc (wrap_doc mpd)), e')
      | Fatal msg => Fatal msg
      | Undefined => Undefined
      end
  end.
Proof.
  intros H1 H2. rewrite ToString_run, GenerateMpd_steps. cbn [this].
  rewrite H1, H2, finish_root_run.
  destruct (dash_profile _); try destruct dcheck_is_on; try reflexivity;
    rewrite after_profile_run;
    destruct (typed_run b l m2) as [[mpd e']| |]; reflexivity.
Qed.

(** ** Failure, exactly *)

Lemma add_base_urls_None (urls : list string) (mpd : xmlNode) :
  add_base_urls mpd urls = None ->
  exists before after base_url m,
    urls = (before ++ base_url :: after)%list /\
    add_base_urls mpd before = Some m /\
    xmlAddChild_ok m (SetContent (XmlNode "BaseURL") base_url) = false.
Proof.
  revert mpd. induction urls as [|u urls IH]; intros mpd; cbn [add_base_urls].
  - discriminate.
  - unfold AddChild at 1.
    destruct (xmlAddChild_ok mpd (SetContent (XmlNode "BaseURL") u)) eqn:Eok.
    + intros Hn. destruct (IH _ Hn) as (before & after & v & m & -> & Hm & Hr).
      exists (u :: before), after, v, m. cbn [app add_base_urls].
      unfold AddChild. rewrite Eok. auto.
    + intros _. exists [], urls, u, mpd. auto.
Qed.

Lemma add_periods_None (periods : list Period) (mpd : xmlNode) :
  add_periods mpd periods = None ->
  (exists period, In period periods /\ Period_GetXml period = None) \/
  (exists before after period m period_node,
     periods = (before ++ period :: after)%list /\
     add_periods mpd before = Some m /\
     Period_GetXml period = Some period_node /\
     xmlAddChild_ok m period_node = false).
Proof.
  revert mpd. induction periods as [|p periods IH]; intros mpd;
    cbn [add_periods].
  - discriminate.
  - destruct (Period_GetXml p) as [node|] eqn:Ex.
    + unfold AddChild at 1. destruct (xmlAddChild_ok mpd node) eqn:Eok.
      * intros Hn. destruct (IH _ Hn) as [(q & Hin & Hq)
                                         |(before & after & q & m & n & -> & Hm & Hq & Hr)].
        -- left. exists q. split; [now right | exact Hq].
        -- right. exists (p :: before), after, q, m, n.
           cbn [app add_periods]. rewrite Ex. unfold AddChild. rewrite Eok. auto.
      * intros _. right. exists [], periods, p, mpd, node. auto.
    + intros _. left. exists p. split; [now left | exact Ex].
Qed.

(** ToString returns false in exactly one situation: a base URL or a
    period could not be attached.  Then the caller's string, the builder
    and the log are as before the call. *)
Theorem ToString_false_iff_structural_failure
        (e e' : Env) (output out : string) :
  ToString output e = Returns ((false, out), e') <->
  structural_failure (this e) /\ out = output /\ e' = e.
Proof.
  split.
  - rewrite ToString_run, GenerateMpd_steps.
    destruct (add_base_urls _ _) as [m1|] eqn:H1.
    + destruct (add_periods _ _) as [m2|] eqn:H2.
      * destruct e as [b l]. cbn [this] in *. rewrite finish_root_run.
        destruct (dash_profile _); try destruct dcheck_is_on;
          try discriminate; rewrite after_profile_run;
          destruct (typed_run b l m2) as [[mpd e1]| |]; discriminate.
      * intros Hr. inversion Hr; subst. split; [|auto].
        destruct (add_periods_None _ _ H2)
          as [(q & Hin & Hq)|(before & after & q & m & n & Hp & Hm & Hq & Hok)].
        -- eapply period_not_rendered; eauto.
        -- eapply period_rejected; eauto.
    + intros Hr. inversion Hr; subst. split; [|auto].
      destruct (add_base_urls_None _ _ H1) as (before & after & u & m & Hu & Hm & Hok).
      eapply base_url_rejected; eauto.
  - intros (Hf & -> & ->). apply structural_failure_loops in Hf.
    rewrite ToString_run, GenerateMpd_steps.
    destruct (add_base_urls _ _) as [m1|]; [now rewrite Hf | reflexivity].
Qed.

(** ** The children of the root *)

(** The element GenerateMpd makes for one base URL. *)
Definition base_url_node (base_url : string) : xmlNode :=
  SetContent (XmlNode "BaseURL") base_url.

(** The subtrees the periods render, in the order of the periods. *)
Definition rendered (periods : list Period) : list xmlNode :=
  flat_map (fun p => match Period_GetXml p with
                     | Some node => [node]
                     | None => []
                     end) periods.

Lemma AddChild_children (parent child parent' : xmlNode) :
  is_element parent = true ->
  AddChild parent child = Some parent' ->
  is_element parent' = true /\
  xmlChildrenNode parent' = (xmlChildrenNode parent ++ [child])%list.
Proof.
  intros He Ha. apply AddChild_Some in Ha as [_ ->].
  rewrite is_element_set_children, xmlChildrenNode_set_children by exact He. auto.
Qed.

Lemma add_base_urls_children (urls : list string) (mpd mpd' : xmlNode) :
  is_element mpd = true ->
  add_base_urls mpd urls = Some mpd' ->
  is_element mpd' = true /\
  xmlChildrenNode mpd' = (xmlChildrenNode mpd ++ map base_url_node urls)%list.
Proof.
  revert mpd. induction urls as [|u urls IH]; intros mpd He; cbn [add_base_urls map].
  - intros Hr; inversion Hr; subst. now rewrite app_nil_r.
  - destruct (AddChild mpd _) as [m|] eqn:Ea; [|discriminate].
    destruct (AddChild_children _ _ _ He Ea) as [Hem Hcm]. intros Hr.
    destruct (IH _ Hem Hr) as [He' Hc']. split; [exact He'|].
    rewrite Hc', Hcm, <- app_assoc. reflexivity.
Qed.

Lemma add_periods_children (periods : list Period) (mpd mpd' : xmlNode) :
  is_element mpd = true ->
  add_periods mpd periods = Some mpd' ->
  map Period_GetXml periods = map Some (rendered periods) /\
  xmlChildrenNode mpd' = (xmlChildrenNode mpd ++ rendered periods)%list.
Proof.
  revert mpd. induction periods as [|p periods IH]; intros mpd He;
    cbn [add_periods map rendered flat_map].
  - intros Hr; inversion Hr; subst. now rewrite app_nil_r.
  - destruct (Period_GetXml p) as [node|] eqn:Ex; [|discriminate].
    destruct (AddChild mpd node) as [m|] eqn:Ea; [|discriminate].
    destruct (AddChild_children _ _ _ He Ea) as [Hem Hcm]. intros Hr.
    destruct (IH _ Hem Hr) as [Hx Hc']. fold (rendered periods). split.
    + cbn [app map]. now rewrite Hx.
    + rewrite Hc', Hcm, <- app_assoc. reflexivity.
Qed.

Lemma loops_children (b : MpdBuilder C) (m1 m2 : xmlNode) :
  add_base_urls (XmlNode "MPD") (base_urls_ b) = Some m1 ->
  add_periods m1 (periods_ b) = Some m2 ->
  map Period_GetXml (periods_ b) = map Some (rendered (periods_ b)) /\
  xmlChildrenNode m2 =
    (map base_url_node (base_urls_ b) ++ rendered (periods_ b))%list.
Proof.
  intros H1 H2.
  destruct (add_base_urls_children _ (XmlNode "MPD") _ eq_refl H1) as [He1 Hc1].
  destruct (add_periods_children _ _ _ He1 H2) as [Hx Hc2].
  split; [exact Hx|]. rewrite Hc2, Hc1. reflexivity.
Qed.

Lemma xmlChildrenNode_SetIfPositive (k : string) (v : double) (n : xmlNode) :
  xmlChildrenNode (SetIfPositive k v n) = xmlChildrenNode n.
Proof.
  unfold SetIfPositive. destruct (Positive v);
    [apply xmlChildrenNode_SetStringAttribute | reflexivity].
Qed.

Lemma xmlChildrenNode_common_root (b : MpdBuilder C) (m : xmlNode) :
  xmlChildrenNode (common_root b m) = xmlChildrenNode m.
Proof.
  rewrite <- (attribute_writes_keep_children b m).
  now rewrite xmlChildrenNode_SetStringAttribute.
Qed.

Lemma xmlChildrenNode_dynamic_tail (b : MpdBuilder C) (n : xmlNode) :
  xmlChildrenNode (dynamic_tail b n) = xmlChildrenNode n.
Proof. unfold dynamic_tail. now rewrite !xmlChildrenNode_SetIfPositive. Qed.

Lemma xmlChildrenNode_dynamic_head (n : xmlNode) (now : Time) :
  xmlChildrenNode (dynamic_head n now) = xmlChildrenNode n.
Proof. unfold dynamic_head. now rewrite !xmlChildrenNode_SetStringAttribute. Qed.

Lemma dynamic_run_children (b : MpdBuilder C) (l : list LogEntry)
      (n mpd : xmlNode) (e' : Env) :
  dynamic_run b l n = Returns (mpd, e') ->
  xmlChildrenNode mpd = xmlChildrenNode n.
Proof.
  unfold dynamic_run. destruct (Now (clock_ b)) as [now1 c1].
  destruct (string_empty _).
  - destruct (periods_ b) as [|front rest]; [destruct dcheck_is_on; discriminate|].
    destruct (Period_GetEarliestTimestamp front) as [t|].
    + destruct (neg_ceil_to_int32 t) as [off|]; [|discriminate].
      destruct (Now c1) as [now2 c2]. intros Hr; inversion Hr; subst.
      now rewrite xmlChildrenNode_dynamic_tail, xmlChildrenNode_SetStringAttribute,
        xmlChildrenNode_dynamic_head.
    + intros Hr; inversion Hr; subst.
      now rewrite xmlChildrenNode_dynamic_tail, xmlChildrenNode_dynamic_head.
  - intros Hr; inversion Hr; subst.
    now rewrite xmlChildrenNode_dynamic_tail, xmlChildrenNode_SetStringAttribute,
      xmlChildrenNode_dynamic_head.
Qed.

Lemma node_name_clean_period (period : xmlNode) :
  node_name (clean_period period) = node_name period.
Proof. unfold clean_period. apply node_name_set_children. Qed.

Lemma static_walk_child_names (n : xmlNode) :
  is_element n = true ->
  map node_name (xmlChildrenNode (fst (static_walk n)))
  = map node_name (xmlChildrenNode n).
Proof.
  intros He. pose proof (static_walk_spec n He) as Hw.
  destruct (first_period n) as [period|].
  - destruct Hw as (before & after & -> & _ & _ & -> & _).
    rewrite !map_app. cbn [map]. now rewrite node_name_clean_period.
  - now rewrite Hw.
Qed.

(** In every document ToString prints, the children of the root are the
    BaseURL elements in the order the base URLs were added, followed by the
    period subtrees in the order the periods were added.  Outside static
    mode the subtrees are exactly what the periods rendered (duration hints
    included); in static mode the names and positions are the same. *)
Theorem root_children_in_insertion_order (e e' : Env) (output out : string) :
  ToString output e = Returns ((true, out), e') ->
  exists doc mpd,
    GenerateMpd e = Returns (Some doc, e') /\
    out = xmlDocDumpFormatMemoryEnc doc /\
    mpd_root doc = Some mpd /\
    let attached :=
      (map base_url_node (base_urls_ (this e)) ++ rendered (periods_ (this e)))%list in
    map Period_GetXml (periods_ (this e)) = map Some (rendered (periods_ (this e))) /\
    map node_name (xmlChildrenNode mpd) = map node_name attached /\
    (mpd_type (mpd_options_ (this e)) <> kStatic ->
     xmlChildrenNode mpd = attached).
Proof.
  intros Hts. destruct (ToString_success _ _ _ _ Hts) as (doc & Hg & ->).
  destruct e as [b l]. cbn [this].
  destruct (GenerateMpd_success _ _ _ _ Hg) as (m1 & m2 & mpd & H1 & H2 & Hpass & -> & _).
  pose proof (loops_give_bare_root _ _ _ H1 H2) as (He & _ & _).
  destruct (loops_children _ _ _ H1 H2) as [Hx Hc].
  pose proof Hg as Hgen.
  rewrite (GenerateMpd_passes _ _ _ _ H1 H2 Hpass), after_profile_run in Hg.
  destruct (typed_run b l m2) as [[mpd' e1]| |] eqn:Hrun; try discriminate.
  inversion Hg as [[Hdoc He1]]. clear Hg.
  assert (Hm : mpd' = mpd).
  { pose proof (f_equal mpd_root Hdoc) as Hroot.
    rewrite !mpd_root_wrap_doc in Hroot. now inversion Hroot. }
  subst mpd'. exists (wrap_doc mpd), mpd. split; [exact Hgen|].
  split; [reflexivity|]. split; [apply mpd_root_wrap_doc|].
  cbv zeta. split; [exact Hx|]. rewrite <- Hc.
  unfold typed_run in Hrun.
  destruct (mpd_type (mpd_options_ b)) as [| |v] eqn:Ht.
  - inversion Hrun; subst. split; [|congruence].
    unfold static_root. cbv zeta. rewrite xmlChildrenNode_SetStringAttribute.
    rewrite static_walk_child_names by now autorewrite with xml.
    now rewrite attribute_writes_keep_children.
  - apply dynamic_run_children in Hrun.
    rewrite xmlChildrenNode_common_root in Hrun. rewrite Hrun. auto.
  - destruct dcheck_is_on; [discriminate|]. inversion Hrun; subst.
    rewrite xmlChildrenNode_common_root. auto.
Qed.

(** ** What a serialization does to the builder *)

Lemma dynamic_run_state (b : MpdBuilder C) (l : list LogEntry)
      (n mpd : xmlNode) (e' : Env) :
  dynamic_run b l n = Returns (mpd, e') ->
  mpd_options_ (this e') = mpd_options_ b /\
  periods_ (this e') = periods_ b /\
  base_urls_ (this e') = base_urls_ b /\
  (availability_start_time_ (this e') = availability_start_time_ b \/
   (string_empty (availability_start_time_ b) = true /\
    string_empty (availability_start_time_ (this e')) = false)) /\
  exists added, log e' = (l ++ added)%list.
Proof.
  unfold dynamic_run, update_period_log.
  destruct (Now (clock_ b)) as [now1 c1].
  destruct (string_empty (availability_start_time_ b)) eqn:Hc.
  - destruct (periods_ b) as [|front rest] eqn:Hp;
      [destruct dcheck_is_on; discriminate|].
    destruct (Period_GetEarliestTimestamp front) as [t|].
    + destruct (neg_ceil_to_int32 t) as [off|]; [|discriminate].
      destruct (Now c1) as [now2 c2]. intros Hr; inversion Hr; subst. cbn.
      repeat split; auto.
      * right. split; [reflexivity | apply XmlDateTime_not_empty].
      * destruct (Positive _); eexists; [symmetry; apply app_nil_r | reflexivity].
    + intros Hr; inversion Hr; subst. cbn. repeat split; auto.
      destruct (Positive _); eexists; [reflexivity|].
      rewrite <- app_assoc. reflexivity.
  - intros Hr; inversion Hr; subst. cbn. repeat split; auto.
    destruct (Positive _); eexists; [symmetry; apply app_nil_r | reflexivity].
Qed.

Lemma typed_run_state (b : MpdBuilder C) (l : list LogEntry)
      (m mpd : xmlNode) (e' : Env) :
  typed_run b l m = Returns (mpd, e') ->
  mpd_options_ (this e') = mpd_options_ b /\
  periods_ (this e') = periods_ b /\
  base_urls_ (this e') = base_urls_ b /\
  (availability_start_time_ (this e') = availability_start_time_ b \/
   (string_empty (availability_start_time_ b) = true /\
    string_empty (availability_start_time_ (this e')) = false)) /\
  (exists added, log e' = (l ++ added)%list) /\
  (mpd_type (mpd_options_ b) <> kDynamic -> this e' = b).
Proof.
  unfold typed_run, static_log, common_log.
  destruct (mpd_type (mpd_options_ b)) as [| |v] eqn:Ht.
  - intros Hr; inversion Hr; subst. cbn [this log]. repeat split; auto.
    destruct (FindPeriodNode m), (Positive _); eexists;
      rewrite <- ?app_assoc; try reflexivity; symmetry; apply app_nil_r.
  - intros Hr.
    destruct (dynamic_run_state _ _ _ _ _ Hr) as (Ho & Hp & Hu & Hc & added & Hl).
    repeat split; auto; [|congruence].
    destruct (Positive _); eexists; [exact Hl|].
    rewrite Hl, <- app_assoc. reflexivity.
  - destruct dcheck_is_on; [discriminate|].
    intros Hr; inversion Hr; subst. cbn [this log]. repeat split; auto.
    destruct (Positive _); eexists; [symmetry; apply app_nil_r | reflexivity].
Qed.

Lemma finish_root_Returns (b : MpdBuilder C) (l : list LogEntry) (m : xmlNode)
      (r : option xmlDoc) (e' : Env) :
  finish_root m (mkEnv b l) = Returns (r, e') ->
  exists mpd, typed_run b l m = Returns (mpd, e') /\ r = Some (wrap_doc mpd).
Proof.
  rewrite finish_root_run.
  assert (Ha : after_profile b l m = Returns (r, e') ->
               exists mpd, typed_run b l m = Returns (mpd, e') /\
                           r = Some (wrap_doc mpd)).
  { rewrite after_profile_run.
    destruct (typed_run b l m) as [[mpd e1]| |]; try discriminate.
    intros Hr; inversion Hr; subst. eauto. }
  destruct (dash_profile _); try destruct dcheck_is_on; try discriminate;
    exact Ha.
Qed.

(** Whatever ToString returns, it has not touched the options, the periods
    or the base URLs; it has not dropped a log entry; the cached
    availability start time is as before or has gone from empty to set;
    and outside dynamic mode the whole builder, clock included, is as
    before. *)
Theorem ToString_keeps_the_builder (e e' : Env) (output : string)
        (r : bool * string) :
  ToString output e = Returns (r, e') ->
  mpd_options_ (this e') = mpd_options_ (this e) /\
  periods_ (this e') = periods_ (this e) /\
  base_urls_ (this e') = base_urls_ (this e) /\
  (availability_start_time_ (this e') = availability_start_time_ (this e) \/
   (string_empty (availability_start_time_ (this e)) = true /\
    string_empty (availability_start_time_ (this e')) = false)) /\
  (exists added, log e' = (log e ++ added)%list) /\
  (mpd_type (mpd_options_ (this e)) <> kDynamic -> this e' = this e).
Proof.
  destruct e as [b l]. cbn [this log]. rewrite ToString_run, GenerateMpd_steps.
  cbn [this].
  assert (Hsame : forall x, Returns (x, mkEnv b l) = Returns (r, e') ->
            mpd_options_ (this e') = mpd_options_ b /\
            periods_ (this e') = periods_ b /\
            base_urls_ (this e') = base_urls_ b /\
            (availability_start_time_ (this e') = availability_start_time_ b \/
             (string_empty (availability_start_time_ b) = true /\
              string_empty (availability_start_time_ (this e')) = false)) /\
            (exists added, log e' = (l ++ added)%list) /\
            (mpd_type (mpd_options_ b) <> kDynamic -> this e' = b)).
  { intros x Hr; inversion Hr; subst. cbn [this log]. repeat split; auto.
    exists []. symmetry. apply app_nil_r. }
  destruct (add_base_urls _ _) as [m1|]; [|apply Hsame].
  destruct (add_periods _ _) as [m2|]; [|apply Hsame].
  destruct (finish_root m2 (mkEnv b l)) as [[doc e1]| |] eqn:Hf; try discriminate.
  destruct (finish_root_Returns _ _ _ _ _ Hf) as (mpd & Ht & ->).
  intros Hr; inversion Hr; subst. eapply typed_run_state; eauto.
Qed.

(** ** When a serialization does not return *)

(** A static serialization with a recognized profile always returns, in
    either kind of build. *)
Theorem static_serialization_always_returns (e : Env) (output : string) :
  mpd_type (mpd_options_ (this e)) = kStatic ->
  dash_profile (mpd_options_ (this e)) = kOnDemand \/
  dash_profile (mpd_options_ (this e)) = kLive ->
  exists ok out e',
    ToString output e = Returns ((ok, out), e') /\ this e' = this e.
Proof.
  intros Hs Hp. destruct e as [b l]. cbn [this] in *.
  rewrite ToString_run, GenerateMpd_steps. cbn [this].
  destruct (add_base_urls _ _) as [m1|]; [|eauto].
  destruct (add_periods _ _) as [m2|]; [|eauto].
  rewrite finish_root_run, after_profile_run. unfold typed_run. rewrite Hs.
  destruct Hp as [-> | ->]; eauto.
Qed.

(** A dynamic serialization with a recognized profile fails to return in
    exactly one situation: the children were attached, no availability
    start time is cached, and either there is no period or the first
    period's timestamp has no int32_t offset. *)
Theorem dynamic_serialization_returns_unless
        (e : Env) (output : string) :
  mpd_type (mpd_options_ (this e)) = kDynamic ->
  dash_profile (mpd_options_ (this e)) = kOnDemand \/
  dash_profile (mpd_options_ (this e)) = kLive ->
  (returned (ToString output e) = false <->
   (exists m1 m2,
      add_base_urls (XmlNode "MPD") (base_urls_ (this e)) = Some m1 /\
      add_periods m1 (periods_ (this e)) = Some m2) /\
   string_empty (availability_start_time_ (this e)) = true /\
   (periods_ (this e) = [] \/
    exists front rest t,
      periods_ (this e) = front :: rest /\
      Period_GetEarliestTimestamp front = Some t /\
      neg_ceil_to_int32 t = None)).
Proof.
  intros Hd Hp. destruct e as [b l]. cbn [this] in *.
  rewrite ToString_run, GenerateMpd_steps. cbn [this].
  destruct (add_base_urls _ _) as [m1|] eqn:H1.
  2:{ split; [discriminate | intros ((? & ? & Hx & _) & _); discriminate]. }
  destruct (add_periods _ _) as [m2|] eqn:H2.
  2:{ split; [discriminate|]. intros ((? & ? & Hx & Hy) & _).
      inversion Hx; subst. congruence. }
  assert (Hfin : finish_root m2 (mkEnv b l) = after_profile b l m2).
  { rewrite finish_root_run. destruct Hp as [-> | ->]; reflexivity. }
  rewrite Hfin, after_profile_run. unfold typed_run. rewrite Hd.
  unfold dynamic_run. destruct (Now (clock_ b)) as [now1 c1].
  destruct (string_empty (availability_start_time_ b)) eqn:Hc.
  - destruct (periods_ b) as [|front rest] eqn:Hper.
    + split; [intros _; eauto 10 | intros _; destruct dcheck_is_on; reflexivity].
    + destruct (Period_GetEarliestTimestamp front) as [t|] eqn:Ht.
      * destruct (neg_ceil_to_int32 t) as [off|] eqn:Ho.
        -- destruct (Now c1) as [now2 c2]. split; [discriminate|].
           intros (_ & _ & [Hx|(f & r & t' & Hx & Hy & Hz)]); [discriminate|].
           inversion Hx; subst. congruence.
        -- split; [intros _|reflexivity].
           split; [eauto|]. split; [reflexivity|]. right. eauto 10.
      * split; [discriminate|].
        intros (_ & _ & [Hx|(f & r & t' & Hx & Hy & Hz)]); [discriminate|].
        inversion Hx; subst. congruence.
  - split; [discriminate | intros (_ & Hx & _); discriminate].
Qed.

(** ** The diagnostics of a successful serialization *)

Lemma ToString_true_run (b : MpdBuilder C) (l : list LogEntry)
      (output out : string) (e' : Env) :
  ToString output (mkEnv b l) = Returns ((true, out), e') ->
  exists m1 m2 mpd,
    add_base_urls (XmlNode "MPD") (base_urls_ b) = Some m1 /\
    add_periods m1 (periods_ b) = Some m2 /\
    typed_run b l m2 = Returns (mpd, e') /\
    out = xmlDocDumpFormatMemoryEnc (wrap_doc mpd).
Proof.
  rewrite ToString_run, GenerateMpd_steps. cbn [this].
  destruct (add_base_urls _ _) as [m1|] eqn:H1; [|discriminate].
  destruct (add_periods _ _) as [m2|] eqn:H2; [|discriminate].
  destruct (finish_root m2 (mkEnv b l)) as [[doc e1]| |] eqn:Hf; try discriminate.
  destruct (finish_root_Returns _ _ _ _ _ Hf) as (mpd & Ht & ->).
  intros Hr; inversion Hr; subst. exists m1, m2, mpd. repeat split; auto.
Qed.

(** The document behind a successful run. *)
Lemma GenerateMpd_true_run (b : MpdBuilder C) (l : list LogEntry)
      (output out : string) (e' : Env) (m1 m2 mpd : xmlNode) :
  ToString output (mkEnv b l) = Returns ((true, out), e') ->
  add_base_urls (XmlNode "MPD") (base_urls_ b) = Some m1 ->
  add_periods m1 (periods_ b) = Some m2 ->
  typed_run b l m2 = Returns (mpd, e') ->
  GenerateMpd (mkEnv b l) = Returns (Some (wrap_doc mpd), e').
Proof.
  intros Hts H1 H2 Ht.
  destruct (ToString_success _ _ _ _ Hts) as (doc & Hg & _).
  destruct (GenerateMpd_success _ _ _ _ Hg) as (_ & _ & _ & _ & _ & Hpass & _ & _).
  rewrite (GenerateMpd_passes _ _ _ _ H1 H2 Hpass), after_profile_run, Ht.
  reflexivity.
Qed.

Lemma no_period_among_base_urls (urls : list string) :
  existsb IsPeriodNode (map base_url_node urls) = false.
Proof. induction urls as [|u us IH]; [reflexivity | exact IH]. Qed.

Lemma find_period_existsb (nodes : list xmlNode) (start : nat) :
  match find_period nodes start with
  | Some _ => existsb IsPeriodNode nodes = true
  | None => existsb IsPeriodNode nodes = false
  end.
Proof.
  revert start. induction nodes as [|n nodes IH]; intros start;
    cbn [find_period existsb]; [reflexivity|].
  destruct (IsPeriodNode n); [reflexivity | apply IH].
Qed.

Lemma FindPeriodNode_rendered (b : MpdBuilder C) (m1 m2 : xmlNode) :
  add_base_urls (XmlNode "MPD") (base_urls_ b) = Some m1 ->
  add_periods m1 (periods_ b) = Some m2 ->
  match FindPeriodNode m2 with
  | Some _ => existsb IsPeriodNode (rendered (periods_ b)) = true
  | None => existsb IsPeriodNode (rendered (periods_ b)) = false
  end.
Proof.
  intros H1 H2. destruct (loops_children _ _ _ H1 H2) as [_ Hc].
  unfold FindPeriodNode. pose proof (find_period_existsb (xmlChildrenNode m2) 0) as Hf.
  rewrite Hc, existsb_app in Hf.
  rewrite no_period_among_base_urls in Hf. cbn [orb] in Hf. rewrite <- Hc in Hf. exact Hf.
Qed.

(** The entries a successful serialization adds to the log. *)
Definition expected_diagnostics (b : MpdBuilder C) : list LogEntry :=
  ((if Positive (min_buffer_time (mpd_params (mpd_options_ b)))
    then [] else [kMinBufferTimeMissing]) ++
   match mpd_type (mpd_options_ b) with
   | kStatic =>
       if existsb IsPeriodNode (rendered (periods_ b)) then []
       else [kNoPeriodFound]
   | kDynamic =>
       (if string_empty (availability_start_time_ b) then
          match periods_ b with
          | front :: _ =>
              match Period_GetEarliestTimestamp front with
              | None => [kNoEarliestTimestamp]
              | Some _ => []
              end
          | [] => []
          end
        else []) ++
       (if Positive (minimum_update_period (mpd_params (mpd_options_ b)))
        then [] else [kNoMinimumUpdatePeriod])
   | MpdTypeOther _ => []
   end)%list.

(** A serialization that returns true has appended to the log exactly:
    the minBufferTime error when the minimum buffer time is not positive;
    in static mode the warning that no period was found when no period
    rendered a <Period>; in dynamic mode the error that no earliest
    timestamp was found when nothing is cached and the first period
    reports none, then the warning on minimumUpdatePeriod when that is not
    positive.  Nothing else is logged and nothing is logged twice. *)
Theorem successful_serialization_logs_exactly
        (b : MpdBuilder C) (l : list LogEntry) (output out : string) (e' : Env) :
  ToString output (mkEnv b l) = Returns ((true, out), e') ->
  log e' = (l ++ expected_diagnostics b)%list.
Proof.
  intros Hts.
  destruct (ToString_true_run _ _ _ _ _ Hts) as (m1 & m2 & mpd & H1 & H2 & Ht & _).
  pose proof (FindPeriodNode_rendered _ _ _ H1 H2) as Hfp.
  unfold typed_run, static_log, common_log, dynamic_run, update_period_log in Ht.
  unfold expected_diagnostics.
  destruct (mpd_type (mpd_options_ b)) as [| |v].
  - inversion Ht; subst. cbn [log].
    destruct (FindPeriodNode m2); rewrite Hfp;
      destruct (Positive _); cbn [app]; rewrite <- ?app_assoc, ?app_nil_r;
      reflexivity.
  - destruct (Now (clock_ b)) as [now1 c1].
    destruct (string_empty (availability_start_time_ b)).
    + destruct (periods_ b) as [|front rest];
        [destruct dcheck_is_on; discriminate|].
      destruct (Period_GetEarliestTimestamp front) as [t|].
      * destruct (neg_ceil_to_int32 t) as [off|]; [|discriminate].
        destruct (Now c1) as [now2 c2]. inversion Ht; subst. cbn [log].
        destruct (Positive (min_buffer_time _)),
          (Positive (minimum_update_period _)); cbn [app];
          rewrite <- ?app_assoc, ?app_nil_r; reflexivity.
      * inversion Ht; subst. cbn [log].
        destruct (Positive (min_buffer_time _)),
          (Positive (minimum_update_period _)); cbn [app];
          rewrite <- ?app_assoc, ?app_nil_r; reflexivity.
    + inversion Ht; subst. cbn [log].
      destruct (Positive (min_buffer_time _)),
        (Positive (minimum_update_period _)); cbn [app];
        rewrite <- ?app_assoc, ?app_nil_r; reflexivity.
  - destruct dcheck_is_on; [discriminate|]. inversion Ht; subst. cbn [log].
    destruct (Positive _); cbn [app]; rewrite ?app_nil_r; reflexivity.
Qed.

(** ** The attributes that tell the two manifest types apart *)

(** A static document says type="static" and carries none of the dynamic
    attributes; a dynamic document says type="dynamic", carries the
    publishTime of the first clock reading of the call, without offset, and
    no mediaPresentationDuration. *)
Theorem type_specific_attributes
        (b : MpdBuilder C) (l : list LogEntry) (output out : string) (e' : Env) :
  ToString output (mkEnv b l) = Returns ((true, out), e') ->
  exists doc mpd,
    GenerateMpd (mkEnv b l) = Returns (Some doc, e') /\
    out = xmlDocDumpFormatMemoryEnc doc /\
    mpd_root doc = Some mpd /\
    match mpd_type (mpd_options_ b) with
    | kStatic =>
        xmlGetProp mpd "type" = Some "static" /\
        xmlGetProp mpd "publishTime" = None /\
        xmlGetProp mpd "availabilityStartTime" = None /\
        xmlGetProp mpd "minimumUpdatePeriod" = None /\
        xmlGetProp mpd "timeShiftBufferDepth" = None /\
        xmlGetProp mpd "suggestedPresentationDelay" = None
    | kDynamic =>
        xmlGetProp mpd "type" = Some "dynamic" /\
        xmlGetProp mpd "publishTime" =
          Some (XmlDateTime (fst (Now (clock_ b))) 0) /\
        xmlGetProp mpd "mediaPresentationDuration" = None
    | MpdTypeOther _ =>
        xmlGetProp mpd "type" = None
    end.
Proof.
  intros Hts.
  destruct (ToString_true_run _ _ _ _ _ Hts) as (m1 & m2 & mpd & H1 & H2 & Ht & ->).
  pose proof (loops_give_bare_root _ _ _ H1 H2) as Hb.
  pose proof Hb as (He & _ & _).
  assert (Hnone : forall k,
            In k ["type"; "mediaPresentationDuration"; "publishTime";
                  "availabilityStartTime"; "minimumUpdatePeriod";
                  "timeShiftBufferDepth"; "suggestedPresentationDelay"] ->
            xmlGetProp (common_root b m2) k = None)
    by (intros k; now apply xmlGetProp_common_root_other).
  exists (wrap_doc mpd), mpd.
  split; [exact (GenerateMpd_true_run _ _ _ _ _ _ _ _ Hts H1 H2 Ht)|].
  split; [reflexivity|].
  split; [apply mpd_root_wrap_doc|].
  unfold typed_run in Ht.
  destruct (mpd_type (mpd_options_ b)) as [| |v].
  - inversion Ht; subst. unfold static_root. cbv zeta.
    repeat split; read_attr; try reflexivity; apply Hnone; cbn [In]; tauto.
  - unfold dynamic_run in Ht. destruct (Now (clock_ b)) as [now1 c1]. cbn [fst].
    assert (Hhead : forall n,
              (n = dynamic_head (common_root b m2) now1 \/
               exists v, n = SetStringAttribute
                               (dynamic_head (common_root b m2) now1)
                               "availabilityStartTime" v) ->
              xmlGetProp (dynamic_tail b n) "type" = Some "dynamic" /\
              xmlGetProp (dynamic_tail b n) "publishTime" =
                Some (XmlDateTime now1 0) /\
              xmlGetProp (dynamic_tail b n) "mediaPresentationDuration" = None).
    { intros n [-> | [v ->]]; unfold dynamic_tail, dynamic_head;
        repeat split; read_attr; rewrite ?andb_false_r; try reflexivity;
        apply Hnone; cbn [In]; tauto. }
    destruct (string_empty (availability_start_time_ b)).
    + destruct (periods_ b) as [|front rest];
        [destruct dcheck_is_on; discriminate|].
      destruct (Period_GetEarliestTimestamp front) as [t|].
      * destruct (neg_ceil_to_int32 t) as [off|]; [|discriminate].
        destruct (Now c1) as [now2 c2]. inversion Ht; subst.
        apply Hhead. right. eauto.
      * inversion Ht; subst. apply Hhead. now left.
    + inversion Ht; subst. apply Hhead. right. eauto.
  - destruct dcheck_is_on; [discriminate|]. inversion Ht; subst.
    apply Hnone. cbn [In]. tauto.
Qed.

(** ** Serializing again *)

Lemma dynamic_run_log_independent (b : MpdBuilder C) (l l' : list LogEntry)
      (n : xmlNode) :
  match dynamic_run b l n, dynamic_run b l' n with
  | Returns (mpd, e), Returns (mpd', e') => mpd = mpd' /\ this e = this e'
  | Fatal msg, Fatal msg' => msg = msg'
  | Undefined, Undefined => True
  | _, _ => False
  end.
Proof.
  unfold dynamic_run. destruct (Now (clock_ b)) as [now1 c1].
  destruct (string_empty _); [|now split].
  destruct (periods_ b) as [|front rest]; [destruct dcheck_is_on; auto|].
  destruct (Period_GetEarliestTimestamp front) as [t|]; [|now split].
  destruct (neg_ceil_to_int32 t) as [off|]; [|exact I].
  destruct (Now c1) as [now2 c2]. now split.
Qed.

Lemma typed_run_log_independent (b : MpdBuilder C) (l l' : list LogEntry)
      (m : xmlNode) :
  match typed_run b l m, typed_run b l' m with
  | Returns (mpd, e), Returns (mpd', e') => mpd = mpd' /\ this e = this e'
  | Fatal msg, Fatal msg' => msg = msg'
  | Undefined, Undefined => True
  | _, _ => False
  end.
Proof.
  unfold typed_run. destruct (mpd_type _); [now split | | destruct dcheck_is_on; auto].
  apply dynamic_run_log_independent.
Qed.

(** Serializing a static builder again, with nothing added in between,
    prints the same text. *)
Theorem static_serialization_repeats
        (e e1 : Env) (output1 output2 text : string) :
  mpd_type (mpd_options_ (this e)) = kStatic ->
  ToString output1 e = Returns ((true, text), e1) ->
  exists e2,
    ToString output2 e1 = Returns ((true, text), e2) /\ this e2 = this e.
Proof.
  intros Hs Hts. destruct e as [b l]. cbn [this] in *.
  destruct (ToString_true_run _ _ _ _ _ Hts) as (m1 & m2 & mpd & H1 & H2 & Ht & ->).
  assert (Hprof : match dash_profile (mpd_options_ b), dcheck_is_on with
                  | DashProfileOther _, true => False
                  | _, _ => True
                  end).
  { rewrite (ToString_attached _ _ _ _ _ H1 H2) in Hts.
    destruct (dash_profile _); try exact I.
    destruct dcheck_is_on; [discriminate | exact I]. }
  unfold typed_run in Ht. rewrite Hs in Ht. inversion Ht; subst.
  rewrite (ToString_attached b _ output2 _ _ H1 H2).
  unfold typed_run. rewrite Hs.
  destruct (dash_profile _); try destruct dcheck_is_on; try contradiction;
    eexists; split; reflexivity.
Qed.

Lemma set_prop_overwrite (ps : list (string * string)) (k a c : string) :
  set_prop (set_prop ps k a) k c = set_prop ps k c.
Proof.
  induction ps as [|[k0 v0] ps IH]; cbn [set_prop].
  - now rewrite String.eqb_refl.
  - destruct (String.eqb k0 k) eqn:E; cbn [set_prop]; rewrite E;
      [reflexivity | now rewrite IH].
Qed.

Lemma set_prop_swap (ps : list (string * string)) (k c k' v' : string) :
  k <> k' -> In k (map fst ps) ->
  set_prop (set_prop ps k' v') k c = set_prop (set_prop ps k c) k' v'.
Proof.
  intros Hne. induction ps as [|[k0 v0] ps IH]; cbn [map In fst]; [contradiction|].
  intros Hin. cbn [set_prop].
  destruct (String.eqb k0 k') eqn:E'; destruct (String.eqb k0 k) eqn:E;
    cbn [set_prop]; rewrite ?E, ?E'; try reflexivity.
  - apply String.eqb_eq in E, E'. congruence.
  - rewrite IH; [reflexivity|]. destruct Hin as [Hk|Hin]; [|exact Hin].
    apply String.eqb_neq in E. contradiction.
Qed.

Lemma set_prop_keeps_keys (ps : list (string * string)) (k v x : string) :
  In x (map fst ps) -> In x (map fst (set_prop ps k v)).
Proof.
  induction ps as [|[k0 v0] ps IH]; cbn [map In fst set_prop]; [contradiction|].
  destruct (String.eqb k0 k); cbn [map In fst]; tauto.
Qed.

Lemma set_prop_has_key (ps : list (string * string)) (k v : string) :
  In k (map fst (set_prop ps k v)).
Proof.
  induction ps as [|[k0 v0] ps IH]; cbn [map In fst set_prop]; [now left|].
  destruct (String.eqb k0 k) eqn:E; cbn [map In fst]; [|tauto].
  apply String.eqb_eq in E. now left.
Qed.

(** The element has an attribute of that name. *)
Definition has_attr (n : xmlNode) (k : string) : Prop :=
  is_element n = true /\ In k (map fst (node_properties n)).

Lemma has_attr_SetStringAttribute_same (n : xmlNode) (k v : string) :
  is_element n = true -> has_attr (SetStringAttribute n k v) k.
Proof.
  destruct n; try discriminate. intros _. split; [reflexivity|].
  apply set_prop_has_key.
Qed.

Lemma has_attr_SetStringAttribute (n : xmlNode) (k v x : string) :
  has_attr n x -> has_attr (SetStringAttribute n k v) x.
Proof.
  intros [He Hin]. destruct n; try discriminate. split; [reflexivity|].
  now apply set_prop_keeps_keys.
Qed.

Lemma has_attr_SetIfPositive (n : xmlNode) (k : string) (v : double) (x : string) :
  has_attr n x -> has_attr (SetIfPositive k v n) x.
Proof.
  intros Hx. unfold SetIfPositive. destruct (Positive v); [|exact Hx].
  now apply has_attr_SetStringAttribute.
Qed.

Lemma SetStringAttribute_overwrite (n : xmlNode) (k a c : string) :
  SetStringAttribute (SetStringAttribute n k a) k c = SetStringAttribute n k c.
Proof. destruct n; cbn; [now rewrite set_prop_overwrite | reflexivity | reflexivity]. Qed.

Lemma SetStringAttribute_swap (n : xmlNode) (k c k' v' : string) :
  k <> k' -> has_attr n k ->
  SetStringAttribute (SetStringAttribute n k' v') k c
  = SetStringAttribute (SetStringAttribute n k c) k' v'.
Proof.
  intros Hne [He Hin]. destruct n; try discriminate. cbn.
  now rewrite set_prop_swap.
Qed.

Lemma SetIfPositive_swap (n : xmlNode) (k c k' : string) (v' : double) :
  k <> k' -> has_attr n k ->
  SetStringAttribute (SetIfPositive k' v' n) k c
  = SetIfPositive k' v' (SetStringAttribute n k c).
Proof.
  intros Hne Hk. unfold SetIfPositive. destruct (Positive v'); [|reflexivity].
  now apply SetStringAttribute_swap.
Qed.

Lemma publishTime_overwrite_tail (b : MpdBuilder C) (n : xmlNode) (c : string) :
  has_attr n "publishTime" ->
  SetStringAttribute (dynamic_tail b n) "publishTime" c
  = dynamic_tail b (SetStringAttribute n "publishTime" c).
Proof.
  intros Hn. unfold dynamic_tail.
  rewrite !SetIfPositive_swap; try discriminate; auto using has_attr_SetIfPositive.
Qed.

Lemma publishTime_overwrite_head (r : xmlNode) (now now' : Time) :
  SetStringAttribute (dynamic_head r now) "publishTime" (XmlDateTime now' 0)
  = dynamic_head r now'.
Proof. unfold dynamic_head. apply SetStringAttribute_overwrite. Qed.

Lemma has_attr_dynamic_head (r : xmlNode) (now : Time) :
  is_element r = true -> has_attr (dynamic_head r now) "publishTime".
Proof.
  intros He. unfold dynamic_head. apply has_attr_SetStringAttribute_same.
  now autorewrite with xml.
Qed.

Lemma dynamic_roots_differ_in_publishTime (b : MpdBuilder C) (r : xmlNode)
      (now now' : Time) :
  is_element r = true ->
  (SetStringAttribute (dynamic_tail b (dynamic_head r now)) "publishTime"
     (XmlDateTime now' 0)
   = dynamic_tail b (dynamic_head r now')) /\
  (forall ast,
     SetStringAttribute
       (dynamic_tail b
          (SetStringAttribute (dynamic_head r now) "availabilityStartTime" ast))
       "publishTime" (XmlDateTime now' 0)
     = dynamic_tail b
         (SetStringAttribute (dynamic_head r now') "availabilityStartTime" ast)).
Proof.
  intros He. pose proof (has_attr_dynamic_head r now He) as Hh. split.
  - rewrite publishTime_overwrite_tail by exact Hh.
    now rewrite publishTime_overwrite_head.
  - intros ast.
    rewrite publishTime_overwrite_tail
      by now apply has_attr_SetStringAttribute.
    rewrite SetStringAttribute_swap by (try discriminate; exact Hh).
    now rewrite publishTime_overwrite_head.
Qed.

Lemma dynamic_tail_options (b b1 : MpdBuilder C) (n : xmlNode) :
  mpd_options_ b1 = mpd_options_ b -> dynamic_tail b1 n = dynamic_tail b n.
Proof. intros Ho. unfold dynamic_tail. now rewrite Ho. Qed.

Lemma common_root_options (b b1 : MpdBuilder C) (m : xmlNode) :
  mpd_options_ b1 = mpd_options_ b -> common_root b1 m = common_root b m.
Proof. intros Ho. unfold common_root, profile_root. now rewrite Ho. Qed.

(** A second dynamic run, on a builder that differs from the first in the
    clock and the cache only. *)
Lemma dynamic_run_again (b b1 : MpdBuilder C) (l1 : list LogEntry)
      (output : string) (m1 m2 : xmlNode) (now3 : Time) (c3 : C) :
  mpd_options_ b1 = mpd_options_ b ->
  periods_ b1 = periods_ b ->
  base_urls_ b1 = base_urls_ b ->
  mpd_type (mpd_options_ b) = kDynamic ->
  match dash_profile (mpd_options_ b), dcheck_is_on with
  | DashProfileOther _, true => False
  | _, _ => True
  end ->
  add_base_urls (XmlNode "MPD") (base_urls_ b) = Some m1 ->
  add_periods m1 (periods_ b) = Some m2 ->
  Now (clock_ b1) = (now3, c3) ->
  (string_empty (availability_start_time_ b1) = false \/
   exists front rest, periods_ b = front :: rest /\
                      Period_GetEarliestTimestamp front = None) ->
  exists e2,
    ToString output (mkEnv b1 l1) =
      Returns ((true,
                xmlDocDumpFormatMemoryEnc
                  (wrap_doc
                     (dynamic_tail b
                        (if string_empty (availability_start_time_ b1)
                         then dynamic_head (common_root b m2) now3
                         else SetStringAttribute
                                (dynamic_head (common_root b m2) now3)
                                "availabilityStartTime"
                                (availability_start_time_ b1))))),
               e2) /\
    availability_start_time_ (this e2) = availability_start_time_ b1.
Proof.
  intros Ho Hp Hu Hd Hprof H1 H2 Hn Hcase.
  rewrite <- Hu in H1. rewrite <- Hp in H2.
  rewrite (ToString_attached b1 l1 output m1 m2 H1 H2).
  unfold typed_run, dynamic_run. rewrite Ho, Hd, Hn.
  destruct (string_empty (availability_start_time_ b1)) eqn:Hc.
  - destruct Hcase as [Hx | (front & rest & Hper & Hts)]; [discriminate|].
    rewrite Hp, Hper, Hts.
    rewrite !(dynamic_tail_options b b1), !(common_root_options b b1) by exact Ho.
    destruct (dash_profile _); try destruct dcheck_is_on; try contradiction;
      eexists; split; reflexivity.
  - rewrite !(dynamic_tail_options b b1), !(common_root_options b b1) by exact Ho.
    destruct (dash_profile _); try destruct dcheck_is_on; try contradiction;
      eexists; split; reflexivity.
Qed.

(** Serializing a dynamic builder again, with nothing added in between,
    succeeds and prints the same root with one difference: publishTime is
    the clock reading of the second call.  The availability start time
    attached the first time is attached again. *)
Theorem dynamic_serialization_repeats_but_for_publishTime
        (e e1 : Env) (output1 output2 text : string) :
  mpd_type (mpd_options_ (this e)) = kDynamic ->
  ToString output1 e = Returns ((true, text), e1) ->
  exists mpd e2,
    GenerateMpd e = Returns (Some (wrap_doc mpd), e1) /\
    text = xmlDocDumpFormatMemoryEnc (wrap_doc mpd) /\
    ToString output2 e1 =
      Returns ((true,
                xmlDocDumpFormatMemoryEnc
                  (wrap_doc
                     (xmlSetProp mpd "publishTime"
                        (XmlDateTime (fst (Now (clock_ (this e1)))) 0)))),
               e2) /\
    xmlGetProp mpd "availabilityStartTime" =
      (if string_empty (availability_start_time_ (this e1)) then None
       else Some (availability_start_time_ (this e1))) /\
    availability_start_time_ (this e2) = availability_start_time_ (this e1).
Proof.
  intros Hd Hts. destruct e as [b l]. cbn [this] in *.
  destruct (ToString_true_run _ _ _ _ _ Hts) as (m1 & m2 & mpd & H1 & H2 & Ht & ->).
  pose proof (GenerateMpd_true_run _ _ _ _ _ _ _ _ Hts H1 H2 Ht) as Hgen.
  pose proof (loops_give_bare_root _ _ _ H1 H2) as Hb.
  pose proof Hb as (Hem & _ & _).
  assert (Her : is_element (common_root b m2) = true)
    by now rewrite is_element_common_root.
  assert (Hnoast : forall now,
            xmlGetProp (dynamic_tail b (dynamic_head (common_root b m2) now))
              "availabilityStartTime" = None).
  { intros now. unfold dynamic_tail, dynamic_head. read_attr.
    rewrite !andb_false_r.
    apply xmlGetProp_common_root_other; [exact Hb | cbn [In]; tauto]. }
  assert (Hast : forall now v,
            xmlGetProp
              (dynamic_tail b
                 (SetStringAttribute (dynamic_head (common_root b m2) now)
                    "availabilityStartTime" v))
              "availabilityStartTime" = Some v).
  { intros now v. unfold dynamic_tail, dynamic_head. read_attr.
    now rewrite !andb_false_r. }
  assert (Hprof : match dash_profile (mpd_options_ b), dcheck_is_on with
                  | DashProfileOther _, true => False
                  | _, _ => True
                  end).
  { rewrite (ToString_attached _ _ _ _ _ H1 H2) in Hts.
    destruct (dash_profile _); try exact I.
    destruct dcheck_is_on; [discriminate | exact I]. }
  unfold typed_run in Ht. rewrite Hd in Ht. unfold dynamic_run in Ht.
  destruct (Now (clock_ b)) as [now1 c1] eqn:Hn1.
  destruct (string_empty (availability_start_time_ b)) eqn:Hc.
  - destruct (periods_ b) as [|front rest] eqn:Hp;
      [destruct dcheck_is_on; discriminate|].
    rewrite <- Hp in H2.
    destruct (Period_GetEarliestTimestamp front) as [t|] eqn:Hts1.
    + destruct (neg_ceil_to_int32 t) as [off|] eqn:Ho; [|discriminate].
      destruct (Now c1) as [now2 c2] eqn:Hn2. inversion Ht; subst. clear Ht.
      destruct (Now c2) as [now3 c3] eqn:Hn3.
      destruct (dynamic_roots_differ_in_publishTime b (common_root b m2) now1 now3 Her)
        as [_ Hsw].
      destruct (dynamic_run_again b
                  (with_clock (with_availability_start_time b (XmlDateTime now2 off)) c2)
                  (update_period_log b (common_log b l)) output2 m1 m2 now3 c3
                  eq_refl eq_refl eq_refl Hd Hprof H1 H2 Hn3)
        as (e2 & Hrun & Hcache).
      { left. apply XmlDateTime_not_empty. }
      cbn [with_clock with_availability_start_time availability_start_time_] in Hrun, Hcache.
      rewrite XmlDateTime_not_empty in Hrun.
      eexists _, e2. split; [exact Hgen|]. split; [reflexivity|]. cbn [this with_clock
        with_availability_start_time availability_start_time_ clock_].
      rewrite Hn3, XmlDateTime_not_empty. cbn [fst].
      change (xmlSetProp ?a ?k ?v) with (SetStringAttribute a k v).
      rewrite Hsw, Hast. auto.
    + inversion Ht; subst. clear Ht.
      destruct (Now c1) as [now3 c3] eqn:Hn3.
      destruct (dynamic_roots_differ_in_publishTime b (common_root b m2) now1 now3 Her)
        as [Hsw _].
      destruct (dynamic_run_again b (with_clock b c1)
                  (update_period_log b (common_log b l ++ [kNoEarliestTimestamp]))
                  output2 m1 m2 now3 c3
                  eq_refl eq_refl eq_refl Hd Hprof H1 H2 Hn3)
        as (e2 & Hrun & Hcache).
      { right. eauto. }
      cbn [with_clock availability_start_time_] in Hrun, Hcache.
      rewrite Hc in Hrun.
      eexists _, e2. split; [exact Hgen|]. split; [reflexivity|].
      cbn [this with_clock availability_start_time_ clock_].
      rewrite Hn3, Hc. cbn [fst].
      change (xmlSetProp ?a ?k ?v) with (SetStringAttribute a k v).
      rewrite Hsw, Hnoast. auto.
  - inversion Ht; subst. clear Ht.
    destruct (Now c1) as [now3 c3] eqn:Hn3.
    destruct (dynamic_roots_differ_in_publishTime b (common_root b m2) now1 now3 Her)
      as [_ Hsw].
    destruct (dynamic_run_again b (with_clock b c1)
                (update_period_log b (common_log b l)) output2 m1 m2 now3 c3
                eq_refl eq_refl eq_refl Hd Hprof H1 H2 Hn3)
      as (e2 & Hrun & Hcache).
    { left. exact Hc. }
    cbn [with_clock availability_start_time_] in Hrun, Hcache.
    rewrite Hc in Hrun.
    eexists _, e2. split; [exact Hgen|]. split; [reflexivity|].
    cbn [this with_clock availability_start_time_ clock_].
    rewrite Hn3, Hc. cbn [fst].
    change (xmlSetProp ?a ?k ?v) with (SetStringAttribute a k v).
    rewrite Hsw, Hast. auto.
Qed.

(** ** The document around the root *)

Lemma node_name_SetIfPositive (k : string) (v : double) (n : xmlNode) :
  node_name (SetIfPositive k v n) = node_name n.
Proof.
  unfold SetIfPositive. destruct (Positive v);
    [apply node_name_SetStringAttribute | reflexivity].
Qed.

Lemma node_name_common_root (b : MpdBuilder C) (m : xmlNode) :
  node_name (common_root b m) = node_name m.
Proof.
  unfold common_root, profile_root, AddMpdNameSpaceInfo.
  rewrite node_name_SetIfPositive.
  destruct (dash_profile _); now rewrite !node_name_SetStringAttribute.
Qed.

Lemma final_root_is_MPD (b : MpdBuilder C) (m mpd : xmlNode) :
  bare_root m -> final_root b m mpd ->
  is_element mpd = true /\ node_name mpd = "MPD".
Proof.
  intros (He & Hn & _) Hf. destruct Hf as [Hs | now ast Hd | v Ho Hdc].
  - unfold static_root. cbv zeta. split; [now autorewrite with xml|].
    rewrite node_name_SetStringAttribute.
    destruct (static_walk_shell
                (SetStringAttribute (common_root b m) "type" "static"))
      as (_ & -> & _).
    now rewrite node_name_SetStringAttribute, node_name_common_root.
  - unfold dynamic_root, dynamic_tail, dynamic_head.
    split; [destruct (string_empty ast); now autorewrite with xml|].
    rewrite !node_name_SetIfPositive.
    destruct (string_empty ast);
      now rewrite !node_name_SetStringAttribute, node_name_common_root.
  - split; [now autorewrite with xml | now rewrite node_name_common_root].
Qed.

(** Every document GenerateMpd returns has XML version 1.0 and one root
    element, named MPD.  When the packager version string is not empty a
    comment "Generated with <url> version <version>" stands before the
    root; when it is empty the root stands alone. *)
Theorem generated_document_structure (e e' : Env) (doc : xmlDoc) :
  GenerateMpd e = Returns (Some doc, e') ->
  exists mpd,
    version doc = "1.0" /\
    is_element mpd = true /\ node_name mpd = "MPD" /\
    doc_children doc =
      (if string_empty GetPackagerVersion then [mpd]
       else [XmlComment ("Generated with " ++ GetPackagerProjectUrl ++
                         " version " ++ GetPackagerVersion); mpd]) /\
    filter is_element (doc_children doc) = [mpd].
Proof.
  destruct e as [b l]. intros Hg.
  destruct (GenerateMpd_success _ _ _ _ Hg) as (m1 & m2 & mpd & H1 & H2 & _ & -> & Hf).
  pose proof (loops_give_bare_root _ _ _ H1 H2) as Hb.
  destruct (final_root_is_MPD _ _ _ Hb Hf) as [He Hn].
  exists mpd. unfold wrap_doc.
  destruct (string_empty GetPackagerVersion); cbn [negb version doc_children filter is_element];
    rewrite He; auto.
Qed.

(** ** Finding the period *)

(** FindPeriodNode looks at the direct children only: it returns the
    position of the first child named Period, whatever lies below the
    children, and the null pointer exactly when no direct child has that
    name. *)
Theorem FindPeriodNode_first_direct_child (xml_node : xmlNode) :
  match FindPeriodNode xml_node with
  | Some pos =>
      exists before period after,
        xmlChildrenNode xml_node = (before ++ period :: after)%list /\
        pos = List.length before /\
        node_name period = "Period" /\
        Forall (fun n => node_name n <> "Period") before
  | None =>
      Forall (fun n => node_name n <> "Period") (xmlChildrenNode xml_node)
  end.
Proof.
  unfold FindPeriodNode.
  assert (Hneq : forall nodes,
            Forall (fun n => IsPeriodNode n = false) nodes ->
            Forall (fun n => node_name n <> "Period") nodes).
  { intros nodes Hf. eapply Forall_impl; [|exact Hf].
    intros n Hn. unfold IsPeriodNode in Hn. now apply String.eqb_neq. }
  destruct (find_period (xmlChildrenNode xml_node) 0) as [pos|] eqn:Ef.
  - destruct (find_period_spec _ _ _ Ef) as (before & period & after & Hc & -> & Hp & Hb).
    exists before, period, after. repeat split; auto.
    now apply String.eqb_eq.
  - apply Hneq. now apply find_period_none in Ef.
Qed.

(** ** Hints that are not durations *)

(** Whatever numbers the hints are, GetStaticMpdDuration never returns a
    negative duration: the result is zero or one of the hints, it is not
    below zero, and no hint is above it.  A negative hint is ignored. *)
Theorem static_duration_is_never_negative
        (mpd_node : xmlNode) (b : MpdBuilder C) (l : list LogEntry)
        (period : xmlNode) :
  mpd_type (mpd_options_ b) = kStatic ->
  is_element mpd_node = true ->
  first_period mpd_node = Some period ->
  Forall (fun h => is_nan h = false)
         (duration_hints (visited_leaves period)) ->
  exists mpd' duration e',
    GetStaticMpdDuration mpd_node (mkEnv b l) = Returns ((mpd', duration), e') /\
    is_nan duration = false /\
    gt zero duration = false /\
    (duration = zero \/ In duration (duration_hints (visited_leaves period))) /\
    (forall h, In h (duration_hints (visited_leaves period)) ->
               gt h duration = false).
Proof.
  intros Hs He Hp Hn.
  rewrite GetStaticMpdDuration_run by exact Hs.
  pose proof (static_walk_spec mpd_node He) as Hw. rewrite Hp in Hw.
  destruct Hw as (before & after & _ & _ & _ & _ & Hmax).
  destruct (static_walk mpd_node) as [mpd' d] eqn:Ew. cbn [snd] in Hmax.
  destruct (running_max_spec _ zero eq_refl Hn) as (Hr & Hin & Hub).
  cbv zeta in Hr, Hin, Hub. rewrite <- Hmax in Hr, Hin, Hub.
  eexists _, _, _. split; [reflexivity|]. split; [exact Hr|].
  split; [apply Hub; now left|]. split.
  - destruct Hin as [Hz|Hin]; [left; now symmetry | now right].
  - intros h Hh. apply Hub. now right.
Qed.

(** ** Adding to a builder *)

Definition is_addition (c : Call) : bool :=
  match c with
  | CallAddBaseUrl _ | CallAddPeriod => true
  | _ => false
  end.

Definition added_urls (calls : list Call) : list string :=
  flat_map (fun c => match c with CallAddBaseUrl u => [u] | _ => [] end) calls.

Definition added_periods (calls : list Call) : nat :=
  List.length (filter (fun c => match c with CallAddPeriod => true | _ => false end)
                      calls).

Lemma repeat_snoc {A} (a : A) (n : nat) :
  (repeat a n ++ [a])%list = a :: repeat a n.
Proof. induction n as [|n IH]; cbn; [reflexivity | now rewrite IH]. Qed.

(** A series of AddBaseUrl and AddPeriod calls, in whatever order they are
    interleaved, always returns and leaves one builder: the base URLs are
    the old ones followed by the added ones in call order, the periods are
    the old ones followed by one new period for each AddPeriod, each made
    from the builder's options; options, cached start time, clock and log
    are as before. *)
Theorem additions_accumulate (e : Env) (calls : list Call) :
  forallb is_addition calls = true ->
  run_calls e calls =
  Returns
    (mkEnv
       (mkMpdBuilder (mpd_options_ (this e))
          (periods_ (this e) ++
           repeat (NewPeriod (mpd_options_ (this e))) (added_periods calls))
          (base_urls_ (this e) ++ added_urls calls)
          (availability_start_time_ (this e)) (clock_ (this e)))
       (log e)).
Proof.
  revert e. induction calls as [|c calls IH]; intros [[o ps us a k] l] Ha.
  - cbn. now rewrite !app_nil_r.
  - cbn [forallb] in Ha. apply andb_true_iff in Ha as [Hc Ha].
    destruct c; try discriminate; cbn [run_calls step];
      unfold AddBaseUrl, AddPeriod, bind, get_this, put_this, ret;
      cbn [discard this log mpd_options_ periods_ base_urls_
             availability_start_time_ clock_];
      rewrite (IH _ Ha);
      cbn [this log mpd_options_ periods_ base_urls_ availability_start_time_
             clock_ added_urls added_periods flat_map filter List.length repeat app];
      rewrite <- !app_assoc; reflexivity.
Qed.

(** ** A start time computed late *)

Lemma profile_passes_switch (b : MpdBuilder C) (A : Type) (x : outcome A) :
  profile_passes b = true ->
  match dash_profile (mpd_options_ b), dcheck_is_on with
  | DashProfileOther v, true => Fatal ("Unknown DASH profile: " ++ decimal v)
  | _, _ => x
  end = x.
Proof.
  unfold profile_passes.
  destruct (dash_profile _); try reflexivity.
  destruct dcheck_is_on; [discriminate | reflexivity].
Qed.

(** A dynamic builder whose first period has no earliest timestamp yet
    still serializes, without availabilityStartTime, and caches nothing.
    Once the period reports a timestamp [t], the next serialization
    computes the start time from its own clock readings (the reading after
    the one used for publishTime), attaches it and caches it. *)
Theorem start_time_is_computed_once_a_timestamp_appears
        (b : MpdBuilder C) (l : list LogEntry) (output1 output2 : string)
        (front front' : Period) (rest : list Period)
        (t : double) (offset_seconds : Z)
        (now1 now2 now3 : Time) (c1 c2 c3 : C) (m1 m2 : xmlNode) :
  mpd_type (mpd_options_ b) = kDynamic ->
  string_empty (availability_start_time_ b) = true ->
  periods_ b = front :: rest ->
  Period_GetEarliestTimestamp front = None ->
  Period_GetXml front' = Period_GetXml front ->
  Period_GetEarliestTimestamp front' = Some t ->
  neg_ceil_to_int32 t = Some offset_seconds ->
  Now (clock_ b) = (now1, c1) ->
  Now c1 = (now2, c2) ->
  Now c2 = (now3, c3) ->
  add_base_urls (XmlNode "MPD") (base_urls_ b) = Some m1 ->
  add_periods m1 (periods_ b) = Some m2 ->
  profile_passes b = true ->
  exists mpd1 e1 e1' mpd2 e2,
    GenerateMpd (mkEnv b l) = Returns (Some (wrap_doc mpd1), e1) /\
    ToString output1 (mkEnv b l) =
      Returns ((true, xmlDocDumpFormatMemoryEnc (wrap_doc mpd1)), e1) /\
    xmlGetProp mpd1 "availabilityStartTime" = None /\
    availability_start_time_ (this e1) = availability_start_time_ b /\
    step e1 (PeriodUpdated 0 front') = Returns e1' /\
    GenerateMpd e1' = Returns (Some (wrap_doc mpd2), e2) /\
    ToString output2 e1' =
      Returns ((true, xmlDocDumpFormatMemoryEnc (wrap_doc mpd2)), e2) /\
    xmlGetProp mpd2 "availabilityStartTime" =
      Some (XmlDateTime now3 offset_seconds) /\
    availability_start_time_ (this e2) = XmlDateTime now3 offset_seconds.
Proof.
  intros Hd Hc Hp Ht Hx Ht' Ho Hn1 Hn2 Hn3 H1 H2 Hpass.
  pose proof (loops_give_bare_root _ _ _ H1 H2) as Hb.
  pose proof Hb as (He & _ & Hprops).
  set (b1 := mkMpdBuilder (mpd_options_ b) (front' :: rest) (base_urls_ b)
               (availability_start_time_ b) c1).
  assert (H2' : add_periods m1 (periods_ b1) = Some m2).
  { rewrite Hp in H2. cbn [add_periods periods_ b1] in *. now rewrite Hx. }
  assert (Hpass' : profile_passes b1 = true) by exact Hpass.
  eexists _, _, _, _, _.
  rewrite (GenerateMpd_passes _ l _ _ H1 H2 Hpass), after_profile_run.
  rewrite (ToString_attached b l output1 m1 m2 H1 H2).
  rewrite profile_passes_switch by exact Hpass.
  unfold typed_run at 1 2. rewrite Hd. unfold dynamic_run at 1 2.
  rewrite Hn1, Hc, Hp, Ht.
  split; [reflexivity|]. split; [reflexivity|]. split.
  { unfold dynamic_tail, dynamic_head. read_attr. rewrite !andb_false_r.
    apply xmlGetProp_common_root_other; [exact Hb | cbn [In]; tauto]. }
  split; [reflexivity|].
  cbn [step this log with_clock mpd_options_ periods_ base_urls_
         availability_start_time_ clock_]. rewrite Hp. cbn [update_period].
  split; [reflexivity|]. fold b1.
  rewrite (GenerateMpd_passes b1 _ m1 m2 H1 H2' Hpass'), after_profile_run.
  rewrite (ToString_attached b1 _ output2 m1 m2 H1 H2').
  rewrite profile_passes_switch by exact Hpass.
  unfold typed_run at 1 2. cbn [b1 mpd_options_]. rewrite Hd.
  unfold dynamic_run at 1 2.
  cbn [b1 mpd_options_ periods_ availability_start_time_ clock_].
  rewrite Hn2, Hc, Ht', Ho, Hn3.
  split; [reflexivity|]. split; [reflexivity|]. split; [|reflexivity].
  unfold dynamic_tail, dynamic_head. read_attr. rewrite !andb_false_r.
  reflexivity.
Qed.

End Builder.

(** ** The path rewriter *)

(** The rest of [s] after the prefix [p], when [s] starts with [p]. *)
Fixpoint strip_prefix (p s : string) : option string :=
  match p, s with
  | EmptyString, _ => Some s
  | String a p', String b s' => if Ascii.eqb a b then strip_prefix p' s' else None
  | String _ _, EmptyString => None
  end.

(** The manifest path without a leading "file://". *)
Definition without_file_protocol (mpd_path : string) : string :=
  match strip_prefix "file://" mpd_path with
  | Some rest => rest
  | None => mpd_path
  end.

Lemma strip_prefix_prefix (p s : string) :
  String.prefix p s = true <-> exists rest, strip_prefix p s = Some rest.
Proof.
  revert s. induction p as [|a p IH]; intros s.
  - destruct s; cbn; split; eauto.
  - destruct s as [|b s]; cbn.
    + split; [discriminate | intros [rest Hr]; discriminate].
    + destruct (ascii_dec a b) as [->|Hne].
      * rewrite Ascii.eqb_refl. apply IH.
      * destruct (Ascii.eqb a b) eqn:E; [apply Ascii.eqb_eq in E; contradiction|].
        split; [discriminate | intros [rest Hr]; discriminate].
Qed.

Lemma substring_whole (s : string) : substring 0 (String.length s) s = s.
Proof. induction s as [|c s IH]; cbn; [reflexivity | now rewrite IH]. Qed.

Lemma strip_prefix_substring (p s rest : string) :
  strip_prefix p s = Some rest ->
  substring (String.length p) (String.length s - String.length p) s = rest.
Proof.
  revert s. induction p as [|a p IH]; intros s.
  - cbn. intros Hr; inversion Hr; subst. rewrite Nat.sub_0_r. apply substring_whole.
  - destruct s as [|b s]; cbn [strip_prefix]; [discriminate|].
    destruct (Ascii.eqb a b); [|discriminate]. intros Hr. cbn. now apply IH.
Qed.

Lemma index_0_prefix (p s : string) :
  p <> EmptyString ->
  (String.index 0 p s = Some O <-> String.prefix p s = true).
Proof.
  intros Hp. destruct s as [|b s].
  - destruct p; [contradiction|]. cbn. split; discriminate.
  - cbn [String.index]. destruct (String.prefix p (String b s)).
    + split; reflexivity.
    + destruct (String.index 0 p s); split; discriminate.
Qed.

Lemma strip_file_protocol_spec (mpd_path : string) :
  strip_file_protocol mpd_path = without_file_protocol mpd_path.
Proof.
  unfold strip_file_protocol, without_file_protocol.
  destruct (strip_prefix "file://" mpd_path) as [rest|] eqn:Es.
  - assert (Hi : String.index 0 kFileProtocol mpd_path = Some O).
    { apply index_0_prefix; [discriminate|]. apply strip_prefix_prefix. eauto. }
    rewrite Hi. now apply strip_prefix_substring.
  - destruct (String.index 0 kFileProtocol mpd_path) as [[|n]|] eqn:Ei;
      try reflexivity.
    apply index_0_prefix in Ei; [|discriminate].
    apply strip_prefix_prefix in Ei as [rest Hr].
    unfold kFileProtocol in Hr. congruence.
Qed.

(** ** Clean absolute paths on a host *)

Section CleanPaths.

Import HostPath.

Local Open Scope nat_scope.
Local Open Scope list_scope.

Variable win : bool.

Local Abbreviation IsSep := (IsSeparator win).
Local Abbreviation strip := (StripTrailingSeparatorsInternal win).

(** A name between separators: not empty, without separators, not the
    current directory, and not a drive letter. *)
Definition plain (n : list ascii) : bool :=
  negb (List.length n =? 0) && forallb (fun c => negb (IsSep c)) n
  && negb (same_path n kCurrentDirectory)
  && negb (after_drive win n =? List.length n).

(** The separator [s] before every name. *)
Definition under (s : ascii) (names : list (list ascii)) : list ascii :=
  flat_map (fun n => s :: n) names.

(** The root for no name. *)
Definition absolute (s : ascii) (names : list (list ascii)) : list ascii :=
  match names with
  | [] => [s]
  | _ => under s names
  end.

Lemma same_path_eq (a b : list ascii) : same_path a b = true <-> a = b.
Proof.
  unfold same_path. rewrite String.eqb_eq. split; [|now intros ->].
  intros He. apply (f_equal list_ascii_of_string) in He.
  now rewrite !list_ascii_of_string_of_list_ascii in He.
Qed.

Lemma same_path_refl (a : list ascii) : same_path a a = true.
Proof. now apply same_path_eq. Qed.




Lemma IsSeparator_slash : IsSep "/"%char = true.
Proof. unfold IsSeparator, kSeparators. now destruct win. Qed.





Lemma exists_last_or_nil {A} (l : list A) :
  l = [] \/ exists l' a, l = l' ++ [a].
Proof.
  destruct l as [|x l]; [now left|]. right.
  destruct (exists_last (l := x :: l)) as (l' & a & ->); [discriminate|].
  eauto.
Qed.

(** *** Trailing separators *)

Lemma strip_ends_with_name (a : list ascii) (c : ascii) :
  IsSep c = false -> strip (a ++ [c]) = a ++ [c].
Proof.
  intros Hc. unfold StripTrailingSeparatorsInternal.
  rewrite length_app, Nat.add_1_r. cbn [strip_loop].
  now rewrite nth_middle, Hc, andb_false_r.
Qed.



(** *** The last separator *)



(** *** Names *)

Lemma plain_spec (n : list ascii) :
  plain n = true ->
  forallb (fun c => negb (IsSep c)) n = true /\
  n <> kCurrentDirectory /\
  after_drive win n <> List.length n /\
  exists a c, n = a ++ [c] /\ IsSep c = false.
Proof.
  unfold plain. intros Hp.
  apply andb_true_iff in Hp as [Hp Hd]. apply andb_true_iff in Hp as [Hp Hdot].
  apply andb_true_iff in Hp as [Hne Hfree].
  apply negb_true_iff in Hne, Hdot, Hd.
  apply Nat.eqb_neq in Hne, Hd.
  split; [exact Hfree|]. split.
  { intros ->. now rewrite same_path_refl in Hdot. }
  split; [exact Hd|].
  destruct (exists_last (l := n)) as (a & c & ->).
  { intros ->. now apply Hne. }
  exists a, c. split; [reflexivity|].
  rewrite forallb_app in Hfree. apply andb_true_iff in Hfree as [_ Hc].
  cbn in Hc. rewrite andb_true_r in Hc. now apply negb_true_iff.
Qed.


Lemma under_snoc (s : ascii) (names : list (list ascii)) (n : list ascii) :
  under s (names ++ [n]) = under s names ++ s :: n.
Proof. unfold under. rewrite flat_map_app. cbn. now rewrite app_nil_r. Qed.


Lemma under_ends_with_name (s : ascii) (names : list (list ascii))
      (n : list ascii) :
  plain n = true ->
  exists a c, under s (names ++ [n]) = a ++ [c] /\ IsSep c = false.
Proof.
  intros Hp. destruct (plain_spec n Hp) as (_ & _ & _ & a & c & -> & Hc).
  exists (under s names ++ s :: a), c. split; [|exact Hc].
  rewrite under_snoc, <- app_assoc. reflexivity.
Qed.


Lemma absolute_snoc (s : ascii) (names : list (list ascii)) (n : list ascii) :
  absolute s (names ++ [n]) = under s (names ++ [n]).
Proof. unfold absolute. now destruct names. Qed.

(** *** DirName and BaseName of a clean path *)

Section Separator.

Variable s : ascii.
Hypothesis separator : IsSep s = true.

Lemma strip_under (names : list (list ascii)) (n : list ascii) :
  plain n = true -> strip (under s (names ++ [n])) = under s (names ++ [n]).
Proof.
  intros Hp. destruct (under_ends_with_name s names n Hp) as (a & c & -> & Hc).
  now apply strip_ends_with_name.
Qed.


Lemma strip_absolute (names : list (list ascii)) :
  Forall (fun n => plain n = true) names ->
  strip (absolute s names) = absolute s names.
Proof.
  intros Hf. destruct (exists_last_or_nil names) as [-> | (ns & n & ->)];
    [reflexivity|].
  rewrite absolute_snoc. apply strip_under.
  apply Forall_app in Hf as [_ Hn]. now inversion Hn.
Qed.



(** *** The components of a clean path *)













(** *** Appending names and normalizing separators *)








(** *** Descendants *)





End Separator.

End CleanPaths.

(** *** Clean paths as strings *)

















(** ** The offset of the availability start time *)

(** The offset passed to XmlDateTimeNowWithOffset when the start time is
    computed, for a double [t] that is a valid IEEE value.  When the
    conversion is defined the offset is the negated ceiling of [t] and lies
    in the int32_t range; it is negative for every positive [t] and not
    negative otherwise, so a positive timestamp moves the start time back
    by at least a second and no timestamp above -1 moves it forward.  The
    conversion is undefined exactly for NaN, the infinities and a ceiling
    outside -2^31 + 1 .. 2^31. *)
Theorem start_time_offset_range (t : double) :
  valid_binary 53 1024 t = true ->
  match neg_ceil_to_int32 t with
  | Some offset_seconds =>
      ceilZ t = Some (- offset_seconds) /\
      - 2 ^ 31 <= offset_seconds < 2 ^ 31 /\
      (Positive t = true -> offset_seconds <= -1) /\
      (Positive t = false -> 0 <= offset_seconds)
  | None =>
      ceilZ t = None \/
      exists n, ceilZ t = Some n /\ (n <= - 2 ^ 31 \/ 2 ^ 31 < n)
  end.
Proof.
  intros Hv. rewrite (neg_ceil_to_int32_spec t Hv).
  destruct (ceilZ t) as [n|] eqn:Hc; [|now left].
  destruct (in_int32 (- n)) eqn:Hr.
  - unfold in_int32 in Hr. apply andb_true_iff in Hr as [Hlo Hhi].
    apply Z.leb_le in Hlo. apply Z.ltb_lt in Hhi.
    rewrite Z.opp_involutive. split; [reflexivity|]. split; [lia|].
    destruct t as [s|s| |s m e]; try discriminate.
    + inversion Hc; subst. cbn. split; [discriminate | lia].
    + pose proof (ceilZ_is_ceiling s m e n Hc) as Hce. cbv zeta in Hce.
      assert (Hpos : Positive (S754_finite s m e) = negb s) by (now destruct s).
      rewrite Hpos.
      destruct (0 <=? e) eqn:Ee.
      * apply Z.leb_le in Ee.
        pose proof (Z.pow_pos_nonneg 2 e ltac:(lia) Ee) as Hp.
        destruct s; cbn [negb cond_Zopp] in *;
          (split; [try discriminate | try discriminate]); intros _; nia.
      * apply Z.leb_gt in Ee.
        pose proof (Z.pow_pos_nonneg 2 (- e) ltac:(lia) ltac:(lia)) as Hp.
        destruct s; cbn [negb cond_Zopp] in *;
          (split; [try discriminate | try discriminate]); intros _; nia.
  - right. exists n. split; [reflexivity|].
    unfold in_int32 in Hr. apply andb_false_iff in Hr as [Hr|Hr];
      [apply Z.leb_gt in Hr | apply Z.ltb_ge in Hr]; lia.
Qed.

(** ** The fields of a date-time string *)

(** The fields a date-time string is printed from, within the widths of
    the format. *)
Definition printable (e : Exploded) : Prop :=
  0 <= year e <= 9999 /\ 0 <= month e <= 99 /\ 0 <= day_of_month e <= 99 /\
  0 <= hour e <= 99 /\ 0 <= minute e <= 99 /\ 0 <= second e <= 99.

(** The date-time string loses nothing of the six fields it prints: two
    broken-down times whose fields fit the widths of the format and that
    print to the same string have the same year, month, day, hour, minute
    and second.  The day of the week and the milliseconds are not
    printed. *)
Theorem FormatXmlDateTime_injective (e1 e2 : Exploded) :
  printable e1 -> printable e2 ->
  FormatXmlDateTime e1 = FormatXmlDateTime e2 ->
  year e1 = year e2 /\ month e1 = month e2 /\
  day_of_month e1 = day_of_month e2 /\ hour e1 = hour e2 /\
  minute e1 = minute e2 /\ second e1 = second e2.
Proof.
  intros (Hy1 & Hm1 & Hd1 & Hh1 & Hn1 & Hs1) (Hy2 & Hm2 & Hd2 & Hh2 & Hn2 & Hs2).
  unfold FormatXmlDateTime.
  destruct (pad_d_reads_back _ Hy1) as [Ly1 Vy1].
  destruct (pad_d_reads_back _ Hy2) as [Ly2 Vy2].
  destruct (pad_0d_reads_back _ Hm1) as [Lm1 Vm1].
  destruct (pad_0d_reads_back _ Hm2) as [Lm2 Vm2].
  destruct (pad_0d_reads_back _ Hd1) as [Ld1 Vd1].
  destruct (pad_0d_reads_back _ Hd2) as [Ld2 Vd2].
  destruct (pad_0d_reads_back _ Hh1) as [Lh1 Vh1].
  destruct (pad_0d_reads_back _ Hh2) as [Lh2 Vh2].
  destruct (pad_0d_reads_back _ Hn1) as [Ln1 Vn1].
  destruct (pad_0d_reads_back _ Hn2) as [Ln2 Vn2].
  destruct (pad_0d_reads_back _ Hs1) as [Ls1 Vs1].
  destruct (pad_0d_reads_back _ Hs2) as [Ls2 Vs2].
  destruct (has_length_4 _ Ly1) as (? & ? & ? & ? & Ey1).
  destruct (has_length_4 _ Ly2) as (? & ? & ? & ? & Ey2).
  destruct (has_length_2 _ Lm1) as (? & ? & Em1).
  destruct (has_length_2 _ Lm2) as (? & ? & Em2).
  destruct (has_length_2 _ Ld1) as (? & ? & Ed1).
  destruct (has_length_2 _ Ld2) as (? & ? & Ed2).
  destruct (has_length_2 _ Lh1) as (? & ? & Eh1).
  destruct (has_length_2 _ Lh2) as (? & ? & Eh2).
  destruct (has_length_2 _ Ln1) as (? & ? & En1).
  destruct (has_length_2 _ Ln2) as (? & ? & En2).
  destruct (has_length_2 _ Ls1) as (? & ? & Es1).
  destruct (has_length_2 _ Ls2) as (? & ? & Es2).
  rewrite Ey1, Ey2, Em1, Em2, Ed1, Ed2, Eh1, Eh2, En1, En2, Es1, Es2.
  cbn [append]. intros Heq. inversion Heq; subst.
  rewrite <- Ey2 in Ey1. rewrite <- Em2 in Em1. rewrite <- Ed2 in Ed1.
  rewrite <- Eh2 in Eh1. rewrite <- En2 in En1. rewrite <- Es2 in Es1.
  rewrite Ey1 in Vy1. rewrite Em1 in Vm1. rewrite Ed1 in Vd1.
  rewrite Eh1 in Vh1. rewrite En1 in Vn1. rewrite Es1 in Vs1.
  repeat split; congruence.
Qed.

(** A manifest path given as a file URL names the same manifest as the
    plain path: the media paths are rewritten the same way.  Only one
    leading "file://" is removed, so the plain path must not itself start
    with it. *)
Theorem file_url_and_plain_path_agree `{FilePathOps}
        (mpd_path : string) (media_info : MediaInfo) :
  String.prefix "file://" mpd_path = false ->
  MakePathsRelativeToMpd ("file://" ++ mpd_path) media_info =
  MakePathsRelativeToMpd mpd_path media_info.
Proof.
  intros Hp. unfold MakePathsRelativeToMpd.
  rewrite !strip_file_protocol_spec.
  assert (Hu : without_file_protocol ("file://" ++ mpd_path) = mpd_path).
  { unfold without_file_protocol. cbn. reflexivity. }
  assert (Hs : without_file_protocol mpd_path = mpd_path).
  { unfold without_file_protocol.
    destruct (strip_prefix "file://" mpd_path) as [rest|] eqn:Es; [|reflexivity].
    assert (Ht : String.prefix "file://" mpd_path = true)
      by (apply strip_prefix_prefix; eauto).
    congruence. }
  now rewrite Hu, Hs.
Qed.


(** ** Worked examples *)

Example XmlDateTime_2016 :
  XmlDateTime (1452525024 * 1000000) 0 = "2016-01-11T15:10:24Z".
Proof. vm_compute. reflexivity. Qed.

Example XmlDateTime_crosses_midnight :
  XmlDateTime (1452470403 * 1000000) (-6) = "2016-01-10T23:59:57Z".
Proof. vm_compute. reflexivity. Qed.

Example XmlDateTime_leap_day :
  XmlDateTime (951782400 * 1000000) 86400 = "2000-03-01T00:00:00Z".
Proof. vm_compute. reflexivity. Qed.

Example XmlDateTime_epoch : XmlDateTime 0 (-1) = "1969-12-31T23:59:59Z".
Proof. vm_compute. reflexivity. Qed.

(** The mock clock of the unit tests returns one instant for every read. *)
Example fixed_clock_reads :
  XmlDateTimeNowWithOffset (-6) (mkFixed (1452525024 * 1000000)) =
  ("2016-01-11T15:10:18Z", mkFixed (1452525024 * 1000000)).
Proof. vm_compute. reflexivity. Qed.

(** Boundaries of [d > 0.0]: the zeros and NaN are not positive, the
    smallest subnormal double is. *)
Example Positive_zero : Positive zero = false.
Proof. reflexivity. Qed.

Example Positive_negative_zero : Positive (S754_zero true) = false.
Proof. reflexivity. Qed.

Example Positive_nan : Positive S754_nan = false.
Proof. reflexivity. Qed.

Example Positive_smallest : Positive (S754_finite false 1 (-1074)) = true.
Proof. reflexivity. Qed.

(** std::ceil(-0.5) is -0.0, and its negation converts to 0. *)
Example ceil_of_minus_half :
  std_ceil (S754_finite true 4503599627370496 (-53)) = S754_zero true /\
  neg_ceil_to_int32 (S754_finite true 4503599627370496 (-53)) = Some 0.
Proof. split; vm_compute; reflexivity. Qed.

(** A timestamp of 2^31 seconds and a bit: the offset does not fit. *)
Example ceil_out_of_range :
  neg_ceil_to_int32 (S754_finite false 4503599627370497 (-21)) = None.
Proof. vm_compute. reflexivity. Qed.

Example relative_inside_manifest_dir :
  @MakePathsRelativeToMpd HostPath.posix "/a/b/manifest.mpd"
    (mkMediaInfo (Some "/a/b/c/seg.mp4") None None)
  = mkMediaInfo (Some "c/seg.mp4") None None.
Proof. vm_compute. reflexivity. Qed.

Example absolute_outside_manifest_dir :
  @MakePathsRelativeToMpd HostPath.posix "file:///a/b/manifest.mpd"
    (mkMediaInfo (Some "/x/y/seg.mp4") (Some "/a/b/init.mp4") None)
  = mkMediaInfo (Some "/x/y/seg.mp4") (Some "init.mp4") None.
Proof. vm_compute. reflexivity. Qed.

Example backslashes_on_windows :
  @MakePathsRelativeToMpd HostPath.windows "\a\b\manifest.mpd"
    (mkMediaInfo (Some "\a\b\c\seg.mp4") None (Some "\x\y\$Number$.m4s"))
  = mkMediaInfo (Some "c/seg.mp4") None (Some "/x/y/$Number$.m4s").
Proof. vm_compute. reflexivity. Qed.

(** FilePath on paths that are not clean.  A manifest named without a
    directory lies in ".", whose only component is "." itself, so no media
    path is below it; a leading "./" of a media path is no component. *)
Example manifest_without_directory :
  @MakePathsRelativeToMpd HostPath.posix "manifest.mpd"
    (mkMediaInfo (Some "seg.mp4") (Some "./init.mp4") (Some "sub/$Number$.m4s"))
  = mkMediaInfo (Some "seg.mp4") (Some "./init.mp4") (Some "sub/$Number$.m4s").
Proof. vm_compute. reflexivity. Qed.

Example doubled_and_trailing_separators :
  @MakePathsRelativeToMpd HostPath.posix "/a/b//manifest.mpd"
    (mkMediaInfo (Some "/a//b/c/seg.mp4") (Some "/a/b/c/") (Some "/a/b"))
  = mkMediaInfo (Some "c/seg.mp4") (Some "c") (Some "/a/b").
Proof. vm_compute. reflexivity. Qed.

Example backslash_is_a_name_character_on_posix :
  @MakePathsRelativeToMpd HostPath.posix "/a/b/manifest.mpd"
    (mkMediaInfo (Some "/a/b\c") None None)
  = mkMediaInfo (Some "/a/b\c") None None.
Proof. vm_compute. reflexivity. Qed.

Example drive_letters_on_windows :
  @MakePathsRelativeToMpd HostPath.windows "C:\media\manifest.mpd"
    (mkMediaInfo (Some "c:\media\video\seg.mp4") (Some "D:\media\init.mp4") None)
  = mkMediaInfo (Some "video/seg.mp4") (Some "D:/media/init.mp4") None.
Proof. vm_compute. reflexivity. Qed.

Example components_of_paths :
  map (fun p => map string_of_list_ascii
                    (HostPath.get_components false (list_ascii_of_string p)))
      ["/a/b/c"; "a/b"; "./a/b"; "a/./b"; "//a"; "."; "./"; "/"]
  = [["/"; "a"; "b"; "c"]; ["a"; "b"]; ["a"; "b"]; ["a"; "."; "b"];
     ["//"; "a"]; []; ["."]; ["/"]].
Proof. vm_compute. reflexivity. Qed.

(** ** Sample collaborators and builders *)

Module Sample.

Definition accept_all (parent child : xmlNode) : bool := true.
Definition reject_all (parent child : xmlNode) : bool := false.

(** Whole seconds, as in "PT7S". *)
Definition whole_seconds (d : double) : string :=
  match ceilZ d with
  | Some n => "PT" ++ decimal n ++ "S"
  | None => "PT0S"
  end.

(** Reads a "duration" attribute holding a whole number of seconds. *)
Definition read_duration (n : xmlNode) : option float :=
  match xmlGetProp n "duration" with
  | Some s =>
      match NilZero.uint_of_string s with
      | Some u => Some (binary_normalize 24 128 (Z.of_uint u) 0 false)
      | None => None
      end
  | None => None
  end.

Fixpoint print_props (ps : list (string * string)) : string :=
  match ps with
  | [] => ""
  | (k, v) :: rest => " " ++ k ++ "='" ++ v ++ "'" ++ print_props rest
  end.

Fixpoint print_node (n : xmlNode) : string :=
  match n with
  | XmlElement name ps cs =>
      "<" ++ name ++ print_props ps ++ ">" ++
      (fix print_all (l : list xmlNode) : string :=
         match l with
         | [] => ""
         | c :: rest => print_node c ++ print_all rest
         end) cs ++
      "</" ++ name ++ ">"
  | XmlText t => t
  | XmlComment c => "<!--" ++ c ++ "-->"
  end.

Definition print_doc (doc : xmlDoc) : string :=
  concat "" (map print_node (doc_children doc)).

Definition empty_period (options : MpdOptions) : Period :=
  mkPeriod (Some (XmlNode "Period")) None.

Definition d2_0 : double := S754_finite false 4503599627370496 (-51).

Definition params : MpdParams :=
  mkMpdParams d2_0 d5_4 zero (S754_finite true 4503599627370496 (-51)).

Definition representation (duration : string) : xmlNode :=
  XmlElement "Representation" [("id", "0"); ("duration", duration)] [].

(** A period with one adaptation set and hints of 2, 7 and 3 seconds. *)
Definition period_xml : xmlNode :=
  XmlElement "Period" []
    [XmlElement "AdaptationSet" [("id", "0")]
       [representation "2"; representation "7"; representation "3"]].

Definition vod_period : Period := mkPeriod (Some period_xml) None.
Definition live_period : Period := mkPeriod (Some period_xml) (Some d5_4).
Definition silent_period : Period := mkPeriod (Some period_xml) None.
Definition broken_period : Period := mkPeriod None None.

(** 2016-01-11T15:10:24Z *)
Definition t0 : Time := 1452525024 * 1000000.

Definition builder (profile : DashProfile) (type : MpdType)
           (periods : list Period) (urls : list string) (cache : string)
  : MpdBuilder TickingClock :=
  mkMpdBuilder (mkMpdOptions profile type params) periods urls cache
    (mkTicking t0 3000000).

Definition env (b : MpdBuilder TickingClock) : Env := mkEnv b [].

Definition serialize (dcheck : bool) (ok : xmlNode -> xmlNode -> bool)
           (output : string) (e : Env (C := TickingClock)) :=
  ToString dcheck ok whole_seconds read_duration "" "" print_doc output e.

Definition live_builder := builder kLive kDynamic [live_period] [] "".
Definition cached_builder :=
  builder kLive kDynamic [live_period] [] "2016-01-11T15:10:21Z".
(** The same live builder with a clock at 2000-02-29T23:59:58Z. *)
Definition leap_day_builder : MpdBuilder TickingClock :=
  mkMpdBuilder (mkMpdOptions kLive kDynamic params) [live_period] [] ""
    (mkTicking (951868798 * 1000000) 3000000).
Definition silent_builder := builder kLive kDynamic [silent_period] [] "".
Definition vod_builder := builder kOnDemand kStatic [vod_period] [] "".
Definition empty_builder := builder kLive kDynamic [] [] "".
Definition url_builder := builder kLive kStatic [vod_period] ["http://cdn/"] "".
Definition odd_profile_builder :=
  builder (DashProfileOther 0) kStatic [vod_period] [] "".
Definition odd_type_builder :=
  builder kOnDemand (MpdTypeOther 7) [vod_period] [] "".
Definition rooted (children : list xmlNode) : xmlNode :=
  XmlElement "MPD" [] children.

(** A test waits an hour, adds a period and a base URL, fills the new
    period, and serializes before and after. *)
Definition busy_life : list (Call (C := TickingClock)) :=
  [CallToString ""; ClockMoved (mkTicking (t0 + 3600000000) 1);
   CallAddPeriod; PeriodUpdated 1 silent_period;
   CallAddBaseUrl "http://cdn/"; CallToString ""].

Definition live (e : Env (C := TickingClock)) (calls : list Call) :=
  run_calls false accept_all whole_seconds read_duration "" "" print_doc
    empty_period e calls.

(** The first serialization of [live_builder]: the text and the builder
    it leaves behind. *)
Definition live_text : string :=
  Eval vm_compute in
    match serialize false accept_all "" (env live_builder) with
    | Returns ((_, out), _) => out
    | _ => ""
    end.

Definition live_after : Env (C := TickingClock) :=
  Eval vm_compute in
    match serialize false accept_all "" (env live_builder) with
    | Returns (_, e) => e
    | _ => env live_builder
    end.

Lemma live_run :
  serialize false accept_all "" (env live_builder) =
  Returns ((true, live_text), live_after).
Proof. vm_compute. reflexivity. Qed.

End Sample.



(** ** The theorems at work on sample builders *)

Import Sample.

Lemma availability_start_time_witness :
  (exists doc mpd e',
     serialize false accept_all "" (env live_builder) =
       Returns ((true, print_doc doc), e') /\
     mpd_root doc = Some mpd /\
     xmlGetProp mpd "availabilityStartTime" = Some "2016-01-11T15:10:21Z" /\
     availability_start_time_ (this e') = "2016-01-11T15:10:21Z" /\
     is_xml_date_time "2016-01-11T15:10:21Z" = true /\
     ReadXmlDateTime "2016-01-11T15:10:21Z" = Some (1452525027 - 6)) /\
  (exists doc mpd e',
     serialize false accept_all "" (env leap_day_builder) =
       Returns ((true, print_doc doc), e') /\
     mpd_root doc = Some mpd /\
     xmlGetProp mpd "availabilityStartTime" = Some "2000-02-29T23:59:55Z" /\
     availability_start_time_ (this e') = "2000-02-29T23:59:55Z" /\
     ReadXmlDateTime "2000-02-29T23:59:55Z" = Some (951868801 - 6)).
Proof.
  split.
  - destruct (@availability_start_time_is_now_minus_ceil TickingClock _
                false accept_all whole_seconds read_duration "" "" print_doc
                live_builder [] "" live_period [] d5_4 6
                t0 (t0 + 3000000)
                (mkTicking (t0 + 3000000) 3000000)
                (mkTicking (t0 + 6000000) 3000000)
                (rooted []) (rooted [period_xml]))
      as (doc & mpd & e' & Hrun & Hroot & Hattr & Hcache & _ & Hshape);
      try reflexivity.
    exists doc, mpd, e'. split; [exact Hrun|]. split; [exact Hroot|].
    split; [exact Hattr|]. split; [exact Hcache|].
    apply Hshape. vm_compute. split; discriminate.
  - destruct (@availability_start_time_is_now_minus_ceil TickingClock _
                false accept_all whole_seconds read_duration "" "" print_doc
                leap_day_builder [] "" live_period [] d5_4 6
                (951868798 * 1000000) (951868801 * 1000000)
                (mkTicking (951868801 * 1000000) 3000000)
                (mkTicking (951868804 * 1000000) 3000000)
                (rooted []) (rooted [period_xml]))
      as (doc & mpd & e' & Hrun & Hroot & Hattr & Hcache & _ & Hshape);
      try reflexivity.
    exists doc, mpd, e'. split; [exact Hrun|]. split; [exact Hroot|].
    split; [exact Hattr|]. split; [exact Hcache|].
    apply Hshape. vm_compute. split; discriminate.
Defined.

Lemma availability_start_time_stable_witness :
  exists e1,
    live (env cached_builder) busy_life = Returns e1 /\
    clock_ (this e1) = mkTicking (t0 + 3600000001) 1 /\
    availability_start_time_ (this e1) = "2016-01-11T15:10:21Z" /\
    forall output out e2,
      serialize false accept_all output e1 = Returns ((true, out), e2) ->
      exists doc mpd,
        out = print_doc doc /\ mpd_root doc = Some mpd /\
        xmlGetProp mpd "availabilityStartTime" = Some "2016-01-11T15:10:21Z" /\
        availability_start_time_ (this e2) = "2016-01-11T15:10:21Z" /\
        clock_ (this e2) = snd (Now (clock_ (this e1))).
Proof.
  eexists. split; [vm_compute; reflexivity|]. split; [reflexivity|].
  apply (@availability_start_time_is_stable TickingClock _
           false accept_all whole_seconds read_duration "" "" print_doc
           empty_period (env cached_builder) _ busy_life);
    [reflexivity | reflexivity | vm_compute; reflexivity].
Defined.

Lemma static_duration_witness :
  exists doc mpd e',
    serialize false accept_all "" (env vod_builder) =
      Returns ((true, print_doc doc), e') /\
    mpd_root doc = Some mpd /\
    xmlGetProp mpd "mediaPresentationDuration" = Some "PT7S" /\
    visited_leaves (clean_period read_duration period_xml) =
      [XmlElement "Representation" [("id", "0")] [];
       XmlElement "Representation" [("id", "0")] [];
       XmlElement "Representation" [("id", "0")] []].
Proof.
  destruct (@static_duration_is_max_hint TickingClock _
              false accept_all whole_seconds read_duration "" "" print_doc
              vod_builder [] "" (rooted []) (rooted [period_xml]))
    as (doc & mpd & e' & Hrun & Hroot & Hcase); try reflexivity.
  change (first_period (rooted [period_xml])) with (Some period_xml) in Hcase.
  destruct Hcase as (Hattr & _ & Hleaves & _).
  exists doc, mpd, e'. split; [exact Hrun|]. split; [exact Hroot|].
  split; [exact Hattr | exact Hleaves].
Defined.

Lemma duration_attributes_witness :
  exists doc mpd,
    mpd_root doc = Some mpd /\
    xmlGetProp mpd "minBufferTime" = Some "PT2S" /\
    xmlGetProp mpd "minimumUpdatePeriod" = Some "PT6S" /\
    xmlGetProp mpd "timeShiftBufferDepth" = None /\
    xmlGetProp mpd "suggestedPresentationDelay" = None.
Proof.
  destruct (@duration_attributes_iff_positive TickingClock _
              false accept_all whole_seconds read_duration "" "" print_doc
              (env live_builder) live_after "" live_text live_run)
    as (doc & mpd & _ & _ & Hroot & Hmin & Hdyn).
  destruct (Hdyn eq_refl) as (Hup & Hdepth & Hdelay).
  exists doc, mpd. repeat split; assumption.
Defined.

Lemma structural_failure_witness :
  serialize false reject_all "previous manifest" (env url_builder) =
  Returns ((false, "previous manifest"), env url_builder).
Proof.
  apply (@structural_failure_aborts_serialization TickingClock _
           false reject_all whole_seconds read_duration "" "" print_doc
           (env url_builder) "previous manifest").
  apply (base_url_rejected reject_all url_builder [] [] "http://cdn/" (rooted []));
    reflexivity.
Defined.

Lemma missing_earliest_timestamp_witness :
  exists doc mpd e',
    serialize false accept_all "" (env silent_builder) =
      Returns ((true, print_doc doc), e') /\
    mpd_root doc = Some mpd /\
    xmlGetProp mpd "availabilityStartTime" = None /\
    In kNoEarliestTimestamp (log e').
Proof.
  destruct (@missing_earliest_timestamp_degrades TickingClock _
              false accept_all whole_seconds read_duration "" "" print_doc
              silent_builder [] "" silent_period []
              (rooted []) (rooted [period_xml]))
    as (doc & mpd & e' & Hrun & Hroot & Hattr & Hlog & _); try reflexivity.
  exists doc, mpd, e'. repeat split; assumption.
Defined.

Lemma dynamic_without_period_witness :
  serialize true accept_all "" (env empty_builder) = Fatal kPeriodsEmptyCheck /\
  serialize false accept_all "" (env empty_builder) = Undefined.
Proof.
  split.
  - apply (@dynamic_serialization_needs_a_period TickingClock _
             true accept_all whole_seconds read_duration "" "" print_doc
             (env empty_builder) "" (rooted []) eq_refl); reflexivity.
  - apply (@dynamic_serialization_needs_a_period TickingClock _
             false accept_all whole_seconds read_duration "" "" print_doc
             (env empty_builder) "" (rooted []) eq_refl); reflexivity.
Defined.

Lemma root_attributes_witness :
  exists doc mpd rest,
    mpd_root doc = Some mpd /\
    node_properties mpd =
      ([("xmlns", "urn:mpeg:dash:schema:mpd:2011");
        ("xmlns:xsi", "http://www.w3.org/2001/XMLSchema-instance");
        ("xmlns:xlink", "http://www.w3.org/1999/xlink");
        ("xsi:schemaLocation", "urn:mpeg:dash:schema:mpd:2011 DASH-MPD.xsd");
        ("xmlns:cenc", "urn:mpeg:cenc:2013")] ++
       [("profiles", "urn:mpeg:dash:profile:isoff-live:2011")] ++ rest)%list /\
    xmlGetProp mpd "profiles" = Some "urn:mpeg:dash:profile:isoff-live:2011" /\
    attr_count mpd "profiles" = 1%nat /\
    attr_count mpd "xmlns" = 1%nat.
Proof.
  destruct (@root_namespace_and_profile_attributes TickingClock _
              false accept_all whole_seconds read_duration "" "" print_doc
              (env live_builder) live_after "" live_text live_run)
    as (doc & mpd & rest & _ & _ & Hroot & Hprops & _ & _ & _ & _ & _ & _ &
        Hns & Hprofile & Hcount).
  exists doc, mpd, rest. split; [exact Hroot|]. split; [exact Hprops|].
  split; [exact Hprofile|]. split; [exact Hcount|].
  apply Hns. now left.
Defined.

Lemma unknown_enumerator_witness :
  serialize true accept_all "" (env odd_profile_builder) =
    Fatal "Unknown DASH profile: 0" /\
  serialize true accept_all "" (env odd_type_builder) =
    Fatal "Unknown MPD type: 7".
Proof.
  split.
  - apply (@unknown_enumerator_hits_notreached TickingClock _
             true accept_all whole_seconds read_duration "" "" print_doc
             odd_profile_builder [] "" (rooted []) (rooted [period_xml]) 0
             eq_refl eq_refl).
    reflexivity.
  - apply (@unknown_enumerator_hits_notreached TickingClock _
             true accept_all whole_seconds read_duration "" "" print_doc
             odd_type_builder [] "" (rooted []) (rooted [period_xml]) 7
             eq_refl eq_refl); reflexivity.
Defined.

(** With assertions compiled out, a profile outside the switch is not
    fatal: ToString returns true, nothing is logged, and the document has
    no profiles attribute. *)
Lemma unknown_profile_continues_without_assertions :
  serialize false accept_all "" (env odd_profile_builder) =
    Returns
      ((true,
        "<MPD xmlns='urn:mpeg:dash:schema:mpd:2011' xmlns:xsi='http://www.w3.org/2001/XMLSchema-instance' xmlns:xlink='http://www.w3.org/1999/xlink' xsi:schemaLocation='urn:mpeg:dash:schema:mpd:2011 DASH-MPD.xsd' xmlns:cenc='urn:mpeg:cenc:2013' minBufferTime='PT2S' type='static' mediaPresentationDuration='PT7S'><Period><AdaptationSet id='0'><Representation id='0'></Representation><Representation id='0'></Representation><Representation id='0'></Representation></AdaptationSet></Period></MPD>"),
       env odd_profile_builder) /\
  match GenerateMpd false accept_all whole_seconds read_duration "" ""
          (env odd_profile_builder) with
  | Returns (Some doc, _) =>
      option_map (fun mpd => xmlGetProp mpd "profiles") (mpd_root doc) = Some None
  | _ => False
  end.
Proof. split; vm_compute; reflexivity. Qed.

(** ** Further sample runs *)

(** The serialization of [vod_builder]. *)
Definition vod_text : string :=
  Eval vm_compute in
    match serialize false accept_all "" (env vod_builder) with
    | Returns ((_, out), _) => out
    | _ => ""
    end.

Lemma vod_run :
  serialize false accept_all "" (env vod_builder) =
  Returns ((true, vod_text), env vod_builder).
Proof. vm_compute. reflexivity. Qed.

(** A live builder with a base URL, and its first serialization. *)
Definition cdn_builder := builder kLive kDynamic [live_period] ["http://cdn/"] "".

Definition cdn_text : string :=
  Eval vm_compute in
    match serialize false accept_all "" (env cdn_builder) with
    | Returns ((_, out), _) => out
    | _ => ""
    end.

Definition cdn_after : Env (C := TickingClock) :=
  Eval vm_compute in
    match serialize false accept_all "" (env cdn_builder) with
    | Returns (_, e) => e
    | _ => env cdn_builder
    end.

Lemma cdn_run :
  serialize false accept_all "" (env cdn_builder) =
  Returns ((true, cdn_text), cdn_after).
Proof. vm_compute. reflexivity. Qed.

(** The first serialization of [silent_builder]. *)
Definition silent_text : string :=
  Eval vm_compute in
    match serialize false accept_all "" (env silent_builder) with
    | Returns ((_, out), _) => out
    | _ => ""
    end.

Definition silent_after : Env (C := TickingClock) :=
  Eval vm_compute in
    match serialize false accept_all "" (env silent_builder) with
    | Returns (_, e) => e
    | _ => env silent_builder
    end.

Lemma silent_run :
  serialize false accept_all "" (env silent_builder) =
  Returns ((true, silent_text), silent_after).
Proof. vm_compute. reflexivity. Qed.

(** The document of [vod_builder] for a packager of version 1.2. *)
Definition generate (version url : string) (e : Env (C := TickingClock)) :=
  GenerateMpd false accept_all whole_seconds read_duration version url e.

Definition vod_doc : xmlDoc :=
  Eval vm_compute in
    match generate "1.2" "https://example.org/packager" (env vod_builder) with
    | Returns (Some doc, _) => doc
    | _ => mkDoc "" []
    end.

Lemma vod_doc_run :
  generate "1.2" "https://example.org/packager" (env vod_builder) =
  Returns (Some vod_doc, env vod_builder).
Proof. vm_compute. reflexivity. Qed.

(** Reads a "duration" attribute holding a signed whole number. *)
Definition signed_duration (n : xmlNode) : option float :=
  match xmlGetProp n "duration" with
  | Some s =>
      match NilZero.int_of_string s with
      | Some i => Some (binary_normalize 24 128 (Z.of_int i) 0 false)
      | None => None
      end
  | None => None
  end.

(** A root whose only hints are -4 and -9 seconds. *)
Definition negative_hints : xmlNode :=
  rooted [XmlElement "Period" []
            [XmlElement "AdaptationSet" []
               [representation "-4"; representation "-9"]]].

Lemma root_children_witness :
  exists doc mpd,
    generate "" "" (env cdn_builder) = Returns (Some doc, cdn_after) /\
    cdn_text = print_doc doc /\ mpd_root doc = Some mpd /\
    xmlChildrenNode mpd =
      [XmlElement "BaseURL" [] [XmlText "http://cdn/"]; period_xml].
Proof.
  destruct (@root_children_in_insertion_order TickingClock _
              false accept_all whole_seconds read_duration "" "" print_doc
              (env cdn_builder) cdn_after "" cdn_text cdn_run)
    as (doc & mpd & Hgen & Hout & Hroot & Hrest).
  cbv zeta in Hrest. destruct Hrest as (_ & _ & Hexact).
  exists doc, mpd. split; [exact Hgen|]. split; [exact Hout|].
  split; [exact Hroot|].
  apply Hexact. discriminate.
Defined.

Lemma builder_kept_witness :
  mpd_options_ (this live_after) = mpd_options_ live_builder /\
  periods_ (this live_after) = [live_period] /\
  base_urls_ (this live_after) = [] /\
  (availability_start_time_ (this live_after) = "" \/
   string_empty "" = true /\
   string_empty (availability_start_time_ (this live_after)) = false) /\
  (exists added, log live_after = ([] ++ added)%list) /\
  (kDynamic <> kDynamic -> this live_after = live_builder).
Proof.
  exact (@ToString_keeps_the_builder TickingClock _
           false accept_all whole_seconds read_duration "" "" print_doc
           (env live_builder) live_after "" (true, live_text) live_run).
Defined.

Lemma static_returns_witness :
  exists ok out e',
    serialize true reject_all "stale" (env url_builder) = Returns ((ok, out), e') /\
    this e' = url_builder.
Proof.
  apply (@static_serialization_always_returns TickingClock _
           true reject_all whole_seconds read_duration "" "" print_doc
           (env url_builder) "stale");
    [reflexivity | right; reflexivity].
Defined.

Lemma dynamic_returns_witness :
  returned (serialize false accept_all "" (env empty_builder)) = false.
Proof.
  apply (@dynamic_serialization_returns_unless TickingClock _
           false accept_all whole_seconds read_duration "" "" print_doc
           (env empty_builder) "" eq_refl (or_intror eq_refl)).
  split; [exists (rooted []), (rooted []); split; reflexivity|].
  split; [reflexivity | left; reflexivity].
Defined.

Lemma diagnostics_witness : log silent_after = [kNoEarliestTimestamp].
Proof.
  exact (@successful_serialization_logs_exactly TickingClock _
           false accept_all whole_seconds read_duration "" "" print_doc
           silent_builder [] "" silent_text silent_after silent_run).
Defined.

Lemma type_attributes_witness :
  exists doc mpd,
    generate "" "" (env live_builder) = Returns (Some doc, live_after) /\
    live_text = print_doc doc /\ mpd_root doc = Some mpd /\
    xmlGetProp mpd "type" = Some "dynamic" /\
    xmlGetProp mpd "publishTime" = Some "2016-01-11T15:10:24Z" /\
    xmlGetProp mpd "mediaPresentationDuration" = None.
Proof.
  exact (@type_specific_attributes TickingClock _
           false accept_all whole_seconds read_duration "" "" print_doc
           live_builder [] "" live_text live_after live_run).
Defined.

Lemma static_repeat_witness :
  exists e2,
    serialize false accept_all "stale" (env vod_builder) =
      Returns ((true, vod_text), e2) /\
    this e2 = vod_builder.
Proof.
  exact (@static_serialization_repeats TickingClock _
           false accept_all whole_seconds read_duration "" "" print_doc
           (env vod_builder) (env vod_builder) "" "stale" vod_text
           eq_refl vod_run).
Defined.

Lemma dynamic_repeat_witness :
  exists mpd e2,
    generate "" "" (env live_builder) =
      Returns (Some (wrap_doc "" "" mpd), live_after) /\
    live_text = print_doc (wrap_doc "" "" mpd) /\
    serialize false accept_all "" live_after =
      Returns
        ((true,
          print_doc (wrap_doc "" ""
                       (xmlSetProp mpd "publishTime" "2016-01-11T15:10:30Z"))),
         e2) /\
    xmlGetProp mpd "availabilityStartTime" = Some "2016-01-11T15:10:21Z" /\
    availability_start_time_ (this e2) = "2016-01-11T15:10:21Z".
Proof.
  exact (@dynamic_serialization_repeats_but_for_publishTime TickingClock _
           false accept_all whole_seconds read_duration "" "" print_doc
           (env live_builder) live_after "" "" live_text eq_refl live_run).
Defined.

Lemma document_structure_witness :
  exists mpd,
    version vod_doc = "1.0" /\
    is_element mpd = true /\ node_name mpd = "MPD" /\
    doc_children vod_doc =
      [XmlComment "Generated with https://example.org/packager version 1.2"; mpd] /\
    filter is_element (doc_children vod_doc) = [mpd].
Proof.
  exact (@generated_document_structure TickingClock _
           false accept_all whole_seconds read_duration
           "1.2" "https://example.org/packager"
           (env vod_builder) (env vod_builder) vod_doc vod_doc_run).
Defined.

Lemma negative_hints_witness :
  exists mpd' duration e',
    GetStaticMpdDuration false signed_duration negative_hints (env vod_builder) =
      Returns ((mpd', duration), e') /\
    gt zero duration = false.
Proof.
  destruct (@static_duration_is_never_negative TickingClock
              false signed_duration negative_hints vod_builder []
              (XmlElement "Period" []
                 [XmlElement "AdaptationSet" []
                    [representation "-4"; representation "-9"]]))
    as (mpd' & duration & e' & Hrun & _ & Hpos & _);
    try reflexivity.
  - vm_compute. repeat constructor.
  - exists mpd', duration, e'. split; [exact Hrun | exact Hpos].
Defined.

Lemma offset_range_witness :
  ceilZ d5_4 = Some (- (-6)) /\ - 2 ^ 31 <= -6 < 2 ^ 31 /\
  (Positive d5_4 = true -> -6 <= -1) /\ (Positive d5_4 = false -> 0 <= -6).
Proof. exact (start_time_offset_range d5_4 eq_refl). Defined.

Lemma date_time_fields_witness :
  let e1 := UTCExplode t0 in
  let e2 := UTCExplode (t0 + 999999) in
  year e1 = year e2 /\ month e1 = month e2 /\
  day_of_month e1 = day_of_month e2 /\ hour e1 = hour e2 /\
  minute e1 = minute e2 /\ second e1 = second e2.
Proof.
  apply (FormatXmlDateTime_injective (UTCExplode t0) (UTCExplode (t0 + 999999)));
    [repeat split; vm_compute; discriminate
    | repeat split; vm_compute; discriminate
    | vm_compute; reflexivity].
Defined.

Lemma additions_witness :
  live (env vod_builder)
       [CallAddBaseUrl "http://a/"; CallAddPeriod; CallAddBaseUrl "http://b/"] =
  Returns
    (env (builder kOnDemand kStatic
            [vod_period; empty_period (mpd_options_ vod_builder)]
            ["http://a/"; "http://b/"] "")).
Proof.
  exact (@additions_accumulate TickingClock _
           false accept_all whole_seconds read_duration "" "" print_doc
           empty_period (env vod_builder)
           [CallAddBaseUrl "http://a/"; CallAddPeriod; CallAddBaseUrl "http://b/"]
           eq_refl).
Defined.

Lemma late_start_time_witness :
  exists mpd1 e1 mpd2 e2,
    serialize false accept_all "" (env silent_builder) =
      Returns ((true, print_doc (wrap_doc "" "" mpd1)), e1) /\
    xmlGetProp mpd1 "availabilityStartTime" = None /\
    live e1 [PeriodUpdated 0 live_period; CallToString ""] = Returns e2 /\
    xmlGetProp mpd2 "availabilityStartTime" = Some "2016-01-11T15:10:24Z" /\
    availability_start_time_ (this e2) = "2016-01-11T15:10:24Z".
Proof.
  destruct (@start_time_is_computed_once_a_timestamp_appears TickingClock _
              false accept_all whole_seconds read_duration "" "" print_doc
              empty_period silent_builder [] "" "" silent_period live_period []
              d5_4 (-6) t0 (t0 + 3000000) (t0 + 6000000)
              (mkTicking (t0 + 3000000) 3000000)
              (mkTicking (t0 + 6000000) 3000000)
              (mkTicking (t0 + 9000000) 3000000)
              (rooted []) (rooted [period_xml]))
    as (mpd1 & e1 & e1' & mpd2 & e2 & _ & Hrun1 & Hattr1 & _ & Hstep & _ &
        Hrun2 & Hattr2 & Hcache); try reflexivity.
  exists mpd1, e1, mpd2, e2. split; [exact Hrun1|]. split; [exact Hattr1|].
  split; [|split; [exact Hattr2 | exact Hcache]].
  unfold live. cbn [run_calls]. rewrite Hstep. cbn [step].
  unfold serialize in Hrun2. rewrite Hrun2. reflexivity.
Defined.

Lemma file_url_witness :
  @MakePathsRelativeToMpd HostPath.posix "file:///a/b/manifest.mpd"
    (mkMediaInfo (Some "/a/b/c/seg.mp4") None None) =
  @MakePathsRelativeToMpd HostPath.posix "/a/b/manifest.mpd"
    (mkMediaInfo (Some "/a/b/c/seg.mp4") None None).
Proof.
  exact (@file_url_and_plain_path_agree HostPath.posix "/a/b/manifest.mpd"
           (mkMediaInfo (Some "/a/b/c/seg.mp4") None None) eq_refl).
Defined.

(** ** Where two claims stop short *)

(** A period whose first leaf has a "duration" that is no number. *)
Definition unreadable_xml : xmlNode :=
  XmlElement "Period" []
    [XmlElement "AdaptationSet" [("id", "0")]
       [representation "abc"; representation "7"]].

Definition unreadable_period : Period := mkPeriod (Some unreadable_xml) None.

(** A period whose hints are -4 and -9 seconds. *)
Definition negative_xml : xmlNode :=
  XmlElement "Period" []
    [XmlElement "AdaptationSet" [("id", "0")]
       [representation "-4"; representation "-9"]].

Definition negative_period : Period := mkPeriod (Some negative_xml) None.

(** A visited leaf whose "duration" attribute cannot be read keeps it
    through a static serialization: the leaves end with "abc" and without
    the 7.  Hints below zero do not count: with the hints -4 and -9 the
    duration printed is zero, not the largest hint -4. *)
Lemma unreadable_hint_stays_and_negative_hints_do_not_count :
  match generate "" "" (env (builder kOnDemand kStatic [unreadable_period] [] "")) with
  | Returns (Some doc, _) =>
      option_map
        (fun mpd =>
           (xmlGetProp mpd "mediaPresentationDuration",
            map (fun leaf => xmlGetProp leaf "duration")
                (flat_map visited_leaves (xmlChildrenNode mpd))))
        (mpd_root doc)
      = Some (Some "PT7S", [Some "abc"; None])
  | _ => False
  end /\
  map (fun leaf => xmlGetProp leaf "duration") (visited_leaves unreadable_xml)
    = [Some "abc"; Some "7"] /\
  match GenerateMpd false accept_all whole_seconds signed_duration "" ""
          (env (builder kOnDemand kStatic [negative_period] [] "")) with
  | Returns (Some doc, _) =>
      option_map (fun mpd => xmlGetProp mpd "mediaPresentationDuration")
                 (mpd_root doc)
      = Some (Some "PT0S")
  | _ => False
  end /\
  map (fun h => whole_seconds (double_of_float h))
      (duration_hints signed_duration (visited_leaves negative_xml))
    = ["PT-4S"; "PT-9S"].
Proof. repeat split; vm_compute; reflexivity. Qed.

(** With assertions compiled out a serialization with a profile outside
    the switch succeeds, and its root has no profiles attribute at all. *)
Lemma successful_serialization_without_profiles :
  match serialize false accept_all "" (env odd_profile_builder) with
  | Returns ((ok, _), _) => ok = true
  | _ => False
  end /\
  match generate "" "" (env odd_profile_builder) with
  | Returns (Some doc, _) =>
      option_map (fun mpd => (xmlGetProp mpd "profiles", attr_count mpd "profiles"))
                 (mpd_root doc)
      = Some (None, O)
  | _ => False
  end.
Proof. split; vm_compute; reflexivity. Qed.

